(** * climate-downloads: the CMIP6 and ERA5 download notebooks

    A shallow embedding of the two notebooks of the repository,
    [download_cmip6.ipynb] and the ERA5 notebook, and the properties
    their description states about them.

    Conventions of the embedding.
    - Coordinates (degrees of latitude and longitude, pressure levels)
      are exact rationals [Q]: every float64 is a rational, and the
      arithmetic of the notebooks ([+], [-], [%], [//], comparisons) is
      taken exactly, rounding of the float operations is not modelled.
    - Python exceptions are the type [exn]; code that can raise returns a
      [result].
    - A Python dict whose key order matters is an association list; the
      files on disk are a finite set of paths ([gset string]).
    - Calls into xarray whose result the notebooks only pass on (the
      grid behind a store url, label-based selection, renaming) are the
      fields of the class [XarrayOps]; the answer of the remote ERA5 API
      is the class [Era5.CdsClient]. Every theorem holds for all
      instances.
    - A run of a cell is a function from the state of the world (files
      on disk, messages so far, bound notebook globals) to the new state
      and a result or an exception.

    Part I holds the embedding, Part II the lemmas and the theorems. *)

From Stdlib Require Import QArith Qround Qabs ZArith List String Ascii Lia Lqa Sorted.
From stdpp Require Import gmap strings list sets sorting pretty.

Local Open Scope Z_scope.
Local Open Scope Q_scope.
Local Open Scope string_scope.
Local Open Scope list_scope.

(** * Part I: the embedding *)

(** ** Exceptions *)

Inductive exn : Type :=
| IndexError
| KeyError
| TypeError
| NameError
| ValueError
| FileNotFoundError
| OSError.

Inductive result (A : Type) : Type :=
| Ok (a : A)
| Raise (e : exn).

Arguments Ok {A} a.
Arguments Raise {A} e.

Global Instance result_ret : MRet result := fun _ a => Ok a.
Global Instance result_bind : MBind result := fun _ _ f r =>
  match r with
  | Ok a => f a
  | Raise e => Raise e
  end.

Global Instance exn_eq_dec : EqDecision exn.
Proof. solve_decision. Defined.

Definition is_ok {A} (r : result A) : bool :=
  match r with Ok _ => true | Raise _ => false end.

(** ** Numbers: Python's [%] and [//] on exact rationals *)

Module Py.

(** [x // y] for floats is [floor (x / y)]; with [y = 0] numpy gives
[inf] or [nan] (and a warning), which equals no finite number. *)
Definition floordiv (x y : Q) : option Z :=
if Qeq_bool y 0 then None else Some (Qfloor (x / y)).

(** [x % m] for a non-zero modulus: [x - m * floor (x / m)]. *)
Definition mod_ (x m : Q) : Q := x - m * inject_Z (Qfloor (x / m)).

(** [(x // y) == k] *)
Definition floordiv_is (x y : Q) (k : Z) : bool :=
match floordiv x y with
| Some d => Z.eqb d k
| None => false
end.

Definition gtb (x y : Q) : bool := negb (Qle_bool x y).
Definition ltb (x y : Q) : bool := negb (Qle_bool y x).

End Py.

(** ** The grid *)

(** A value of the primary variable: a number or NaN. *)
Inductive cell : Type :=
| NaN
| Val (q : Q).

Definition isnan (c : cell) : bool :=
  match c with NaN => true | Val _ => false end.

(** The calendar type of the time values ([cftime] classes, or numpy
    [datetime64]). *)
Inductive time_type : Type :=
| Datetime64
| DatetimeGregorian
| DatetimeNoLeap
| Datetime360Day.

Record timestamp : Type := mkTime {
  t_year : Z;
  t_month : Z;
  t_day : Z
}.

(** An xarray dataset with one primary variable of dimensions
    (time, lat, lon): [ds_var] is indexed [time][lat][lon].
    [ds_lat_dim] is the test ['lat' in ds[variable_id].dims] (false for a
    curvilinear grid, whose lat/lon are 2-D fields); [ds_plev] is the
    pressure-level coordinate. *)
Record dataset : Type := mkDataset {
  ds_lat_dim : bool;
  ds_lat : list Q;
  ds_lon : list Q;
  ds_time : list timestamp;
  ds_time_type : time_type;
  ds_plev : list Q;
  ds_var : list (list (list cell));
  ds_source_id : string
}.

Definition with_lon (ds : dataset) (lons : list Q) : dataset :=
  mkDataset (ds_lat_dim ds) (ds_lat ds) lons (ds_time ds) (ds_time_type ds)
            (ds_plev ds) (ds_var ds) (ds_source_id ds).

(** [np.roll a s]: the element at index [i] moves to index
    [(i + s) mod n]. *)
Definition np_roll {A} (s : Z) (l : list A) : list A :=
  let n := Z.of_nat (length l) in
  if Z.eqb n 0 then l
  else let k := Z.to_nat (Z.modulo (- s) n) in skipn k l ++ firstn k l.

(** [ds.roll(lon=s, roll_coords=True)]: the coordinate and the variable
    are rolled together along the longitude axis. *)
Definition ds_roll_lon (s : Z) (ds : dataset) : dataset :=
  mkDataset (ds_lat_dim ds) (ds_lat ds) (np_roll s (ds_lon ds)) (ds_time ds)
            (ds_time_type ds) (ds_plev ds)
            (List.map (List.map (np_roll s)) (ds_var ds)) (ds_source_id ds).

(** [ds.assign_coords(lon = f(ds.lon))] *)
Definition assign_lon (f : Q -> Q) (ds : dataset) : dataset :=
  with_lon ds (List.map f (ds_lon ds)).

(** [(mask).nonzero()[0][0]]: index of the first true entry. *)
Fixpoint first_nonzero (mask : list bool) : result nat :=
  match mask with
  | [] => Raise IndexError
  | true :: _ => Ok O
  | false :: rest => n ← first_nonzero rest; Ok (S n)
  end.

(** ** Subset specifications *)

Record subset_params : Type := mkSubset {
  sp_lat : Q * Q;
  sp_lon : Q * Q;
  sp_time : list (string * (string * string));
  fn_suffix : string;
  lon_range : Z;
  lon_origin : Q
}.

(** ** [fix_lons] *)

Definition to_180 (x : Q) : Q := Py.mod_ (x + 180) 360 - 180.
Definition to_360 (x : Q) : Q := Py.mod_ x 360.

Definition fix_lons (ds : dataset) (subset_params : subset_params) : result dataset :=
  if Z.eqb (lon_range subset_params) 180 then
    let ds := if existsb (fun x => Py.gtb x 180) (ds_lon ds)
              then assign_lon to_180 ds else ds in
    match ds_lon ds with
    | [] => Raise IndexError
    | lon0 :: _ =>
        if Py.gtb lon0 (-175)
        then Ok (ds_roll_lon (Z.of_nat (length (ds_lon ds)) / 2) ds)
        else Ok ds
    end
  else if Z.eqb (lon_range subset_params) 360 then
    let ds := assign_lon to_360 ds in
    k ← first_nonzero
          (List.map (fun x => Py.floordiv_is x (lon_origin subset_params) 1)
                    (ds_lon ds));
    Ok (ds_roll_lon (- Z.of_nat k) ds)
  else Ok ds.


(** ** Properties of a longitude coordinate *)

Definition strictly_increasing (l : list Q) : Prop := Sorted Qlt l.

Definition within (lo hi : Q) (l : list Q) : Prop :=
  Forall (fun x => lo <= x /\ x < hi) l.

(** ** Label slices on an increasing coordinate *)




(** ** Strings: [str.split], [re.sub] with a literal pattern, [str(int)] *)

(** [s.split(sep)] for a one-character separator. *)
Fixpoint split_on (sep : ascii) (s : string) : list string :=
  match s with
  | EmptyString => [EmptyString]
  | String c rest =>
      match split_on sep rest with
      | [] => [EmptyString]
      | w :: ws =>
          if Ascii.eqb c sep then EmptyString :: w :: ws
          else String c w :: ws
      end
  end.

(** The scan of [re.sub(pat, rep, s)] for a non-empty literal [pat]:
    left to right, a match is replaced and the scan resumes after it
    ([skip] counts the characters of a match still to pass over). *)
Fixpoint re_sub_scan (pat rep : string) (skip : nat) (s : string) : string :=
  match s with
  | EmptyString => EmptyString
  | String c rest =>
      match skip with
      | S k => re_sub_scan pat rep k rest
      | O =>
          if String.prefix pat s
          then rep +:+ re_sub_scan pat rep (String.length pat - 1) rest
          else String c (re_sub_scan pat rep O rest)
      end
  end.

(** With the empty pattern [re.sub] inserts [rep] at every position. *)
Fixpoint re_sub_empty (rep : string) (s : string) : string :=
  match s with
  | EmptyString => rep
  | String c rest => rep +:+ String c (re_sub_empty rep rest)
  end.

(** [re.sub(pat, rep, s)] for a pattern without regex metacharacters
    (the notebooks use ['-'], ['-31'], ['hr'] and variable names). *)
Definition re_sub (pat rep s : string) : string :=
  match pat with
  | EmptyString => re_sub_empty rep s
  | _ => re_sub_scan pat rep O s
  end.

(** [str(n)] for an integer. *)
Definition str (n : Z) : string := pretty n.

(** [sep.join(l)] *)
Definition join (sep : string) (l : list string) : string := String.concat sep l.

(** [l[i]] *)
Definition getitem {A} (l : list A) (i : nat) : result A :=
  match nth_error l i with
  | Some x => Ok x
  | None => Raise IndexError
  end.

(** A comprehension whose body can raise: left to right, the first
    exception ends it. *)
Fixpoint mapM {A B} (f : A -> result B) (l : list A) : result (list B) :=
  match l with
  | [] => Ok []
  | x :: rest => y ← f x; ys ← mapM f rest; Ok (y :: ys)
  end.

(** *** Date strings

    The time ranges of a subset specification are strings
    ["YYYY-MM-DD"]. *)

Definition is_digit (c : ascii) : bool :=
  let n := nat_of_ascii c in Nat.leb 48 n && Nat.leb n 57.

Fixpoint all_digits (s : string) : bool :=
  match s with
  | EmptyString => true
  | String c rest => is_digit c && all_digits rest
  end.



Definition iso_date (year month day : string) : string :=
  year +:+ "-" +:+ month +:+ "-" +:+ day.

(** ** The parameter resolver (the [subset_query] cell) *)

(** A Python dict with string keys, in insertion order. *)
Definition pydict (V : Type) : Type := list (string * V).

Fixpoint dict_get {V} (d : pydict V) (k : string) : result V :=
  match d with
  | [] => Raise KeyError
  | (k', v) :: rest => if String.eqb k k' then Ok v else dict_get rest k
  end.

Definition dict_keys {V} (d : pydict V) : list string := List.map fst d.

(** [mask.nonzero()[0]]: the indices of the true entries. *)
Fixpoint nonzero_from (i : nat) (mask : list bool) : list nat :=
  match mask with
  | [] => []
  | b :: rest => if b then i :: nonzero_from (S i) rest else nonzero_from (S i) rest
  end.

Definition nonzero (mask : list bool) : list nat := nonzero_from O mask.

(** What [itemgetter] applied to the indices and then to [l] returns:
    with one index the item itself, with several the tuple of the
    items, with none a [TypeError]. *)
Inductive got : Type :=
| Item (s : string)
| Tuple (l : list string).

Definition itemgetter (idxs : list nat) (l : list string) : result got :=
  match idxs with
  | [] => Raise TypeError
  | [i] => x ← getitem l i; Ok (Item x)
  | _ => xs ← mapM (getitem l) idxs; Ok (Tuple xs)
  end.

(** [for k in s] over a string yields its characters. *)
Fixpoint chars (s : string) : list string :=
  match s with
  | EmptyString => []
  | String c rest => String c EmptyString :: chars rest
  end.

(** [for k in g] *)
Definition iter (g : got) : list string :=
  match g with
  | Item s => chars s
  | Tuple l => l
  end.

(** [for k in [g]]: a one-element list around what [itemgetter]
    returned; a tuple cannot be concatenated to a string. *)
Definition iter_singleton (g : got) : result (list string) :=
  match g with
  | Item s => Ok [s]
  | Tuple _ => Raise TypeError
  end.

(** [k+" == '"+v+"'"] *)
Definition equality (k v : string) : string := k +:+ " == '" +:+ v +:+ "'".

(** [len(np.unique(l))] *)
Definition n_unique (l : list string) : nat := length (remove_dups l).

(** [' or '.join([k+" == '"+data_params[k]+"'" for data_params in data_params_all])] *)
Definition or_group (data_params_all : list (pydict string)) (k : string) : result string :=
  terms ← mapM (fun data_params => v ← dict_get data_params k; Ok (equality k v))
               data_params_all;
  Ok (join " or " terms).

Definition subset_query (data_params_all : list (pydict string)) : result string :=
  first ← getitem data_params_all 0;
  let keys := dict_keys first in
  source_calls ← mapM (fun key =>
                         vals ← mapM (fun x => dict_get x key) data_params_all;
                         Ok (Nat.eqb (n_unique vals) 1))
                      keys;
  (* First get all the ones with the same value for each key *)
  same ← itemgetter (nonzero source_calls) keys;
  terms ← mapM (fun k => v ← dict_get first k; Ok (equality k v)) (iter same);
  let subset_query := join " and " terms in
  (* Now add all that are different: those that need an OR statement *)
  let different := nonzero (List.map negb source_calls) in
  if Nat.eqb (length different) 1 then
    g ← itemgetter different keys;
    ks ← iter_singleton g;
    groups ← mapM (or_group data_params_all) ks;
    Ok (subset_query +:+ " and (" +:+ join ") and (" groups +:+ ")")
  else if Nat.ltb 1 (length different) then
    g ← itemgetter different keys;
    groups ← mapM (or_group data_params_all) (iter g);
    Ok (subset_query +:+ " and (" +:+ join ") and (" groups +:+ ")")
  else Ok subset_query.

(** The query the description asks for, in the resolver's order: one
    equality for each key with a single value across the batch, then one
    parenthesised OR group for each key whose value varies. *)
Definition common_keys (data_params_all : list (pydict string)) : list string :=
  match data_params_all with
  | [] => []
  | first :: _ =>
      List.filter (fun k =>
                match mapM (fun x => dict_get x k) data_params_all with
                | Ok vals => Nat.eqb (n_unique vals) 1
                | Raise _ => false
                end) (dict_keys first)
  end.

Definition varying_keys (data_params_all : list (pydict string)) : list string :=
  match data_params_all with
  | [] => []
  | first :: _ =>
      List.filter (fun k =>
                match mapM (fun x => dict_get x k) data_params_all with
                | Ok vals => negb (Nat.eqb (n_unique vals) 1)
                | Raise _ => false
                end) (dict_keys first)
  end.

Definition value_of (d : pydict string) (k : string) : string :=
  match dict_get d k with Ok v => v | Raise _ => "" end.

Definition described_query (data_params_all : list (pydict string)) : string :=
  match data_params_all with
  | [] => ""
  | first :: _ =>
      join " and "
        (List.map (fun k => equality k (value_of first k)) (common_keys data_params_all)
         ++ List.map (fun k => "(" +:+ join " or "
                                 (List.map (fun d => equality k (value_of d k)) data_params_all)
                               +:+ ")")
                     (varying_keys data_params_all))
  end.

(** ** Preparing a loaded grid *)

(** [mask.nonzero()[0]] followed by [isel]: positional selection. *)
Definition np_take {A} (idxs : list nat) (l : list A) : result (list A) :=
  mapM (getitem l) idxs.

Definition isel_lat (idxs : list nat) (ds : dataset) : result dataset :=
  lats ← np_take idxs (ds_lat ds);
  var ← mapM (np_take idxs) (ds_var ds);
  Ok (mkDataset (ds_lat_dim ds) lats (ds_lon ds) (ds_time ds) (ds_time_type ds)
                (ds_plev ds) var (ds_source_id ds)).

Definition isel_lon (idxs : list nat) (ds : dataset) : result dataset :=
  lons ← np_take idxs (ds_lon ds);
  var ← mapM (mapM (np_take idxs)) (ds_var ds);
  Ok (mkDataset (ds_lat_dim ds) (ds_lat ds) lons (ds_time ds) (ds_time_type ds)
                (ds_plev ds) var (ds_source_id ds)).

(** [np.round(x, 10)], as the integer number of 1e-10 units: round half
    to even. *)
Definition round_half_even (x : Q) : Z :=
  let f := Qfloor x in
  match Qcompare (x - inject_Z f) (1 # 2) with
  | Lt => f
  | Gt => (f + 1)%Z
  | Eq => if Z.even f then f else (f + 1)%Z
  end.

Definition np_round10 (x : Q) : Z := round_half_even (x * inject_Z (10 ^ 10)).

(** [len(np.unique(np.round(coord, 10))) != len(coord)] *)
Definition has_duplicates (coord : list Q) : bool :=
  negb (Nat.eqb (length (remove_dups (List.map np_round10 coord))) (length coord)).

(** [ds.isel(lon=1, time=1)[variable_id].values]: the primary variable
    along lat at the second longitude and second time step. *)
Definition reference_along_lat (ds : dataset) : result (list cell) :=
  slab ← getitem (ds_var ds) 1;
  mapM (fun row => getitem row 1) slab.

(** [ds.isel(lat=1, time=1)[variable_id].values] *)
Definition reference_along_lon (ds : dataset) : result (list cell) :=
  slab ← getitem (ds_var ds) 1;
  getitem slab 1.

Definition not_nan (cells : list cell) : list bool :=
  List.map (fun c => negb (isnan c)) cells.

Definition duplicate_warning (ds : dataset) (axis : string) : string :=
  "Model " +:+ ds_source_id ds +:+ " has duplicate " +:+ axis +:+
  " values; attempting to compensate by dropping " +:+ axis +:+
  " values that are nan in the main variable in the first timestep".

(** The two tests of the "fix coordinate doubling" step: each returns
    the grid, compensated or not, and the warnings it issued. *)
Definition compensate_lat (ds : dataset) : result (dataset * list string) :=
  if has_duplicates (ds_lat ds) then
    ref ← reference_along_lat ds;
    ds ← isel_lat (nonzero (not_nan ref)) ds;
    Ok (ds, [duplicate_warning ds "lat"])
  else Ok (ds, []).

Definition compensate_lon (ds : dataset) : result (dataset * list string) :=
  if has_duplicates (ds_lon ds) then
    ref ← reference_along_lon ds;
    ds ← isel_lon (nonzero (not_nan ref)) ds;
    Ok (ds, [duplicate_warning ds "lon"])
  else Ok (ds, []).

Definition fix_coordinate_doubling (ds : dataset) : result (dataset * list string) :=
  if ds_lat_dim ds then
    '(ds, w1) ← compensate_lat ds;
    '(ds, w2) ← compensate_lon ds;
    Ok (ds, w1 ++ w2)
  else Ok (ds, []).

(** Keeping the entries of a list that a mask marks. *)
Fixpoint keep {A} (mask : list bool) (l : list A) : list A :=
  match mask, l with
  | b :: mask', x :: l' => if b then x :: keep mask' l' else keep mask' l'
  | _, _ => []
  end.

(** The grid without the latitudes (longitudes) that a mask leaves
    out: the coordinate and every slab of the variable lose the same
    positions. *)
Definition keep_lat (mask : list bool) (ds : dataset) : dataset :=
  mkDataset (ds_lat_dim ds) (keep mask (ds_lat ds)) (ds_lon ds) (ds_time ds)
            (ds_time_type ds) (ds_plev ds)
            (List.map (keep mask) (ds_var ds)) (ds_source_id ds).

Definition keep_lon (mask : list bool) (ds : dataset) : dataset :=
  mkDataset (ds_lat_dim ds) (ds_lat ds) (keep mask (ds_lon ds)) (ds_time ds)
            (ds_time_type ds) (ds_plev ds)
            (List.map (List.map (keep mask)) (ds_var ds)) (ds_source_id ds).

(** The shape of the variable agrees with the coordinates. *)
Definition well_shaped (ds : dataset) : Prop :=
  length (ds_var ds) = length (ds_time ds) /\
  Forall (fun slab => length slab = length (ds_lat ds) /\
                      Forall (fun row => length row = length (ds_lon ds)) slab)
         (ds_var ds).

(** *** Time axis *)

Definition time_leb (a b : timestamp) : bool :=
  if Z.ltb (t_year a) (t_year b) then true
  else if Z.ltb (t_year b) (t_year a) then false
  else if Z.ltb (t_month a) (t_month b) then true
  else if Z.ltb (t_month b) (t_month a) then false
  else Z.leb (t_day a) (t_day b).

Definition time_eqb (a b : timestamp) : bool :=
  Z.eqb (t_year a) (t_year b) && Z.eqb (t_month a) (t_month b)
  && Z.eqb (t_day a) (t_day b).

(** [ds.time.max()] *)
Definition time_max (times : list timestamp) : result timestamp :=
  match times with
  | [] => Raise ValueError
  | t :: rest => Ok (fold_left (fun m x => if time_leb m x then x else m) rest t)
  end.

(** Stable insertion sort by time of time steps paired with data. *)
Fixpoint insert_by_time {A} (x : timestamp * A) (l : list (timestamp * A))
  : list (timestamp * A) :=
  match l with
  | [] => [x]
  | y :: rest =>
      if time_leb (fst x) (fst y) && negb (time_eqb (fst x) (fst y))
      then x :: y :: rest
      else y :: insert_by_time x rest
  end.

Definition sort_by_time {A} (l : list (timestamp * A)) : list (timestamp * A) :=
  fold_left (fun acc x => insert_by_time x acc) l [].

(** [np.sort(ds.time)] *)
Definition np_sort_times (times : list timestamp) : list timestamp :=
  List.map fst (sort_by_time (List.map (fun t => (t, tt)) times)).

(** [(ds.time.values != np.sort(ds.time)).any()] *)
Definition time_unsorted (ds : dataset) : bool :=
  existsb (fun p => negb (time_eqb (fst p) (snd p)))
          (combine (ds_time ds) (np_sort_times (ds_time ds))).

(** [ds.sortby('time')] *)
Definition sortby_time (ds : dataset) : dataset :=
  let sorted := sort_by_time (combine (ds_time ds) (ds_var ds)) in
  mkDataset (ds_lat_dim ds) (ds_lat ds) (ds_lon ds) (List.map fst sorted)
            (ds_time_type ds) (ds_plev ds) (List.map snd sorted) (ds_source_id ds).

Definition is_360_day_type (t : time_type) : bool :=
  match t with Datetime360Day => true | _ => false end.

(** [(ds.time.max().dt.day==30) | (type(ds.time.values[0]) == Datetime360Day)] *)
Definition thirty_day_months (ds : dataset) : result bool :=
  tmax ← time_max (ds_time ds);
  _ ← getitem (ds_time ds) 0;
  Ok (Z.eqb (t_day tmax) 30 || is_360_day_type (ds_time_type ds))%bool.

(** ** The notebooks as programs: files, messages, exceptions *)

(** What a run does to the outside world, in order. *)
Inductive event : Type :=
| Warn (msg : string)                     (* warnings.warn *)
| Print (msg : string)                    (* print *)
| PrintLevels (levels : list Q)           (* print(ds_tmp.plev.values) *)
| PrintNotContained (target : Q)
| Remove (path : string)                  (* os.remove *)
| Mkdir (path : string)                   (* os.mkdir *)
| OpenZarr (url : string)                 (* xr.open_zarr: the remote load *)
| Retrieve (years : list Z) (path : string) (* c.retrieve: the remote fetch *)
| OpenDataset (path : string)             (* xr.open_dataset *)
| OpenMfdataset (paths : list string)     (* xr.open_mfdataset *)
| ToNetcdf (path : string).               (* ds.to_netcdf *)

(** The state a cell runs in: the paths that exist on disk, the events
    so far, the notebook globals [ds_tmp] and [subset_params] that are
    bound, and the value of the global [fn1] when it is bound. *)
Record world : Type := mkWorld {
  files : gset string;
  log : list event;
  bound : gset string;
  fn1 : option string
}.

Definition M (A : Type) : Type := world -> world * result A.

Global Instance M_ret : MRet M := fun _ a w => (w, Ok a).
Global Instance M_bind : MBind M := fun _ _ f m w =>
  match m w with
  | (w', Ok a) => f a w'
  | (w', Raise e) => (w', Raise e)
  end.

Definition lift {A} (r : result A) : M A := fun w => (w, r).
Definition raise {A} (e : exn) : M A := fun w => (w, Raise e).

Definition emit (ev : event) : M unit := fun w =>
  (mkWorld (files w) (log w ++ [ev]) (bound w) (fn1 w), Ok tt).

Definition os_path_exists (path : string) : M bool := fun w =>
  (w, Ok (bool_decide (path ∈ files w))).

Definition os_remove (path : string) : M unit := fun w =>
  if bool_decide (path ∈ files w)
  then (mkWorld (files w ∖ {[path]}) (log w ++ [Remove path]) (bound w) (fn1 w), Ok tt)
  else (w, Raise FileNotFoundError).

Definition os_mkdir (path : string) : M unit := fun w =>
  (mkWorld (files w ∪ {[path]}) (log w ++ [Mkdir path]) (bound w) (fn1 w), Ok tt).

Definition to_netcdf (path : string) : M unit := fun w =>
  (mkWorld (files w ∪ {[path]}) (log w ++ [ToNetcdf path]) (bound w) (fn1 w), Ok tt).

(** Assignment to, and [del] of, a notebook global. *)
Definition assign (name : string) : M unit := fun w =>
  (mkWorld (files w) (log w) (bound w ∪ {[name]}) (fn1 w), Ok tt).

Definition del (name : string) : M unit := fun w =>
  if bool_decide (name ∈ bound w)
  then (mkWorld (files w) (log w) (bound w ∖ {[name]}) (fn1 w), Ok tt)
  else (w, Raise NameError).

(** [for x in l: body] *)
Fixpoint for_each {A} (l : list A) (body : A -> M unit) : M unit :=
  match l with
  | [] => mret tt
  | x :: rest => _ ← body x; for_each rest body
  end.

(** [try: body  except KeyError: handler] *)
Definition try_except_KeyError {A} (body handler : M A) : M A := fun w =>
  match body w with
  | (w', Raise KeyError) => handler w'
  | r => r
  end.

(** ** The CMIP6 notebook: the main processing cell *)

Record plev_params : Type := mkPlev {
  plev : Q;
  outputfn : string
}.

Record other_params : Type := mkOther {
  plev_subset : option plev_params
}.

Record data_params : Type := mkParams {
  experiment_id : string;
  table_id : string;
  variable_id : string;
  member_id : string;
  other : option other_params
}.

Record config : Type := mkConfig {
  raw_data_dir : string;     (* cfg.lpaths['raw_data_dir'] *)
  regrid_360 : bool;
  overwrite : bool
}.

(** The xarray operations the cell only passes data through. *)
Class XarrayOps : Type := {
  (** the grid behind a store url *)
  open_zarr : string -> result dataset;
  (** the 360-day to 365-day regridding branch *)
  regrid_dayofyear : dataset -> result dataset;
  (** [ds.sel(time=slice(start, stop))] with date strings *)
  sel_time : dataset -> string -> string -> result dataset;
  (** [ds.sel(lat=slice( *lat), lon=slice( *lon))] *)
  sel_lat_lon : dataset -> Q * Q -> Q * Q -> result dataset;
  (** [ds.where(mask on the 2-D lat/lon fields, drop=True)] *)
  where_lat_lon : dataset -> Q * Q -> Q * Q -> result dataset;
  (** [ds.isel(plev=i)] *)
  isel_plev : nat -> dataset -> result dataset;
  (** [ds.rename({old: new})] *)
  rename : string -> string -> dataset -> result dataset
}.

Global Instance Q_eq_dec : EqDecision Q.
Proof. solve_decision. Defined.
Global Instance subset_params_eq_dec : EqDecision subset_params.
Proof. solve_decision. Defined.

(** [l.index(x)] for an [x] taken from [l]: the first position holding
    an equal element. *)
Fixpoint index (l : list subset_params) (x : subset_params) : nat :=
  match l with
  | [] => O
  | y :: rest => if decide (y = x) then O else S (index rest x)
  end.

Definition output_fn (cfg : config) (data_params : data_params)
           (subset_params : subset_params) (url : string) : result string :=
  model ← getitem (split_on "/" url) 5;
  '(t0, t1) ← dict_get (sp_time subset_params) (experiment_id data_params);
  let fn :=
    raw_data_dir cfg +:+ model +:+ "/" +:+
    variable_id data_params +:+ "_" +:+
    table_id data_params +:+ "_" +:+ model +:+ "_" +:+
    experiment_id data_params +:+ "_" +:+ member_id data_params +:+ "_" +:+
    join "-" [re_sub "-" "" t0; re_sub "-" "" t1] +:+
    fn_suffix subset_params +:+ ".nc" in
  match other data_params with
  | Some o =>
      match plev_subset o with
      | Some ps => Ok (re_sub (variable_id data_params) (outputfn ps) fn)
      | None => Ok fn
      end
  | None => Ok fn
  end.

(** A slot of [output_fns] / [path_exists]: [None] until assigned. *)
Definition truthy (slot : option (option bool)) : bool :=
  match slot with
  | Some (Some b) => b
  | _ => false
  end.

Definition label (data_params : data_params) (model : string) : string :=
  variable_id data_params +:+ " " +:+ table_id data_params +:+ " " +:+ model +:+ " " +:+
  experiment_id data_params +:+ " " +:+ member_id data_params.

(** The first loop of the cell: [output_fns] and [path_exists], filled
    at the position [subset_params_all.index(subset_params)]. *)
Fixpoint set_output_filenames (cfg : config) (data_params : data_params)
         (subset_params_all todo : list subset_params) (url : string)
         (output_fns : list (option string)) (path_exists : list (option bool))
  : M (list (option string) * list (option bool)) :=
  match todo with
  | [] => mret (output_fns, path_exists)
  | subset_params :: rest =>
      _ ← assign "subset_params";
      let i := index subset_params_all subset_params in
      fn ← lift (output_fn cfg data_params subset_params url);
      e ← os_path_exists fn;
      set_output_filenames cfg data_params subset_params_all rest url
                           (<[i := Some fn]> output_fns) (<[i := Some e]> path_exists)
  end.

(** [np.allclose(p, target)] with the default tolerances. *)
Definition allclose (p target : Q) : bool :=
  Qle_bool (Qabs (p - target)) ((1 # 100000000) + (1 # 100000) * Qabs target).

(** The cutoff that follows [fix_lons] in the loop over the subsets:
    when the first longitude is more than 5 degrees from [lon_origin],
    only the positions before the first longitude [v] with
    [v // lon_origin == 0] are kept. *)
Definition cutoff (ds_tmp : dataset) (subset_params : subset_params) : result dataset :=
  lon0 ← getitem (ds_lon ds_tmp) 0;
  if Py.gtb (Qabs (lon0 - lon_origin subset_params)) 5 then
    k ← first_nonzero
          (List.map (fun x => Py.floordiv_is x (lon_origin subset_params) 0)
                    (ds_lon ds_tmp));
    isel_lon (seq 0 k) ds_tmp
  else Ok ds_tmp.

(** "Fix longitude" for a grid with 1-D coordinates: [fix_lons], then
    the cutoff. *)
Definition fix_lons_and_cutoff (ds : dataset) (subset_params : subset_params)
  : result dataset :=
  ds_tmp ← fix_lons ds subset_params;
  cutoff ds_tmp subset_params.

(** ['plev_subset' in data_params['other'].keys]: the membership test is
    applied to the bound method [keys] (it is not called), which is not
    a container. *)
Definition in_keys_method (key : string) (d : other_params) : result bool :=
  Raise TypeError.

Section MainCell.
Context `{XarrayOps}.
Variable cfg : config.
Variable data_params : data_params.

(** Subset by time as set in [subset_params]: the calendar is read off
the loaded grid [ds], the slice is taken on [ds_tmp]. *)
Definition time_subset (ds ds_tmp : dataset) (subset_params : subset_params)
: result dataset :=
c ← thirty_day_months ds;
'(t0, t1) ← dict_get (sp_time subset_params) (experiment_id data_params);
if c : bool then sel_time ds_tmp t0 (re_sub "-31" "-30" t1)
else sel_time ds_tmp t0 t1.

(** The body of the [try] of the pressure-level step. *)
Definition select_plev (ps : plev_params) (ds_tmp : dataset) : result dataset :=
i ← first_nonzero (List.map (fun p => allclose p (plev ps)) (ds_plev ds_tmp));
ds_tmp ← isel_plev i ds_tmp;
rename (variable_id data_params) (outputfn ps) ds_tmp.

(** "If subsetting by pressure level...": [None] stands for the
[continue] of the handler. *)
Definition plev_step (ds_tmp : dataset) : M (option dataset) :=
match other data_params with
| None => mret (Some ds_tmp)
| Some o =>
  has ← lift (in_keys_method "plev_subset" o);
  if has : bool then
    match plev_subset o with
    | None => raise KeyError
    | Some ps =>
        try_except_KeyError
          (ds_tmp ← lift (select_plev ps ds_tmp); mret (Some ds_tmp))
          (_ ← emit (Print "The pressure levels: ");
           _ ← emit (PrintLevels (ds_plev ds_tmp));
           _ ← emit (PrintNotContained (plev ps));
           _ ← del "ds_tmp";
           mret None)
    end
  else mret (Some ds_tmp)
end.

(** The body of the loop over [subset_params_all] for one grid. *)
Definition process_subset (subset_params_all : list subset_params) (url : string)
       (output_fns : list (option string)) (path_exists : list (option bool))
       (ds : dataset) (subset_params : subset_params) : M unit :=
_ ← assign "subset_params";
let i := index subset_params_all subset_params in
(* Make sure this file hasn't already been processed *)
skip ← match path_exists !! i with
     | Some (Some e) => mret (negb (overwrite cfg) && e)
     | _ => raise TypeError
     end;
if skip : bool then
fn ← match output_fns !! i with
     | Some (Some fn) => mret fn
     | _ => raise TypeError
     end;
emit (Warn (fn +:+ " already exists; skipped."))
else
(* Make sure the target directory exists *)
model ← lift (getitem (split_on "/" url) 5);
let dir := raw_data_dir cfg +:+ model +:+ "/" in
e ← os_path_exists dir;
_ ← (if e : bool then mret tt
     else _ ← os_mkdir dir; emit (Warn ("Directory " +:+ dir +:+ " created!")));
(* Fix longitude *)
ds_tmp ← (if ds_lat_dim ds then
            ds_tmp ← lift (fix_lons ds subset_params);
            _ ← assign "ds_tmp";
            lon0 ← lift (getitem (ds_lon ds_tmp) 0);
            if Py.gtb (Qabs (lon0 - lon_origin subset_params)) 5 then
              k ← lift (first_nonzero
                          (List.map (fun x => Py.floordiv_is x (lon_origin subset_params) 0)
                                    (ds_lon ds_tmp)));
              lift (isel_lon (seq 0 k) ds_tmp)
            else mret ds_tmp
          else
            _ ← assign "ds_tmp";
            _ ← emit (Warn "fix_lons did not work because of the multi-dimensional index");
            mret ds);
(* Subset by time as set in subset_params *)
ds_tmp ← lift (time_subset ds ds_tmp subset_params);
(* Subset by space as set in subset_params *)
ds_tmp ← lift (if negb (ds_lat_dim ds)
               then where_lat_lon ds_tmp (sp_lat subset_params) (sp_lon subset_params)
               else sel_lat_lon ds_tmp (sp_lat subset_params) (sp_lon subset_params));
(* If subsetting by pressure level... *)
r ← plev_step ds_tmp;
match r with
| None => mret tt
| Some ds_tmp =>
    (* Save as NetCDF file *)
    fn ← match output_fns !! i with
         | Some (Some fn) => mret fn
         | _ => raise TypeError
         end;
    _ ← to_netcdf fn;
    emit (Print (fn +:+ " processed!"))
end.

(** From "Open dataset" to the start of the loop over the subsets. *)
Definition load (url : string) : M dataset :=
_ ← emit (OpenZarr url);
ds ← lift (open_zarr url);
'(ds, warnings) ← lift (fix_coordinate_doubling ds);
_ ← for_each warnings (fun w => emit (Warn w));
ds ← (if time_unsorted ds then
      _ ← emit (Warn ("Model " +:+ ds_source_id ds +:+ " has an unsorted time dimension."));
      mret (sortby_time ds)
    else mret ds);
if regrid_360 cfg then lift (regrid_dayofyear ds) else mret ds.

(** The overwrite branch of the file-existence check. *)
Definition delete_existing (subset_params_all : list subset_params) (model : string)
       (output_fns : list (option string)) (path_exists : list (option bool))
: M unit :=
for_each subset_params_all (fun subset_params =>
_ ← assign "subset_params";
let i := index subset_params_all subset_params in
if truthy (path_exists !! i) then
  fn ← match output_fns !! i with
       | Some (Some fn) => mret fn
       | _ => raise TypeError
       end;
  _ ← os_remove fn;
  emit (Warn ("All files already exist for " +:+ label data_params model +:+
              ", because OVERWRITE=TRUE theses files have been deleted."))
else mret tt).

(** From "Open dataset" to the end of the body of the loop over the
  store urls: the grid is loaded and every subset is processed. *)
Definition regenerate (subset_params_all : list subset_params) (url : string)
         (output_fns : list (option string)) (path_exists : list (option bool))
: M unit :=
ds ← load url;
_ ← for_each subset_params_all
      (process_subset subset_params_all url output_fns path_exists ds);
_ ← del "ds_tmp";
del "subset_params".

(** The body of the loop over the store urls of one [data_params]. *)
Definition process_url (subset_params_all : list subset_params) (url : string) : M unit :=
let n := length subset_params_all in
'(output_fns, path_exists) ←
  set_output_filenames cfg data_params subset_params_all subset_params_all url
                       (replicate n None) (replicate n None);
if negb (overwrite cfg) && forallb (fun e => truthy (Some e)) path_exists then
  model ← lift (getitem (split_on "/" url) 5);
  emit (Warn ("All files already created for " +:+ label data_params model +:+ ", skipped."))
else
  _ ← (if existsb (fun e => truthy (Some e)) path_exists then
         if overwrite cfg then
           model ← lift (getitem (split_on "/" url) 5);
           delete_existing subset_params_all model output_fns path_exists
         else mret tt
       else mret tt);
  regenerate subset_params_all url output_fns path_exists.

End MainCell.


(** ** The ERA5 notebook *)

Module Era5.

Record download_var : Type := mkVar {
short_name : string;
long_name : string
}.

Record geographic_vars : Type := mkGeo {
bbox : list Q;
fn_suffix : string
}.

Record resampling_vars : Type := mkResampling {
resamp : bool;
resample_level : string;
output_freq_name : string
}.

Record settings : Type := mkSettings {
raw_data_dir : string;
geographic : geographic_vars;
resampling : resampling_vars;
all_years : list Z;
chunk_size : Z
}.

(** The remote API: whether the request for a list of years is
served. *)
Class CdsClient : Type := {
retrieve : list Z -> result unit
}.

(** [[all_years[i:i + chunk_size] for i in range(0, len(all_years), chunk_size)]] *)
Fixpoint chunks_of (fuel : nat) (size : nat) (years : list Z) : list (list Z) :=
match fuel with
| O => []
| S fuel' =>
  match years with
  | [] => []
  | _ => firstn size years :: chunks_of fuel' size (skipn size years)
  end
end.

Definition chunks (s : settings) : result (list (list Z)) :=
if Z.eqb (chunk_size s) 0 then Raise ValueError
else if Z.ltb (chunk_size s) 0 then Ok []
else Ok (chunks_of (length (all_years s)) (Z.to_nat (chunk_size s)) (all_years s)).

(** [l[-1]] *)
Definition last_item (l : list Z) : result Z :=
match List.rev l with
| [] => Raise IndexError
| x :: _ => Ok x
end.

(** The common shape of every file name of the notebook. *)
Definition filename (s : settings) (v : download_var) (freq : string)
       (first last : Z) : string :=
raw_data_dir s +:+ "ERA5/" +:+ short_name v +:+ "_" +:+ freq +:+
"_ERA5_historical_reanalysis_" +:+ str first +:+ "0101-" +:+ str last +:+ "1231" +:+
fn_suffix (geographic s) +:+ ".nc".

Fixpoint drop_chars (n : nat) (s : string) : string :=
match n, s with
| S n', String _ rest => drop_chars n' rest
| _, _ => s
end.

Definition ends_with (suffix s : string) : bool :=
Nat.leb (String.length suffix) (String.length s) &&
String.eqb (drop_chars (String.length s - String.length suffix) s) suffix.

Fixpoint has_slash (n : nat) (s : string) : bool :=
match n, s with
| S n', String c rest => Ascii.eqb c "/" || has_slash n' rest
| _, _ => false
end.

(** A path matches [before*after]: the star stands for any run of
characters other than the path separator. *)
Definition glob_match (before after path : string) : bool :=
String.prefix before path &&
(let rest := drop_chars (String.length before) path in
ends_with after rest &&
negb (has_slash (String.length rest - String.length after) rest)).

(** [xr.open_mfdataset(pattern, combine='by_coords')]: the files the
wildcard matches are opened and combined; with none it raises. *)
Definition open_mfdataset (before after : string) : M unit := fun w =>
let matched := List.filter (glob_match before after) (elements (files w)) in
match matched with
| [] => (w, Raise OSError)
| _ => emit (OpenMfdataset matched) w
end.

Definition write_file (ev : event) (path : string) : M unit := fun w =>
(mkWorld (files w ∪ {[path]}) (log w ++ [ev]) (bound w) (fn1 w), Ok tt).

Definition assign_fn1 (path : string) : M unit := fun w =>
(mkWorld (files w) (log w) (bound w) (Some path), Ok tt).

Definition read_fn1 : M string := fun w =>
match fn1 w with
| Some p => (w, Ok p)
| None => (w, Raise NameError)
end.

Definition open_dataset (path : string) : M unit :=
e ← os_path_exists path;
if e : bool then emit (OpenDataset path) else raise FileNotFoundError.

Section Downloading.
Context `{CdsClient}.
Variable s : settings.

(** The body of [for chunk in chunks]. *)
Definition download_chunk (download_var : download_var) (chunk : list Z) : M unit :=
first ← lift (getitem chunk 0);
last ← lift (last_item chunk);
(* Set filename for temporary file *)
let fn0 := filename s download_var "hr" first last in
(* If the file does not yet exist, download it *)
e ← os_path_exists (re_sub "hr" "day" fn0);
if negb e then
_ ← lift (retrieve chunk);
_ ← write_file (Retrieve chunk fn0) fn0;
_ ← open_dataset fn0;
_ ← (if resamp (resampling s) then
   let fn1 := re_sub "hr" (output_freq_name (resampling s)) fn0 in
   _ ← assign_fn1 fn1;
   _ ← to_netcdf fn1;
   os_remove fn0
 else
   let fn1 := fn0 in
   _ ← assign_fn1 fn1;
   _ ← os_remove fn0;
   to_netcdf fn1);
fn1 ← read_fn1;
emit (Print (fn1 +:+ " processed!"))
else
fn1 ← read_fn1;
emit (Print (fn1 +:+ " already exists; skipped.")).

(** From [xr.open_mfdataset] to the end of the removal loop. *)
Definition concatenate (download_var : download_var) (fn_final : string)
   (chunks : list (list Z)) : M unit :=
_ ← open_mfdataset
(raw_data_dir s +:+ "ERA5/" +:+ short_name download_var +:+ "_" +:+
 output_freq_name (resampling s) +:+ "_ERA5_historical_reanalysis_")
(fn_suffix (geographic s) +:+ ".nc");
(* Save the concatenated file across all years *)
_ ← to_netcdf fn_final;
(* Remove the component files *)
for_each chunks (fun chunk =>
first ← lift (getitem chunk 0);
last ← lift (last_item chunk);
os_remove (filename s download_var (output_freq_name (resampling s)) first last)).

(** The body of [for download_var in download_vars]. *)
Definition download (download_var : download_var) : M unit :=
chunks ← lift (chunks s);
first ← lift (getitem (all_years s) 0);
last ← lift (last_item (all_years s));
let fn_final :=
filename s download_var
     (if resamp (resampling s) then output_freq_name (resampling s) else "hr")
     first last in
e ← os_path_exists fn_final;
if negb e then
_ ← for_each chunks (download_chunk download_var);
concatenate download_var fn_final chunks
else emit (Print (fn_final +:+ " already exists, skipped.")).

End Downloading.

End Era5.

(** ** Predicates used in the statements *)

(** [w'] is [w] after some events, all of which satisfy [Q]. *)
Definition after (Q : event -> Prop) (w w' : world) : Prop :=
  exists evs, log w' = log w ++ evs /\ Forall Q evs.

(** A command all of whose events satisfy [Q], whatever it returns. *)
Definition emits_only (Q : event -> Prop) {A} (m : M A) : Prop :=
  forall w w' r, m w = (w', r) -> after Q w w'.

(** Events other than saving a NetCDF file. *)
Definition not_a_save (ev : event) : Prop := forall p, ev <> ToNetcdf p.

(** [w'] is [w] after some events, none of which saves a NetCDF file. *)
Definition nothing_saved (w w' : world) : Prop := after not_a_save w w'.

(** A command that saves no NetCDF file, whatever it returns. *)
Definition quiet {A} (m : M A) : Prop := emits_only not_a_save m.

(** A command that always ends in an exception, having saved nothing. *)
Definition aborts {A} (m : M A) : Prop :=
  forall w, exists w' e, m w = (w', Raise e) /\ nothing_saved w w'.

(** The event is an [os.remove]. *)
Definition is_remove (ev : event) : Prop :=
  match ev with Remove _ => True | _ => False end.

(** The character occurs in the string. *)
Fixpoint occurs (c : ascii) (s : string) : bool :=
  match s with
  | EmptyString => false
  | String a rest => Ascii.eqb a c || occurs c rest
  end.






(** A time axis in chronological order (equal time steps allowed). *)
Definition chronological (times : list timestamp) : Prop :=
  Sorted (fun a b => time_leb a b = true) times.

(** The order in which [sort_by_time] puts time steps paired with
    data: by time, earlier or equal. *)
Definition le_by_time {A} (x y : timestamp * A) : Prop :=
  time_leb (fst x) (fst y) = true.

(** The paths saved by a run of events, in order. *)
Definition saved (evs : list event) : list string :=
  flat_map (fun ev => match ev with ToNetcdf p => [p] | _ => [] end) evs.



(** [pat in s]: the pattern occurs somewhere in the string. *)
Fixpoint contains (pat s : string) : bool :=
  String.prefix pat s ||
  match s with
  | EmptyString => false
  | String _ rest => contains pat rest
  end.

(** *** The ERA5 notebook *)

(** The years a chunk starts and ends with ([chunk[0]], [chunk[-1]]),
    for a chunk that is not empty. *)
Definition chunk_first (chunk : list Z) : Z := hd 0%Z chunk.
Definition chunk_last (chunk : list Z) : Z := List.last chunk 0%Z.

(** The name of the file of a chunk with a given frequency tag. *)
Definition chunk_name (s : Era5.settings) (v : Era5.download_var) (freq : string)
           (chunk : list Z) : string :=
  Era5.filename s v freq (chunk_first chunk) (chunk_last chunk).

(** The name under which a processed chunk is left on disk. *)
Definition processed_name (s : Era5.settings) (v : Era5.download_var)
           (chunk : list Z) : string :=
  if Era5.resamp (Era5.resampling s)
  then chunk_name s v (Era5.output_freq_name (Era5.resampling s)) chunk
  else chunk_name s v "hr" chunk.

(** The events of a chunk that is fetched and processed. *)
Definition fetch_events (s : Era5.settings) (v : Era5.download_var)
           (chunk : list Z) : list event :=
  [Retrieve chunk (chunk_name s v "hr" chunk); OpenDataset (chunk_name s v "hr" chunk)] ++
  (if Era5.resamp (Era5.resampling s)
   then [ToNetcdf (processed_name s v chunk); Remove (chunk_name s v "hr" chunk)]
   else [Remove (chunk_name s v "hr" chunk); ToNetcdf (processed_name s v chunk)]) ++
  [Print (processed_name s v chunk +:+ " processed!")].

(** The three settings that enter every file name hold no ["hr"]. *)
Definition no_hr (s : Era5.settings) (v : Era5.download_var) : Prop :=
  contains "hr" (Era5.raw_data_dir s) = false /\
  contains "hr" (Era5.short_name v) = false /\
  contains "hr" (Era5.fn_suffix (Era5.geographic s)) = false.
(** ** Concrete inputs used by the examples *)

Definition lon_grid (lons : list Q) : dataset :=
  mkDataset true [] lons [] Datetime64 [] [] "".

Definition lon_spec (range : Z) (origin : Q) : subset_params :=
  mkSubset (0, 0) (0, 0) [] "" range origin.

(** A batch of the CMIP6 notebook: one dict per variable. *)
Definition query_params (e t v m : string) : pydict string :=
  [("experiment_id", e); ("table_id", t); ("variable_id", v); ("member_id", m)].

(** A fresh kernel with the given files on disk. *)
Definition fresh_kernel (on_disk : gset string) : world := mkWorld on_disk [] ∅ None.

(** The ERA5 notebook as distributed, for the years given. *)
Definition era5_settings (years : list Z) : Era5.settings :=
  Era5.mkSettings "/data/" (Era5.mkGeo [13; 33; -7; 59] "_WIndOcean")
                  (Era5.mkResampling true "D" "day") years 5.

Definition vwt : Era5.download_var :=
  Era5.mkVar "vwt" "vertical_integral_of_northward_water_vapour_flux".

Definition years_from (first : Z) (n : nat) : list Z :=
  List.map (fun i => (first + Z.of_nat i)%Z) (seq 0 n).

Global Instance cds_always : Era5.CdsClient := {| Era5.retrieve := fun _ => Ok tt |}.

(** A small global grid: two time steps, two latitudes, four
    longitudes, two pressure levels (1000 and 850 hPa). *)
Definition demo_row : list cell := [Val 1; Val 2; Val 3; Val 4].

Definition demo_grid : dataset :=
  mkDataset true [0; 10] [0; 90; 180; 270]
            [mkTime 2014 12 30; mkTime 2014 12 31] DatetimeGregorian
            [100000; 85000]
            [[demo_row; demo_row]; [demo_row; demo_row]] "CESM2".

(** xarray operations that return the grid they are given, over a
    store that holds [ds]. *)
Definition store_of (ds : dataset) : XarrayOps := {|
  open_zarr := fun _ => Ok ds;
  regrid_dayofyear := fun d => Ok d;
  sel_time := fun d _ _ => Ok d;
  sel_lat_lon := fun d _ _ => Ok d;
  where_lat_lon := fun d _ _ => Ok d;
  isel_plev := fun _ d => Ok d;
  rename := fun _ _ d => Ok d
|}.

Definition africa : subset_params :=
  mkSubset (-38, 40) (-20, 54) [("historical", ("1979-01-01", "2014-12-31"))]
           "_Africa" 180 (-180).

Definition europe : subset_params :=
  mkSubset (35, 70) (-10, 40) [("historical", ("1979-01-01", "2014-12-31"))]
           "_Europe" 180 (-180).

Definition pr_historical : data_params :=
  mkParams "historical" "day" "pr" "r1i1p1f1" None.

(** Eastward wind at 500 hPa, a level the demo grid does not have. *)
Definition ua500_historical : data_params :=
  mkParams "historical" "day" "ua" "r1i1p1f1"
           (Some (mkOther (Some (mkPlev 50000 "ua500")))).

Definition cesm2_url : string :=
  "gs://cmip6/CMIP/NCAR/CESM2/historical/r1i1p1f1/day/pr/gn/".

Definition notebook_config (overwrite : bool) : config := mkConfig "/data/" false overwrite.

(** The same settings without resampling. *)
Definition era5_settings_hourly (years : list Z) : Era5.settings :=
  Era5.mkSettings "/data/" (Era5.mkGeo [13; 33; -7; 59] "_WIndOcean")
                  (Era5.mkResampling false "D" "day") years 5.

Definition day_1979_1983 : string :=
  "/data/ERA5/vwt_day_ERA5_historical_reanalysis_19790101-19831231_WIndOcean.nc".
Definition day_1984_1985 : string :=
  "/data/ERA5/vwt_day_ERA5_historical_reanalysis_19840101-19851231_WIndOcean.nc".
Definition day_1979_1985 : string :=
  "/data/ERA5/vwt_day_ERA5_historical_reanalysis_19790101-19851231_WIndOcean.nc".
Definition hr_1979_1983 : string :=
  "/data/ERA5/vwt_hr_ERA5_historical_reanalysis_19790101-19831231_WIndOcean.nc".
Definition hr_1979_1985 : string :=
  "/data/ERA5/vwt_hr_ERA5_historical_reanalysis_19790101-19851231_WIndOcean.nc".
Definition hr_1984_1985 : string :=
  "/data/ERA5/vwt_hr_ERA5_historical_reanalysis_19840101-19851231_WIndOcean.nc".



(** A grid whose latitude axis has rows 1 and 3 doubled (within
    rounding to 10 decimals); the doubled rows hold no data. *)
Definition nan_row : list cell := [NaN; NaN; NaN; NaN].


Definition africa_nc : string :=
  "/data/CESM2/pr_day_CESM2_historical_r1i1p1f1_19790101-20141231_Africa.nc".


(** A subset in the 0:360 convention whose origin, 100E, lies between
    two longitudes of the demo grid. *)
Definition pacific : subset_params :=
  mkSubset (-20, 20) (120, 280) [("historical", ("1979-01-01", "2014-12-31"))]
           "_Pacific" 360 100.

(** The demo grid with its two time steps stored in the wrong order. *)
Definition shuffled_grid : dataset :=
  mkDataset true [0; 10] [0; 90; 180; 270]
            [mkTime 2000 1 2; mkTime 2000 1 1] DatetimeNoLeap []
            [[nan_row; nan_row]; [demo_row; demo_row]] "CanESM5".

(** The doubled grid cut down to its first time step. *)
Definition doubled_grid_one_step : dataset :=
  mkDataset true
            [0; (1 # 100000000000000); 10; 10 + (1 # 100000000000000); 20]
            [0; 90; 180; 270]
            [mkTime 2000 1 1] DatetimeNoLeap []
            [[demo_row; nan_row; demo_row; nan_row; demo_row]] "NorCPM1".


(** [data_params_all] as the CMIP6 notebook is distributed. *)
Definition notebook_batch : list (pydict string) :=
  [query_params "historical" "day" "pr" "r1i1p1f1";
   query_params "ssp370" "day" "pr" "r1i1p1f1";
   query_params "ssp585" "day" "pr" "r1i1p1f1";
   query_params "historical" "day" "tas" "r1i1p1f1";
   query_params "ssp370" "day" "pr" "r1i1p1f1";
   query_params "ssp585" "day" "tas" "r1i1p1f1"].

(** A subset specification that has no time range for the historical
    experiment. *)
Definition future_only : subset_params :=
  mkSubset (-38, 40) (-20, 54) [("ssp585", ("2015-01-01", "2100-12-31"))]
           "_Africa" 180 (-180).
(** * Part II: lemmas and theorems *)

(** ** Arithmetic of [%] and [//] *)

Lemma Qfloor_eq_iff (y : Q) (k : Z) :
  Qfloor y = k <-> inject_Z k <= y /\ y < inject_Z (k + 1).
Proof.
  split.
  - intros <-. split; [apply Qfloor_le | apply Qlt_floor].
  - intros [Hlo Hhi].
    assert (H1 : (k <= Qfloor y)%Z).
    { rewrite <- (Qfloor_Z k). now apply Qfloor_resp_le. }
    assert (H2 : (Qfloor y < k + 1)%Z).
    { rewrite Zlt_Qlt. eapply Qle_lt_trans; [apply Qfloor_le | exact Hhi]. }
    lia.
Qed.


Lemma Qle_div_iff (a b c : Q) : 0 < c -> (a <= b / c <-> a * c <= b).
Proof.
  intros Hc. rewrite <- (Qmult_le_r a (b / c) c Hc).
  assert (E : b / c * c == b) by (field; intros E; rewrite E in Hc; discriminate).
  now rewrite E.
Qed.

Lemma Qdiv_lt_iff (a b c : Q) : 0 < c -> (b / c < a <-> b < a * c).
Proof.
  intros Hc. rewrite <- (Qmult_lt_r (b / c) a c Hc).
  assert (E : b / c * c == b) by (field; intros E; rewrite E in Hc; discriminate).
  now rewrite E.
Qed.

Lemma Qle_bool_false_iff (x y : Q) : Qle_bool x y = false <-> y < x.
Proof.
  destruct (Qle_bool x y) eqn:E.
  - split; [discriminate|]. intros H. apply Qle_bool_iff in E.
    apply Qlt_not_le in H. contradiction.
  - split; [|reflexivity]. intros _. apply Qnot_le_lt. intros H.
    apply Qle_bool_iff in H. congruence.
Qed.

Lemma gtb_iff (x y : Q) : Py.gtb x y = true <-> y < x.
Proof. unfold Py.gtb. rewrite negb_true_iff. apply Qle_bool_false_iff. Qed.


(** For a positive divisor, [x // o == k] says [k * o <= x < (k + 1) * o]. *)
Lemma floordiv_is_pos (x o : Q) (k : Z) :
  0 < o ->
  Py.floordiv_is x o k = true <->
  inject_Z k * o <= x /\ x < inject_Z (k + 1) * o.
Proof.
  intros Ho. unfold Py.floordiv_is, Py.floordiv.
  destruct (Qeq_bool o 0) eqn:E.
  - apply Qeq_bool_iff in E. rewrite E in Ho. discriminate.
  - rewrite Z.eqb_eq, Qfloor_eq_iff, Qle_div_iff, Qdiv_lt_iff by assumption.
    reflexivity.
Qed.

Lemma floordiv_is_zero (x : Q) (k : Z) : Py.floordiv_is x 0 k = false.
Proof. reflexivity. Qed.

(** A negative divisor never gives quotient one on a non-negative
    dividend: the quotient is at most zero. *)
Lemma floordiv_is_neg (x o : Q) :
  o < 0 -> 0 <= x -> Py.floordiv_is x o 1 = false.
Proof.
  intros Ho Hx. unfold Py.floordiv_is, Py.floordiv.
  destruct (Qeq_bool o 0) eqn:E; [reflexivity|].
  apply Z.eqb_neq. intros Hk. apply Qfloor_eq_iff in Hk. destruct Hk as [Hk _].
  assert (Hle : x / o <= 0).
  { assert (Eq : x / o == - (x / - o)).
    { field. intros E0. rewrite E0 in Ho. discriminate. }
    assert (0 <= x / - o) by (apply Qle_div_iff; lra).
    lra. }
  change (inject_Z 1) with 1 in Hk. lra.
Qed.


Lemma Qfloor_small (x m : Q) : 0 <= x -> x < m -> Qfloor (x / m) = 0%Z.
Proof.
  intros H0 Hm. apply Qfloor_eq_iff.
  assert (0 < m) by lra.
  rewrite Qle_div_iff, Qdiv_lt_iff by assumption.
  change (inject_Z 0) with 0. change (inject_Z (0 + 1)) with 1. split; lra.
Qed.

Lemma to_360_id (x : Q) : 0 <= x -> x < 360 -> to_360 x = x.
Proof.
  intros H0 H1. unfold to_360, Py.mod_. rewrite (Qfloor_small x 360 H0 H1).
  destruct x as [a b]. unfold Qminus, Qplus, Qopp, Qmult, inject_Z. simpl.
  f_equal; [lia | lia].
Qed.

(** ** Rolling a list *)

Section Roll.
Local Open Scope Z_scope.
Context {A : Type}.
Implicit Types (l : list A) (s : Z).

Lemma np_roll_neg l (k : nat) :
(k < length l)%nat -> np_roll (- Z.of_nat k) l = skipn k l ++ firstn k l.
Proof.
intros Hk. unfold np_roll.
destruct (Z.eqb_spec (Z.of_nat (length l)) 0) as [E|E]; [lia|].
rewrite Z.opp_involutive, Z.mod_small by lia.
now rewrite Nat2Z.id.
Qed.

Lemma np_roll_0 l : np_roll 0 l = l.
Proof.
unfold np_roll. destruct (Z.eqb_spec (Z.of_nat (length l)) 0); [reflexivity|].
rewrite Z.mod_0_l by assumption. simpl. apply app_nil_r.
Qed.


Lemma np_roll_length s l : length (np_roll s l) = length l.
Proof.
unfold np_roll. destruct (Z.eqb _ _); [reflexivity|].
rewrite length_app, Nat.add_comm, <- length_app, firstn_skipn. reflexivity.
Qed.


Lemma np_roll_existsb (p : A -> bool) s l :
existsb p (np_roll s l) = existsb p l.
Proof.
unfold np_roll. destruct (Z.eqb _ _); [reflexivity|].
set (k := Z.to_nat _). rewrite <- (firstn_skipn k l) at 3.
rewrite !existsb_app. apply orb_comm.
Qed.

End Roll.

Lemma first_nonzero_map {A} (p : A -> bool) (l : list A) (k : nat) :
  first_nonzero (List.map p l) = Ok k ->
  exists pre x post,
    l = pre ++ x :: post /\ length pre = k /\ p x = true /\
    Forall (fun y => p y = false) pre.
Proof.
  revert k. induction l as [|a l IH]; intros k; cbn.
  - discriminate.
  - destruct (p a) eqn:Ea.
    + intros [= <-]. exists [], a, l. repeat split; auto.
    + destruct (first_nonzero (List.map p l)) as [n|e] eqn:En; cbn; [|discriminate].
      intros [= <-]. destruct (IH n eq_refl) as (pre & x & post & -> & Hlen & Hx & Hpre).
      exists (a :: pre), x, post. repeat split; cbn; auto.
Qed.

Lemma first_nonzero_found {A} (p : A -> bool) (l : list A) :
  Exists (fun x => p x = true) l ->
  exists k, first_nonzero (List.map p l) = Ok k.
Proof.
  induction 1 as [x l Hx | x l _ [k IH]]; cbn.
  - rewrite Hx. now exists O.
  - destruct (p x); [now exists O|]. rewrite IH. cbn. now exists (S k).
Qed.

Lemma first_nonzero_none {A} (p : A -> bool) (l : list A) :
  Forall (fun x => p x = false) l ->
  first_nonzero (List.map p l) = Raise IndexError.
Proof.
  induction 1 as [|x l Hx _ IH]; cbn; [reflexivity|]. now rewrite Hx, IH.
Qed.

(** ** [fix_lons] *)

Lemma map_to_360_id (l : list Q) : within 0 360 l -> List.map to_360 l = l.
Proof.
  induction 1 as [|x l [H0 H1] _ IH]; cbn; [reflexivity|].
  now rewrite IH, to_360_id.
Qed.


Lemma floordiv_is_one (v o : Q) :
  0 <= v -> Py.floordiv_is v o 1 = true <-> 0 < o /\ o <= v /\ v < 2 * o.
Proof.
  intros Hv. destruct (Q_dec o 0) as [[Ho|Ho]|Ho].
  - rewrite floordiv_is_neg by assumption. split; [discriminate|]. intros [H _]. lra.
  - rewrite floordiv_is_pos by assumption.
    change (inject_Z 1) with 1. change (inject_Z (1 + 1)) with 2.
    split; [intros [H1 H2] | intros (_ & H1 & H2)]; repeat split; lra.
  - unfold Py.floordiv_is, Py.floordiv.
    apply Qeq_bool_iff in Ho as Hb. rewrite Hb.
    split; [discriminate|]. intros [H _]. lra.
Qed.

Lemma fix_lons_360_unfold ds sp :
  lon_range sp = 360%Z ->
  fix_lons ds sp =
    (k ← first_nonzero
          (List.map (fun x => Py.floordiv_is x (lon_origin sp) 1)
                    (List.map to_360 (ds_lon ds)));
     Ok (ds_roll_lon (- Z.of_nat k) (assign_lon to_360 ds))).
Proof. intros H. unfold fix_lons. rewrite H. reflexivity. Qed.

(** C10. The 360 branch of [fix_lons] on a grid with longitudes in
    [0, 360): it returns a grid exactly when [lon_origin] is positive and
    some longitude [v] has [lon_origin <= v < 2 * lon_origin], which for
    a positive origin is what [v // lon_origin == 1] says; with a zero or
    negative origin, or one above every longitude, no longitude matches,
    the first-index lookup is over an empty set and the call raises
    [IndexError]; and whenever no grid is returned that is the
    exception. *)
Theorem fix_lons_360_precondition ds sp :
  lon_range sp = 360%Z ->
  within 0 360 (ds_lon ds) ->
  ((exists r, fix_lons ds sp = Ok r) <->
     0 < lon_origin sp /\
     Exists (fun v => lon_origin sp <= v /\ v < 2 * lon_origin sp) (ds_lon ds))
  /\ (forall v, 0 <= v ->
        Py.floordiv_is v (lon_origin sp) 1 = true <->
        0 < lon_origin sp /\ lon_origin sp <= v /\ v < 2 * lon_origin sp)
  /\ (lon_origin sp <= 0 \/ Forall (fun v => v < lon_origin sp) (ds_lon ds) ->
      fix_lons ds sp = Raise IndexError)
  /\ ((~ exists r, fix_lons ds sp = Ok r) -> fix_lons ds sp = Raise IndexError).
Proof.
  intros Hr Hin. rewrite (fix_lons_360_unfold _ _ Hr), (map_to_360_id _ Hin).
  set (p := fun x => Py.floordiv_is x (lon_origin sp) 1).
  assert (Hp : forall v, In v (ds_lon ds) ->
                 p v = true <-> 0 < lon_origin sp /\ lon_origin sp <= v /\ v < 2 * lon_origin sp).
  { intros v Hv. apply floordiv_is_one.
    unfold within in Hin. rewrite List.Forall_forall in Hin. now apply Hin. }
  assert (Hiff : (exists r, (k ← first_nonzero (List.map p (ds_lon ds));
                            Ok (ds_roll_lon (- Z.of_nat k) (assign_lon to_360 ds))) = Ok r) <->
     0 < lon_origin sp /\
     Exists (fun v => lon_origin sp <= v /\ v < 2 * lon_origin sp) (ds_lon ds)).
  { split.
    - intros [r Hk].
      destruct (first_nonzero (List.map p (ds_lon ds))) as [k|e] eqn:Ek; [|discriminate].
      apply first_nonzero_map in Ek as (pre & x & post & El & _ & Hx & _).
      assert (Hxin : In x (ds_lon ds)) by (rewrite El; apply in_elt).
      apply (Hp x Hxin) in Hx as (Ho & Hx1 & Hx2). split; [exact Ho|].
      apply List.Exists_exists. exists x. auto.
    - intros [Ho Hex].
      destruct (first_nonzero_found p (ds_lon ds)) as [k Hk].
      + apply List.Exists_exists in Hex as (x & Hxin & Hx).
        apply List.Exists_exists. exists x. split; [exact Hxin|]. apply Hp; tauto.
      + rewrite Hk. cbn. eauto. }
  assert (Hfail : (~ exists r, (k ← first_nonzero (List.map p (ds_lon ds));
                            Ok (ds_roll_lon (- Z.of_nat k) (assign_lon to_360 ds))) = Ok r) ->
                  (k ← first_nonzero (List.map p (ds_lon ds));
                            Ok (ds_roll_lon (- Z.of_nat k) (assign_lon to_360 ds))) = Raise IndexError).
  { intros Hno. destruct (first_nonzero (List.map p (ds_lon ds))) as [k|e] eqn:Ek.
    - exfalso. apply Hno. cbn. eauto.
    - rewrite first_nonzero_none in Ek; [now inversion Ek|].
      apply List.Forall_forall. intros x Hx. destruct (p x) eqn:Epx; [|reflexivity].
      exfalso.
      assert (Hex : Exists (fun x => p x = true) (ds_lon ds))
        by (apply List.Exists_exists; eauto).
      apply first_nonzero_found in Hex as [k Hk]. congruence. }
  split; [exact Hiff|]. split; [|split].
  - intros v Hv. now apply floordiv_is_one.
  - intros Hbad. apply Hfail. rewrite Hiff. intros [Ho Hex].
    destruct Hbad as [Hle|Hall]; [lra|].
    apply List.Exists_exists in Hex as (x & Hxin & Hx1 & _).
    rewrite List.Forall_forall in Hall. specialize (Hall x Hxin). lra.
  - exact Hfail.
Qed.










Local Instance Qlt_Transitive : Transitive Qlt := Qlt_trans.


Lemma increasing_strong (l : list Q) : strictly_increasing l <-> StronglySorted Qlt l.
Proof.
  split; [apply Sorted_StronglySorted; exact _ | apply StronglySorted_Sorted].
Qed.

Lemma increasing_app (l1 l2 : list Q) :
  strictly_increasing (l1 ++ l2) <->
  (forall x y, In x l1 -> In y l2 -> x < y) /\ strictly_increasing l1 /\ strictly_increasing l2.
Proof.
  rewrite !increasing_strong, StronglySorted_app.
  setoid_rewrite list_elem_of_In. reflexivity.
Qed.

Lemma increasing_cons (x : Q) (l : list Q) :
  strictly_increasing (x :: l) <-> Forall (Qlt x) l /\ strictly_increasing l.
Proof.
  rewrite !increasing_strong. split.
  - intros H. inversion H. tauto.
  - intros [H1 H2]. now constructor.
Qed.










(** ** The claims about [fix_lons] *)

(** C10, at the grid 0, 90, 180, 270: origin 100 is met by 180. *)
Lemma fix_lons_360_precondition_witness :
  (exists r, fix_lons (lon_grid [0; 90; 180; 270]) (lon_spec 360 100) = Ok r) /\
  fix_lons (lon_grid [0; 90; 180; 270]) (lon_spec 360 0) = Raise IndexError /\
  fix_lons (lon_grid [0; 90; 180; 270]) (lon_spec 360 (-90)) = Raise IndexError /\
  fix_lons (lon_grid [0; 90; 180; 270]) (lon_spec 360 300) = Raise IndexError.
Proof.
  assert (Hin : within 0 360 (ds_lon (lon_grid [0; 90; 180; 270])))
    by (repeat constructor; discriminate).
  split; [|split; [|split]].
  - destruct (fix_lons_360_precondition (lon_grid [0; 90; 180; 270]) (lon_spec 360 100)
                eq_refl Hin) as (Hiff & _).
    apply Hiff. split; [reflexivity|].
    apply Exists_cons_tl, Exists_cons_tl, Exists_cons_hd. split; [discriminate | reflexivity].
  - destruct (fix_lons_360_precondition (lon_grid [0; 90; 180; 270]) (lon_spec 360 0)
                eq_refl Hin) as (_ & _ & Hbad & _).
    apply Hbad. left. discriminate.
  - destruct (fix_lons_360_precondition (lon_grid [0; 90; 180; 270]) (lon_spec 360 (-90))
                eq_refl Hin) as (_ & _ & Hbad & _).
    apply Hbad. left. discriminate.
  - destruct (fix_lons_360_precondition (lon_grid [0; 90; 180; 270]) (lon_spec 360 300)
                eq_refl Hin) as (_ & _ & Hbad & _).
    apply Hbad. right. repeat constructor.
Defined.



Lemma increasing_4 (a b c d : Q) :
  a < b -> b < c -> c < d -> strictly_increasing [a; b; c; d].
Proof. intros. repeat (constructor; try assumption). Qed.




(** ** Running a cell *)

Lemma bind_ok {A B} (m : M A) (f : A -> M B) (w w' : world) (a : A) :
  m w = (w', Ok a) -> (m ≫= f) w = f a w'.
Proof. intros E. unfold mbind, M_bind. now rewrite E. Qed.

Lemma bind_raise {A B} (m : M A) (f : A -> M B) (w w' : world) (e : exn) :
  m w = (w', Raise e) -> (m ≫= f) w = (w', Raise e).
Proof. intros E. unfold mbind, M_bind. now rewrite E. Qed.

Lemma bind_congr {A B} (m m' : M A) (f : A -> M B) (w : world) :
  m w = m' w -> (m ≫= f) w = (m' ≫= f) w.
Proof. intros E. unfold mbind, M_bind. now rewrite E. Qed.

Lemma lift_ok {A} (r : result A) (a : A) (w : world) :
  r = Ok a -> lift r w = (w, Ok a).
Proof. now intros ->. Qed.

Lemma os_path_exists_eq (path : string) (w : world) :
  os_path_exists path w = (w, Ok (bool_decide (path ∈ files w))).
Proof. reflexivity. Qed.

(** ** The parameter resolver *)

(** C5 (the resolver fails on a batch the claim covers). Two
    specifications with the same keys and exactly one key of common
    value, [member_id]: the claim asks for the query shown, but the
    resolver iterates over the characters of the single key that
    [itemgetter] returns and looks up ["m"] in the first dict, a
    [KeyError]; the OR part of the same cell guards against exactly this
    with its one-key case. With no key in common, [itemgetter] is called
    without arguments, a [TypeError]. *)
Theorem subset_query_single_common_key :
  subset_query [query_params "historical" "day" "pr" "r1i1p1f1";
                query_params "ssp370" "Amon" "tas" "r1i1p1f1"]
    = Raise KeyError
  /\ described_query [query_params "historical" "day" "pr" "r1i1p1f1";
                      query_params "ssp370" "Amon" "tas" "r1i1p1f1"]
     = "member_id == 'r1i1p1f1' and (experiment_id == 'historical' or experiment_id == 'ssp370') and (table_id == 'day' or table_id == 'Amon') and (variable_id == 'pr' or variable_id == 'tas')"
  /\ subset_query [query_params "historical" "day" "pr" "r1i1p1f1";
                   query_params "ssp370" "Amon" "tas" "r2i1p1f1"]
     = Raise TypeError.
Proof. split; [|split]; vm_compute; reflexivity. Qed.

(** ** The ERA5 notebook *)

(** C9 (the skip branch fails on a fresh kernel). When the intermediate
    of the first chunk is on disk, the final file is not, and [fn1] is
    not bound (the kernel was restarted after the failed run), the
    existence check takes the skip branch for the first chunk, whose
    message reads [fn1]: the cell stops with [NameError] before any
    message, fetch or write, and the pending chunks are not completed. *)
Theorem download_first_chunk_present (client : Era5.CdsClient) (s : Era5.settings)
        (v : Era5.download_var) (w : world)
        (chunk : list Z) (rest : list (list Z)) (y0 y1 first last : Z) :
  Era5.chunks s = Ok (chunk :: rest) ->
  getitem (Era5.all_years s) 0 = Ok y0 ->
  Era5.last_item (Era5.all_years s) = Ok y1 ->
  getitem chunk 0 = Ok first ->
  Era5.last_item chunk = Ok last ->
  fn1 w = None ->
  Era5.filename s v (if Era5.resamp (Era5.resampling s)
                     then Era5.output_freq_name (Era5.resampling s) else "hr") y0 y1
    ∉ files w ->
  re_sub "hr" "day" (Era5.filename s v "hr" first last) ∈ files w ->
  Era5.download s v w = (w, Raise NameError).
Proof.
  intros Hc Hy0 Hy1 Hf Hl Hfn Hfinal Hday. unfold Era5.download.
  rewrite (bind_ok _ _ w w (chunk :: rest)) by now apply lift_ok.
  rewrite (bind_ok _ _ w w y0) by now apply lift_ok.
  rewrite (bind_ok _ _ w w y1) by now apply lift_ok.
  rewrite (bind_ok _ _ w w false).
  2:{ rewrite os_path_exists_eq. now rewrite bool_decide_eq_false_2. }
  cbn [negb]. apply bind_raise. cbn [for_each]. apply bind_raise.
  unfold Era5.download_chunk.
  rewrite (bind_ok _ _ w w first) by now apply lift_ok.
  rewrite (bind_ok _ _ w w last) by now apply lift_ok.
  rewrite (bind_ok _ _ w w true).
  2:{ rewrite os_path_exists_eq. now rewrite bool_decide_eq_true_2. }
  cbn [negb]. apply bind_raise. unfold Era5.read_fn1. now rewrite Hfn.
Qed.

(** C9, on the notebook's own settings for 1979 to 1985: the first of
    the two chunks was written before the failure. *)
Lemma download_first_chunk_present_witness :
  Era5.download (era5_settings (years_from 1979 7)) vwt
    (fresh_kernel {["/data/ERA5/vwt_day_ERA5_historical_reanalysis_19790101-19831231_WIndOcean.nc"]})
  = (fresh_kernel {["/data/ERA5/vwt_day_ERA5_historical_reanalysis_19790101-19831231_WIndOcean.nc"]},
     Raise NameError).
Proof.
  apply (download_first_chunk_present cds_always _ _ _
           (years_from 1979 5) [years_from 1984 2] 1979%Z 1985%Z 1979%Z 1983%Z);
    try reflexivity.
  vm_compute. discriminate.
Defined.

(** ** The CMIP6 notebook: pressure levels *)

Lemma after_refl (Q : event -> Prop) (w : world) : after Q w w.
Proof. exists []. split; [now rewrite app_nil_r | constructor]. Qed.

Lemma after_trans (Q : event -> Prop) (w1 w2 w3 : world) :
  after Q w1 w2 -> after Q w2 w3 -> after Q w1 w3.
Proof.
  intros (e1 & E1 & F1) (e2 & E2 & F2). exists (e1 ++ e2). split.
  - now rewrite E2, E1, app_assoc.
  - apply Forall_app. now split.
Qed.

Lemma after_event (Q : event -> Prop) (ev : event) (fs : gset string) (b : gset string)
      (f : option string) (w : world) :
  Q ev -> after Q w (mkWorld fs (log w ++ [ev]) b f).
Proof. intros Hev. exists [ev]. split; [reflexivity | now constructor]. Qed.

Lemma after_same_log (Q : event -> Prop) (fs : gset string) (b : gset string)
      (f : option string) (w : world) :
  after Q w (mkWorld fs (log w) b f).
Proof. exists []. split; [cbn; now rewrite app_nil_r | constructor]. Qed.

Section EmitsOnly.
Variable Q : event -> Prop.

Lemma emits_lift {A} (r : result A) : emits_only Q (lift r).
Proof. intros w w' x [= <- _]. apply after_refl. Qed.

Lemma emits_ret {A} (a : A) : emits_only Q (mret a : M A).
Proof. intros w w' x [= <- _]. apply after_refl. Qed.

Lemma emits_raise {A} (e : exn) : emits_only Q (raise e : M A).
Proof. intros w w' x [= <- _]. apply after_refl. Qed.

Lemma emits_assign (name : string) : emits_only Q (assign name).
Proof. intros w w' x [= <- _]. apply after_same_log. Qed.


Lemma emits_exists (path : string) : emits_only Q (os_path_exists path).
Proof. intros w w' x [= <- _]. apply after_refl. Qed.

Lemma emits_emit (ev : event) : Q ev -> emits_only Q (emit ev).
Proof. intros Hev w w' x [= <- _]. now apply after_event. Qed.

Lemma emits_mkdir (path : string) : Q (Mkdir path) -> emits_only Q (os_mkdir path).
Proof. intros Hev w w' x [= <- _]. now apply after_event. Qed.


Lemma emits_bind {A B} (m : M A) (f : A -> M B) :
  emits_only Q m -> (forall a, emits_only Q (f a)) -> emits_only Q (m ≫= f).
Proof.
  intros Hm Hf w w' r. unfold mbind, M_bind.
  destruct (m w) as [w1 [a|e]] eqn:E.
  - intros E2. eapply after_trans; [eapply Hm, E | eapply Hf, E2].
  - intros [= <- _]. eapply Hm, E.
Qed.




End EmitsOnly.

Lemma nothing_saved_refl (w : world) : nothing_saved w w.
Proof. apply after_refl. Qed.

Lemma nothing_saved_trans (w1 w2 w3 : world) :
  nothing_saved w1 w2 -> nothing_saved w2 w3 -> nothing_saved w1 w3.
Proof. apply after_trans. Qed.

Lemma quiet_lift {A} (r : result A) : quiet (lift r).
Proof. apply emits_lift. Qed.

Lemma quiet_ret {A} (a : A) : quiet (mret a : M A).
Proof. apply emits_ret. Qed.

Lemma quiet_raise {A} (e : exn) : quiet (raise e : M A).
Proof. apply emits_raise. Qed.

Lemma quiet_assign (name : string) : quiet (assign name).
Proof. apply emits_assign. Qed.

Lemma quiet_exists (path : string) : quiet (os_path_exists path).
Proof. apply emits_exists. Qed.

Lemma quiet_emit (ev : event) : (forall p, ev <> ToNetcdf p) -> quiet (emit ev).
Proof. intros Hev. now apply (emits_emit not_a_save). Qed.

Lemma quiet_mkdir (path : string) : quiet (os_mkdir path).
Proof. apply (emits_mkdir not_a_save). intros p. discriminate. Qed.

Lemma quiet_bind {A B} (m : M A) (f : A -> M B) :
  quiet m -> (forall a, quiet (f a)) -> quiet (m ≫= f).
Proof. apply emits_bind. Qed.

Lemma aborts_bind {A B} (m : M A) (f : A -> M B) :
  quiet m -> (forall a, aborts (f a)) -> aborts (m ≫= f).
Proof.
  intros Hm Hf w. unfold mbind, M_bind.
  destruct (m w) as [w1 [a|e]] eqn:E.
  - destruct (Hf a w1) as (w' & e & E2 & H2). exists w', e. split; [exact E2|].
    eapply nothing_saved_trans; [eapply Hm, E | exact H2].
  - exists w1, e. split; [reflexivity | eapply Hm, E].
Qed.

Lemma aborts_raise {A} (e : exn) : aborts (raise e : M A).
Proof. intros w. exists w, e. split; [reflexivity | apply nothing_saved_refl]. Qed.

Lemma aborts_bind_l {A B} (m : M A) (f : A -> M B) : aborts m -> aborts (m ≫= f).
Proof.
  intros Hm w. destruct (Hm w) as (w' & e & E & H). exists w', e.
  split; [now apply bind_raise | exact H].
Qed.

Lemma aborts_ret_bind {A B} (a : A) (f : A -> M B) :
  aborts (f a) -> aborts (mret a ≫= f).
Proof. intros Hf w. exact (Hf w). Qed.

Lemma select_plev_no_level (ops : XarrayOps) (dp : data_params) (ps : plev_params)
      (ds_tmp : dataset) :
  Forall (fun p => allclose p (plev ps) = false) (ds_plev ds_tmp) ->
  select_plev dp ps ds_tmp = Raise IndexError.
Proof.
  intros Hno. unfold select_plev.
  now rewrite (first_nonzero_none (fun p => allclose p (plev ps))).
Qed.

(** C7 (the pressure-level step aborts the run). For parameters with an
    [other] entry the step never skips and continues:
    - the membership test on [.keys] raises [TypeError] before any level
      is compared, whatever the grid;
    - had the test passed, a target that no level is close to makes the
      first-index lookup raise [IndexError], which the [except KeyError]
      handler does not catch;
    - so with overwriting on (the notebook's setting), the body of the
      loop over the subsets ends in an exception for every subset, and
      saves nothing. *)
Theorem plev_subset_aborts (ops : XarrayOps) (cfg : config) (dp : data_params)
        (o : other_params) :
  other dp = Some o ->
  (forall ds_tmp w, plev_step dp ds_tmp w = (w, Raise TypeError))
  /\ (forall ps ds_tmp handler w,
        Forall (fun p => allclose p (plev ps) = false) (ds_plev ds_tmp) ->
        try_except_KeyError
          (ds ← lift (select_plev dp ps ds_tmp); mret (Some ds)) handler w
        = (w, Raise IndexError))
  /\ (overwrite cfg = true ->
      forall specs url fns exs ds sp w,
      exists w' e,
        process_subset cfg dp specs url fns exs ds sp w = (w', Raise e) /\
        nothing_saved w w').
Proof.
  intros Ho.
  assert (Hstep : forall ds_tmp w, plev_step dp ds_tmp w = (w, Raise TypeError)).
  { intros ds_tmp w. unfold plev_step. rewrite Ho. reflexivity. }
  split; [exact Hstep|]. split.
  - intros ps ds_tmp handler w Hno. unfold try_except_KeyError.
    rewrite (bind_raise _ _ w w IndexError); [reflexivity|].
    unfold lift. now rewrite select_plev_no_level.
  - intros Hov specs url fns exs ds sp. unfold process_subset. rewrite Hov.
    apply aborts_bind; [apply quiet_assign | intros _].
    destruct (exs !! index specs sp) as [[ex|]|]; cbn [negb andb];
      [| apply aborts_bind_l, aborts_raise ..].
    apply aborts_ret_bind.
    apply aborts_bind; [apply quiet_lift | intros model].
    apply aborts_bind; [apply quiet_exists | intros e].
      apply aborts_bind.
      { destruct e; [apply quiet_ret|].
        apply quiet_bind; [apply quiet_mkdir | intros _]. apply quiet_emit. discriminate. }
      intros _. apply aborts_bind.
      { destruct (ds_lat_dim ds).
        - apply quiet_bind; [apply quiet_lift | intros ds_tmp].
          apply quiet_bind; [apply quiet_assign | intros _].
          apply quiet_bind; [apply quiet_lift | intros lon0].
          destruct (Py.gtb _ _); [|apply quiet_ret].
          apply quiet_bind; [apply quiet_lift | intros k]. apply quiet_lift.
        - apply quiet_bind; [apply quiet_assign | intros _].
          apply quiet_bind; [apply quiet_emit; discriminate | intros _]. apply quiet_ret. }
      intros ds_tmp. apply aborts_bind; [apply quiet_lift | intros ds_tmp1].
      apply aborts_bind; [apply quiet_lift | intros ds_tmp2].
      intros w. exists w, TypeError. split; [|apply nothing_saved_refl].
      apply bind_raise, Hstep.
Qed.

(** C7, on the demo grid (levels 1000 and 850 hPa) with the 500 hPa
    request and two subsets: the run ends with [TypeError] in the first
    subset; the levels are not reported, no file is saved, and the second
    subset is never reached. *)
Lemma plev_subset_aborts_witness :
  (forall w, @plev_step (store_of demo_grid) ua500_historical demo_grid w
             = (w, Raise TypeError))
  /\ (let run := @process_url (store_of demo_grid) (notebook_config true)
                              ua500_historical [africa; europe] cesm2_url (fresh_kernel ∅) in
      run.2 = Raise TypeError /\
      log run.1 = [OpenZarr cesm2_url; Mkdir "/data/CESM2/";
                   Warn "Directory /data/CESM2/ created!"]).
Proof.
  split.
  - intros w.
    apply (plev_subset_aborts (store_of demo_grid) (notebook_config true) ua500_historical
             (mkOther (Some (mkPlev 50000 "ua500"))) eq_refl).
  - vm_compute. split; reflexivity.
Defined.

(** ** The ERA5 notebook: concatenation *)

Lemma last_item_nonempty (l : list Z) : l <> [] -> exists x, Era5.last_item l = Ok x.
Proof.
  intros Hl. unfold Era5.last_item. destruct (List.rev l) as [|x r] eqn:E; [|eauto].
  apply (f_equal (@List.rev Z)) in E. rewrite List.rev_involutive in E. contradiction.
Qed.

Lemma getitem_nonempty {A} (l : list A) : l <> [] -> exists x, getitem l 0 = Ok x.
Proof. destruct l; [contradiction | intros _; cbn; eauto]. Qed.

(** The removal loop: it only removes, and it raises
    [FileNotFoundError] as soon as a component file is not there. *)
Lemma removal_loop (s : Era5.settings) (v : Era5.download_var) (chunks : list (list Z)) :
  Forall (fun c => c <> []) chunks ->
  forall w, exists w' r evs,
    for_each chunks (fun chunk =>
      first ← lift (getitem chunk 0);
      last ← lift (Era5.last_item chunk);
      os_remove (Era5.filename s v (Era5.output_freq_name (Era5.resampling s)) first last)) w
    = (w', r) /\
    log w' = log w ++ evs /\ Forall is_remove evs /\
    files w' ⊆ files w /\
    (r = Ok tt \/ r = Raise FileNotFoundError) /\
    (forall chunk first last,
       In chunk chunks -> getitem chunk 0 = Ok first -> Era5.last_item chunk = Ok last ->
       Era5.filename s v (Era5.output_freq_name (Era5.resampling s)) first last ∉ files w ->
       r = Raise FileNotFoundError).
Proof.
  induction 1 as [|c chunks Hc _ IH]; intros w.
  - exists w, (Ok tt), []. cbn. rewrite app_nil_r.
    repeat split; auto. intros ? ? ? [].
  - destruct (getitem_nonempty c Hc) as [first Hf].
    destruct (last_item_nonempty c Hc) as [last Hl].
    cbn [for_each].
    set (f := Era5.filename s v (Era5.output_freq_name (Era5.resampling s)) first last).
    rewrite (bind_congr _ (os_remove f) _ w).
    2:{ rewrite (bind_ok _ _ w w first) by now apply lift_ok.
        rewrite (bind_ok _ _ w w last) by now apply lift_ok. reflexivity. }
    unfold mbind, M_bind, os_remove.
    destruct (bool_decide (f ∈ files w)) eqn:Ein.
    + apply bool_decide_eq_true in Ein.
      set (w1 := mkWorld (files w ∖ {[f]}) (log w ++ [Remove f]) (bound w) (fn1 w)).
      destruct (IH w1) as (w' & r & evs & E & Hlog & Hev & Hsub & Hr & Hmiss).
      exists w', r, (Remove f :: evs). split; [exact E|]. split.
      { rewrite Hlog. cbn. now rewrite <- app_assoc. }
      split; [constructor; [exact I | exact Hev]|].
      split; [intros x Hx; apply Hsub in Hx; cbn in Hx;
              apply elem_of_difference in Hx; tauto|].
      split; [exact Hr|].
      intros chunk first' last' [<-|Hin] Hf' Hl' Hnot.
      * rewrite Hf in Hf'. rewrite Hl in Hl'. injection Hf' as <-. injection Hl' as <-.
        contradiction.
      * apply (Hmiss chunk first' last' Hin Hf' Hl'). cbn.
        rewrite elem_of_difference. tauto.
    + exists w, (Raise FileNotFoundError), []. rewrite app_nil_r.
      repeat split; auto.
Qed.

(** C6 (as stated, refuted). At concatenation time the intermediate of
    1979 to 1983 is missing and that of 1984 to 1985 is on disk: the
    wildcard opens the one file there is and the final file for 1979 to
    1985 is written from it; only then does the removal loop raise.
    The same state arises in a run of the whole cell without resampling
    when the second intermediate is on disk. *)
Lemma concatenate_missing_intermediate :
  (let run := Era5.concatenate (era5_settings (years_from 1979 7)) vwt day_1979_1985
                [years_from 1979 5; years_from 1984 2] (fresh_kernel {[day_1984_1985]}) in
   Era5.chunks (era5_settings (years_from 1979 7))
     = Ok [years_from 1979 5; years_from 1984 2] /\
   (day_1979_1983 ∉ files (fresh_kernel {[day_1984_1985]})) /\
   log run.1 = [OpenMfdataset [day_1984_1985]; ToNetcdf day_1979_1985] /\
   day_1979_1985 ∈ files run.1 /\
   run.2 = Raise FileNotFoundError)
  /\
  (let run := Era5.download (era5_settings_hourly (years_from 1979 7)) vwt
                (fresh_kernel {[day_1984_1985]}) in
   log run.1 = [Retrieve (years_from 1979 5) hr_1979_1983; OpenDataset hr_1979_1983;
                Remove hr_1979_1983; ToNetcdf hr_1979_1983;
                Print (hr_1979_1983 +:+ " processed!");
                Print (hr_1979_1983 +:+ " already exists; skipped.");
                OpenMfdataset [day_1984_1985]; ToNetcdf hr_1979_1985] /\
   hr_1979_1985 ∈ files run.1 /\
   run.2 = Raise FileNotFoundError).
Proof.
  split.
  - vm_compute. repeat split; try reflexivity. discriminate.
  - vm_compute. repeat split; reflexivity.
Qed.

(** C6 (amended). The concatenation does not check the intermediates.
    It opens whichever files match the wildcard: when none does it
    raises [OSError] and writes nothing; when at least one does, the
    final file is written from the files matched, and the removal loop
    follows, which only removes files and raises [FileNotFoundError]
    when the intermediate of some chunk is not on disk, after the final
    file has been written. *)
Theorem concatenate_unchecked (s : Era5.settings) (v : Era5.download_var)
        (fn_final : string) (chunks : list (list Z)) (w : world) :
  Forall (fun c => c <> []) chunks ->
  let matched :=
    List.filter
      (Era5.glob_match
         (Era5.raw_data_dir s +:+ "ERA5/" +:+ Era5.short_name v +:+ "_" +:+
          Era5.output_freq_name (Era5.resampling s) +:+ "_ERA5_historical_reanalysis_")
         (Era5.fn_suffix (Era5.geographic s) +:+ ".nc"))
      (elements (files w)) in
  (matched = [] -> Era5.concatenate s v fn_final chunks w = (w, Raise OSError))
  /\
  (matched <> [] ->
   exists w' r removals,
     Era5.concatenate s v fn_final chunks w = (w', r) /\
     log w' = log w ++ OpenMfdataset matched :: ToNetcdf fn_final :: removals /\
     Forall is_remove removals /\
     (r = Ok tt \/ r = Raise FileNotFoundError) /\
     (forall chunk first last,
        In chunk chunks -> getitem chunk 0 = Ok first -> Era5.last_item chunk = Ok last ->
        Era5.filename s v (Era5.output_freq_name (Era5.resampling s)) first last ∉ files w ->
        Era5.filename s v (Era5.output_freq_name (Era5.resampling s)) first last <> fn_final ->
        r = Raise FileNotFoundError)).
Proof.
  intros Hne matched. unfold Era5.concatenate. split.
  - intros Hm. apply bind_raise. unfold Era5.open_mfdataset. fold matched. now rewrite Hm.
  - intros Hm.
    set (w1 := mkWorld (files w) (log w ++ [OpenMfdataset matched]) (bound w) (fn1 w)).
    rewrite (bind_ok _ _ w w1 tt).
    2:{ unfold Era5.open_mfdataset. fold matched. destruct matched; [contradiction | reflexivity]. }
    set (w2 := mkWorld (files w1 ∪ {[fn_final]}) (log w1 ++ [ToNetcdf fn_final])
                       (bound w1) (fn1 w1)).
    rewrite (bind_ok _ _ w1 w2 tt) by reflexivity.
    destruct (removal_loop s v chunks Hne w2) as (w' & r & evs & E & Hlog & Hev & _ & Hr & Hmiss).
    exists w', r, evs. split; [exact E|]. split.
    { rewrite Hlog. cbn. now rewrite <- !app_assoc. }
    split; [exact Hev|]. split; [exact Hr|].
    intros chunk first last Hin Hf Hl Hnot Hfinal.
    apply (Hmiss chunk first last Hin Hf Hl). cbn.
    rewrite elem_of_union, elem_of_singleton. tauto.
Qed.

(** C6 (amended), on the state of the example above. *)
Lemma concatenate_unchecked_witness :
  exists w' removals,
    Era5.concatenate (era5_settings (years_from 1979 7)) vwt day_1979_1985
      [years_from 1979 5; years_from 1984 2] (fresh_kernel {[day_1984_1985]})
    = (w', Raise FileNotFoundError) /\
    log w' = OpenMfdataset [day_1984_1985] :: ToNetcdf day_1979_1985 :: removals.
Proof.
  destruct (concatenate_unchecked (era5_settings (years_from 1979 7)) vwt day_1979_1985
              [years_from 1979 5; years_from 1984 2] (fresh_kernel {[day_1984_1985]}))
    as [_ Hsome].
  - repeat constructor; discriminate.
  - destruct Hsome as (w' & r & removals & E & Hlog & _ & _ & Hmiss).
    + vm_compute. discriminate.
    + exists w', removals. split; [|exact Hlog].
      rewrite E. f_equal.
      apply (Hmiss (years_from 1979 5) 1979%Z 1983%Z); try reflexivity.
      * now left.
      * vm_compute. discriminate.
      * vm_compute. discriminate.
Defined.

(** ** [re.sub] with a literal pattern *)

(** A pattern cannot reach into a suffix that starts with a character
    the pattern does not have. *)
Lemma prefix_app_guard (pt u v : string) (c : ascii) :
  occurs c pt = false ->
  String.prefix pt (u +:+ String c v) = String.prefix pt u.
Proof.
  revert u. induction pt as [|q t IH]; intros u Hc; [now destruct u|].
  cbn in Hc. apply orb_false_iff in Hc as [Hq Ht].
  destruct u as [|b u']; simpl.
  - destruct (ascii_dec q c) as [->|]; [|reflexivity].
    rewrite Ascii.eqb_refl in Hq. discriminate.
  - destruct (ascii_dec q b); [now apply IH | reflexivity].
Qed.

Lemma prefix_length (p s : string) :
  String.prefix p s = true -> (String.length p <= String.length s)%nat.
Proof.
  revert s. induction p as [|a p IH]; intros s; [intros _; simpl; lia|].
  destruct s as [|b s]; simpl; [discriminate|].
  destruct (ascii_dec a b); [|discriminate].
  intros Hp. apply IH in Hp. lia.
Qed.

Lemma append_cons (x : ascii) (a b : string) : String x a +:+ b = String x (a +:+ b).
Proof. reflexivity. Qed.

Lemma append_assoc (a b c : string) : (a +:+ b) +:+ c = a +:+ (b +:+ c).
Proof.
  induction a as [|x a IH]; [reflexivity|]. now rewrite !append_cons, IH.
Qed.

(** The scan of [u ++ c v] is the scan of [u] followed by the scan of
    [c v], when [c] occurs in the pattern at most as its first
    character. *)
Lemma re_sub_scan_app (p0 : ascii) (pt rep u v : string) (c : ascii) :
  occurs c pt = false ->
  forall skip, (skip <= String.length u)%nat ->
  re_sub_scan (String p0 pt) rep skip (u +:+ String c v)
  = re_sub_scan (String p0 pt) rep skip u +:+ re_sub_scan (String p0 pt) rep O (String c v).
Proof.
  intros Hc. induction u as [|a u IH]; intros skip Hskip.
  - cbn in Hskip. assert (skip = O) as -> by lia. reflexivity.
  - change (String a u +:+ String c v) with (String a (u +:+ String c v)).
    cbn [re_sub_scan]. destruct skip as [|k].
    + assert (Hp : String.prefix (String p0 pt) (String a (u +:+ String c v))
                   = String.prefix (String p0 pt) (String a u)).
      { cbn. destruct (ascii_dec p0 a); [now apply prefix_app_guard | reflexivity]. }
      rewrite Hp. destruct (String.prefix (String p0 pt) (String a u)) eqn:E.
      * rewrite IH, append_assoc; [reflexivity|].
        apply prefix_length in E. cbn in E |- *. lia.
      * rewrite IH by lia. reflexivity.
    + apply IH. cbn in Hskip. lia.
Qed.

Lemma re_sub_app (p0 : ascii) (pt rep u v : string) (c : ascii) :
  occurs c pt = false ->
  re_sub (String p0 pt) rep (u +:+ String c v)
  = re_sub (String p0 pt) rep u +:+ re_sub (String p0 pt) rep (String c v).
Proof. intros Hc. unfold re_sub. apply re_sub_scan_app; [exact Hc | lia]. Qed.

(** Nothing is replaced in a string without the first character of the
    pattern. *)
Lemma re_sub_absent (p0 : ascii) (pt rep s : string) :
  occurs p0 s = false -> re_sub (String p0 pt) rep s = s.
Proof.
  unfold re_sub. induction s as [|a s IH]; [reflexivity|]. cbn.
  intros Ho. apply orb_false_iff in Ho as [Ha Hs].
  destruct (ascii_dec p0 a) as [->|]; [rewrite Ascii.eqb_refl in Ha; discriminate|].
  now rewrite IH.
Qed.

Lemma digits_no_dash (s : string) : all_digits s = true -> occurs "-" s = false.
Proof.
  induction s as [|a s IH]; [reflexivity|]. cbn. intros H.
  apply andb_true_iff in H as [Ha Hs]. rewrite (IH Hs), orb_false_r.
  destruct (Ascii.eqb_spec a "-") as [->|]; [discriminate | reflexivity].
Qed.



(** ** The CMIP6 notebook: subsetting by time *)






(** ** The CMIP6 notebook: duplicate coordinates *)

Lemma mapM_ok_map {A B} (f : A -> result B) (g : A -> B) (l : list A) :
  (forall x, In x l -> f x = Ok (g x)) -> mapM f l = Ok (List.map g l).
Proof.
  induction l as [|x l IH]; intros H; [reflexivity|]. cbn.
  rewrite (H x (or_introl eq_refl)). cbn. rewrite IH; [reflexivity|].
  intros y Hy. apply H. now right.
Qed.

Lemma getitem_app_length {A} (pre l : list A) (x : A) :
  getitem (pre ++ x :: l) (length pre) = Ok x.
Proof.
  unfold getitem. rewrite nth_error_app2 by lia. now rewrite Nat.sub_diag.
Qed.

(** Selecting the positions of the true entries of a mask keeps the
    entries the mask marks. *)
Lemma np_take_nonzero_from {A} (mask : list bool) :
  forall (pre l : list A), length mask = length l ->
    mapM (getitem (pre ++ l)) (nonzero_from (length pre) mask) = Ok (keep mask l).
Proof.
  induction mask as [|b mask IH]; intros pre l Hlen; [reflexivity|].
  destruct l as [|x l]; [discriminate|]. injection Hlen as Hlen.
  specialize (IH (pre ++ [x]) l Hlen).
  rewrite <- app_assoc, length_app, Nat.add_comm in IH. cbn in IH.
  cbn [nonzero_from keep]. destruct b.
  - cbn [mapM]. rewrite getitem_app_length. cbn. now rewrite IH.
  - exact IH.
Qed.

Lemma np_take_nonzero {A} (mask : list bool) (l : list A) :
  length mask = length l -> np_take (nonzero mask) l = Ok (keep mask l).
Proof. intros Hlen. apply (np_take_nonzero_from mask [] l Hlen). Qed.



Lemma getitem_In {A} (l : list A) (i : nat) (x : A) : getitem l i = Ok x -> In x l.
Proof.
  unfold getitem. destruct (nth_error l i) eqn:E; [|discriminate].
  intros [= <-]. eapply nth_error_In, E.
Qed.










(** ** The CMIP6 notebook: the file-existence gate *)

Lemma mapM_cons_inv {A B} (f : A -> result B) (x : A) (l : list A) (ys : list B) :
  mapM f (x :: l) = Ok ys ->
  exists y ys', ys = y :: ys' /\ f x = Ok y /\ mapM f l = Ok ys'.
Proof.
  cbn. destruct (f x) as [y|]; [|discriminate]. cbn.
  destruct (mapM f l) as [ys'|]; [|discriminate]. cbn.
  intros [= <-]. eauto.
Qed.

Lemma mapM_In {A B} (f : A -> result B) (l : list A) (ys : list B) (x : A) :
  mapM f l = Ok ys -> In x l -> exists y, f x = Ok y /\ In y ys.
Proof.
  revert ys. induction l as [|a l IH]; intros ys Hm; [intros []|].
  apply mapM_cons_inv in Hm as (y & ys' & -> & Hy & Hm).
  intros [<-|Hin]; [exists y; split; [exact Hy | now left]|].
  destruct (IH ys' Hm Hin) as (y' & Hy' & Hin'). exists y'. split; [exact Hy' | now right].
Qed.

Lemma mapM_length {A B} (f : A -> result B) (l : list A) (ys : list B) :
  mapM f l = Ok ys -> length ys = length l.
Proof.
  revert ys. induction l as [|a l IH]; intros ys Hm; [now injection Hm as <-|].
  apply mapM_cons_inv in Hm as (y & ys' & -> & _ & Hm). cbn. now rewrite (IH ys' Hm).
Qed.

















(** The paths have to be distinct: with a specification listed twice,
    [index] reaches only the first of its two slots, the second stays
    [None] and counts as missing, so the grid is loaded although the
    file is on disk. *)
Remark process_url_repeated_specification :
  let run := @process_url (store_of demo_grid) (notebook_config false) pr_historical
                          [africa; africa] cesm2_url (fresh_kernel {[africa_nc]}) in
  log run.1 = [OpenZarr cesm2_url;
               Warn (africa_nc +:+ " already exists; skipped.");
               Warn (africa_nc +:+ " already exists; skipped.")]
  /\ run.2 = Raise NameError.
Proof. vm_compute. split; reflexivity. Qed.

(** ** The parameter resolver where it works

    With at least two keys of common value the resolver builds the
    query of the description. *)

Lemma keep_map_filter {A} (c : A -> bool) (l : list A) :
  keep (List.map c l) l = List.filter c l.
Proof. induction l as [|x l IH]; [reflexivity|]. cbn. now rewrite IH. Qed.

Lemma take_nonzero_filter {A} (c : A -> bool) (l : list A) :
  mapM (getitem l) (nonzero (List.map c l)) = Ok (List.filter c l).
Proof.
  rewrite <- keep_map_filter. apply np_take_nonzero. now rewrite length_map.
Qed.

Lemma dict_get_value_of (d : pydict string) (k : string) :
  In k (dict_keys d) -> dict_get d k = Ok (value_of d k).
Proof.
  unfold value_of. induction d as [|[k' v] d IH]; [intros []|]. cbn.
  destruct (String.eqb_spec k k') as [->|Hne]; [reflexivity|].
  intros [Heq|Hin]; [congruence | exact (IH Hin)].
Qed.

Lemma join_cons2 (sep x y : string) (l : list string) :
  join sep (x :: y :: l) = x +:+ sep +:+ join sep (y :: l).
Proof. reflexivity. Qed.

Lemma join_app (sep : string) (l1 l2 : list string) :
  l1 <> [] -> l2 <> [] ->
  join sep (l1 ++ l2) = join sep l1 +:+ sep +:+ join sep l2.
Proof.
  intros H1 H2. induction l1 as [|x l1 IH]; [contradiction|].
  destruct l1 as [|y l1].
  - destruct l2 as [|z l2]; [contradiction | reflexivity].
  - change ((x :: y :: l1) ++ l2) with (x :: y :: (l1 ++ l2)).
    rewrite !join_cons2. change (y :: l1 ++ l2) with ((y :: l1) ++ l2).
    rewrite IH by discriminate. now rewrite !append_assoc.
Qed.

Lemma join_parenthesised (gs : list string) :
  gs <> [] ->
  join " and " (List.map (fun g => "(" +:+ g +:+ ")") gs)
  = "(" +:+ join ") and (" gs +:+ ")".
Proof.
  induction gs as [|g gs IH]; [contradiction|]. intros _.
  destruct gs as [|g' gs]; [reflexivity|].
  cbn [List.map]. rewrite !join_cons2.
  change (("(" +:+ g' +:+ ")") :: List.map (fun g => "(" +:+ g +:+ ")") gs)
    with (List.map (fun g => "(" +:+ g +:+ ")") (g' :: gs)).
  rewrite IH by discriminate. rewrite !append_assoc. reflexivity.
Qed.

Lemma subset_query_described (first : pydict string) (rest : list (pydict string)) :
  Forall (fun d => forall k, In k (dict_keys first) -> In k (dict_keys d)) rest ->
  (2 <= length (common_keys (first :: rest)))%nat ->
  subset_query (first :: rest) = Ok (described_query (first :: rest)).
Proof.
  intros Hkeys Hcommon. set (all := first :: rest) in *.
  set (keys := dict_keys first).
  assert (Hall : forall d k, In d all -> In k keys -> dict_get d k = Ok (value_of d k)).
  { intros d k [<-|Hd] Hk; apply dict_get_value_of; [exact Hk|].
    rewrite List.Forall_forall in Hkeys. now apply Hkeys. }
  set (c := fun k => Nat.eqb (n_unique (List.map (fun d => value_of d k) all)) 1).
  assert (Hvals : forall k, In k keys ->
             mapM (fun x => dict_get x k) all = Ok (List.map (fun d => value_of d k) all)).
  { intros k Hk. apply mapM_ok_map. intros d Hd. now apply Hall. }
  assert (Hcommon_eq : common_keys all = List.filter c keys).
  { unfold common_keys, all. fold all keys. apply filter_ext_in. intros k Hk.
    now rewrite (Hvals k Hk). }
  assert (Hvarying_eq : varying_keys all = List.filter (fun k => negb (c k)) keys).
  { unfold varying_keys, all. fold all keys. apply filter_ext_in. intros k Hk.
    now rewrite (Hvals k Hk). }
  assert (Hgroup : forall k, In k keys ->
             or_group all k
             = Ok (join " or " (List.map (fun d => equality k (value_of d k)) all))).
  { intros k Hk. unfold or_group.
    rewrite (mapM_ok_map _ (fun d => equality k (value_of d k))); [reflexivity|].
    intros d Hd. now rewrite (Hall d k Hd Hk). }
  unfold subset_query. change (getitem all 0) with (Ok first). cbn [mbind result_bind].
  fold keys.
  rewrite (mapM_ok_map _ c keys) by (intros k Hk; now rewrite (Hvals k Hk)).
  cbn [mbind result_bind].
  (* the keys of common value *)
  pose proof (take_nonzero_filter c keys) as Hsame.
  assert (Hlen_same : length (nonzero (List.map c keys)) = length (List.filter c keys)).
  { symmetry. eapply mapM_length, Hsame. }
  assert (Eget : itemgetter (nonzero (List.map c keys)) keys = Ok (Tuple (List.filter c keys))).
  { unfold itemgetter. rewrite <- Hcommon_eq in Hlen_same.
    destruct (nonzero (List.map c keys)) as [|i [|j idxs]]; cbn [length] in Hlen_same;
      try lia.
    now rewrite Hsame. }
  rewrite Eget. cbn [mbind result_bind iter].
  rewrite (mapM_ok_map _ (fun k => equality k (value_of first k))).
  2:{ intros k Hk. apply List.filter_In in Hk as [Hk _].
      now rewrite (Hall first k (or_introl eq_refl) Hk). }
  cbn [mbind result_bind].
  (* the keys whose value varies *)
  rewrite List.map_map.
  pose proof (take_nonzero_filter (fun k => negb (c k)) keys) as Hdiff.
  assert (Hlen_diff : length (nonzero (List.map (fun k => negb (c k)) keys))
                      = length (List.filter (fun k => negb (c k)) keys)).
  { symmetry. eapply mapM_length, Hdiff. }
  assert (Hdesc : described_query all
                  = join " and "
                      (List.map (fun k => equality k (value_of first k)) (common_keys all)
                       ++ List.map (fun k => "(" +:+ join " or "
                                               (List.map (fun d => equality k (value_of d k)) all)
                                             +:+ ")")
                                   (varying_keys all))) by reflexivity.
  rewrite Hdesc, Hcommon_eq, Hvarying_eq.
  assert (Hterms : List.map (fun k => equality k (value_of first k)) (List.filter c keys) <> []).
  { rewrite <- Hcommon_eq. destruct (common_keys all); [cbn in Hcommon; lia | discriminate]. }
  destruct (List.filter (fun k => negb (c k)) keys) as [|v1 [|v2 vs]] eqn:Ev.
  - (* no key varies *)
    cbn [length] in Hlen_diff. rewrite Hlen_diff. cbn [Nat.eqb Nat.ltb Nat.leb List.map].
    now rewrite app_nil_r.
  - (* one key varies *)
    cbn [length] in Hlen_diff. rewrite Hlen_diff. cbn [Nat.eqb].
    assert (Hv1 : In v1 keys).
    { assert (Hin : In v1 (List.filter (fun k => negb (c k)) keys)) by (rewrite Ev; now left).
      now apply List.filter_In in Hin. }
    destruct (nonzero (List.map (fun k => negb (c k)) keys)) as [|i [|j idxs]];
      try discriminate.
    cbn [mapM mbind result_bind] in Hdiff. unfold itemgetter.
    destruct (getitem keys i) as [k|]; [|discriminate]. cbn in Hdiff. injection Hdiff as ->.
    cbn [mbind result_bind iter_singleton mapM]. rewrite (Hgroup v1 Hv1).
    cbn [mbind result_bind List.map].
    rewrite join_app by (exact Hterms || discriminate). reflexivity.
  - (* several keys vary *)
    cbn [length] in Hlen_diff. rewrite Hlen_diff. cbn [Nat.eqb Nat.ltb Nat.leb].
    assert (Hvs : forall k, In k (v1 :: v2 :: vs) -> In k keys).
    { intros k Hk. rewrite <- Ev in Hk. now apply List.filter_In in Hk. }
    unfold itemgetter.
    destruct (nonzero (List.map (fun k => negb (c k)) keys)) as [|i [|j idxs]];
      try discriminate.
    rewrite Hdiff. cbn [mbind result_bind iter].
    rewrite (mapM_ok_map _ (fun k => join " or "
                                       (List.map (fun d => equality k (value_of d k)) all)))
      by (intros k Hk; apply Hgroup, Hvs, Hk).
    cbn [mbind result_bind].
    rewrite join_app by (exact Hterms || discriminate).
    rewrite <- (List.map_map
                  (fun k => join " or " (List.map (fun d => equality k (value_of d k)) all))
                  (fun g => "(" +:+ g +:+ ")")).
    rewrite join_parenthesised by discriminate.
    now rewrite ?append_assoc.
Qed.

(** * Part III: further properties of the code *)

(** ** The two longitude conventions *)










(** ** [fix_lons] moves columns, it neither drops nor adds them *)



Lemma well_shaped_roll (s : Z) (ds : dataset) :
  well_shaped ds -> well_shaped (ds_roll_lon s ds).
Proof.
  intros [Hlen Hslabs]. split; cbn.
  - now rewrite length_map.
  - rewrite List.Forall_map. eapply List.Forall_impl; [|exact Hslabs].
    intros slab [Hl Hrows]. split; [now rewrite length_map|].
    rewrite List.Forall_map. eapply List.Forall_impl; [|exact Hrows].
    intros row Hrow. cbn. now rewrite !np_roll_length.
Qed.

Lemma well_shaped_assign_lon (f : Q -> Q) (ds : dataset) :
  well_shaped ds -> well_shaped (assign_lon f ds).
Proof.
  intros [Hlen Hslabs]. split; cbn; [exact Hlen|].
  eapply List.Forall_impl; [|exact Hslabs].
  intros slab [Hl Hrows]. split; [exact Hl|].
  eapply List.Forall_impl; [|exact Hrows].
  intros row Hrow. cbn. now rewrite length_map.
Qed.

Lemma map_map_roll_0 (var : list (list (list cell))) :
  List.map (List.map (np_roll 0)) var = var.
Proof.
  induction var as [|slab var IH]; [reflexivity|]. cbn. f_equal; [|exact IH].
  induction slab as [|row slab IHs]; [reflexivity|]. cbn. now rewrite np_roll_0, IHs.
Qed.





(** ** The cutoff after [fix_lons] *)

Lemma floordiv_is_zero_iff (v o : Q) :
  0 < o -> 0 <= v -> Py.floordiv_is v o 0 = true <-> v < o.
Proof.
  intros Ho Hv. rewrite floordiv_is_pos by exact Ho.
  change (inject_Z 0) with 0. change (inject_Z (0 + 1)) with 1. split; intros; [lra|split; lra].
Qed.

Lemma first_nonzero_app {A} (p : A -> bool) (l1 l2 : list A) (y : A) :
  Forall (fun x => p x = false) l1 -> p y = true ->
  first_nonzero (List.map p (l1 ++ y :: l2)) = Ok (length l1).
Proof.
  intros H1 Hy. induction H1 as [|x l1 Hx _ IH]; cbn.
  - now rewrite Hy.
  - now rewrite Hx, IH.
Qed.

Lemma np_take_seq_from {A} (k : nat) :
  forall (pre l : list A), (k <= length l)%nat ->
    mapM (getitem (pre ++ l)) (seq (length pre) k) = Ok (firstn k l).
Proof.
  induction k as [|k IH]; intros pre l Hk; [reflexivity|].
  destruct l as [|x l]; [cbn in Hk; lia|].
  cbn [seq mapM]. rewrite getitem_app_length. cbn [mbind result_bind].
  replace (pre ++ x :: l) with ((pre ++ [x]) ++ l) by now rewrite <- app_assoc.
  replace (S (length pre)) with (length (pre ++ [x])) by (rewrite length_app; cbn; lia).
  rewrite IH by (cbn in Hk; lia). reflexivity.
Qed.

Lemma np_take_seq {A} (k : nat) (l : list A) :
  (k <= length l)%nat -> np_take (seq 0 k) l = Ok (firstn k l).
Proof. intros Hk. exact (np_take_seq_from k [] l Hk). Qed.

Lemma isel_lon_seq (ds : dataset) (k : nat) :
  well_shaped ds -> (k <= length (ds_lon ds))%nat ->
  isel_lon (seq 0 k) ds
  = Ok (mkDataset (ds_lat_dim ds) (ds_lat ds) (firstn k (ds_lon ds)) (ds_time ds)
                  (ds_time_type ds) (ds_plev ds)
                  (List.map (List.map (firstn k)) (ds_var ds)) (ds_source_id ds)).
Proof.
  intros [_ Hslabs] Hk. unfold isel_lon. rewrite np_take_seq by exact Hk.
  cbn [mbind result_bind].
  rewrite (mapM_ok_map _ (List.map (firstn k))); [reflexivity|].
  intros slab Hslab. rewrite List.Forall_forall in Hslabs.
  destruct (Hslabs slab Hslab) as [_ Hrows].
  apply mapM_ok_map. intros row Hrow. rewrite List.Forall_forall in Hrows.
  apply np_take_seq. rewrite (Hrows row Hrow). exact Hk.
Qed.

(** The 360 branch on an increasing grid, with the grid it returns
    written out. *)
Lemma fix_lons_360_split (ds : dataset) (sp : subset_params) :
  strictly_increasing (ds_lon ds) -> within 0 360 (ds_lon ds) ->
  lon_range sp = 360%Z -> 0 < lon_origin sp ->
  Exists (fun v => lon_origin sp <= v /\ v < 2 * lon_origin sp) (ds_lon ds) ->
  exists west e0 east,
    ds_lon ds = west ++ e0 :: east /\
    fix_lons ds sp = Ok (ds_roll_lon (- Z.of_nat (length west)) (assign_lon to_360 ds)) /\
    Forall (fun v => 0 <= v /\ v < lon_origin sp) west /\
    Forall (fun v => lon_origin sp <= v) (e0 :: east) /\
    strictly_increasing (e0 :: east).
Proof.
  intros Hs Hin Hr Ho Hex.
  rewrite (fix_lons_360_unfold _ _ Hr), (map_to_360_id _ Hin).
  set (p := fun x => Py.floordiv_is x (lon_origin sp) 1).
  assert (Hp : forall v, In v (ds_lon ds) ->
                 p v = true <-> lon_origin sp <= v /\ v < 2 * lon_origin sp).
  { intros v Hv. unfold within in Hin. rewrite List.Forall_forall in Hin.
    unfold p. rewrite floordiv_is_one by (now apply Hin). tauto. }
  destruct (first_nonzero_found p (ds_lon ds)) as [k Hk].
  { apply List.Exists_exists in Hex as (x & Hxin & Hx).
    apply List.Exists_exists. exists x. split; [exact Hxin | now apply Hp]. }
  rewrite Hk. cbn [mbind result_bind].
  apply first_nonzero_map in Hk as (pre & x & post & El & Hlen & Hx & Hpre).
  exists pre, x, post. rewrite Hlen. split; [exact El|]. split; [reflexivity|].
  pose proof Hs as Hs'. rewrite El in Hs'.
  apply increasing_app in Hs' as (Hcross & Hspre & Hspost).
  apply (Hp x) in Hx; [|rewrite El; apply in_elt].
  split; [|split; [|exact Hspost]].
  - apply List.Forall_forall. intros v Hv.
    assert (Hvin : In v (ds_lon ds)) by (rewrite El; apply in_or_app; now left).
    unfold within in Hin. rewrite List.Forall_forall in Hin. specialize (Hin v Hvin).
    split; [tauto|].
    rewrite List.Forall_forall in Hpre. specialize (Hpre v Hv).
    specialize (Hcross v x Hv (or_introl eq_refl)).
    destruct (Qlt_le_dec v (lon_origin sp)) as [Hlt|Hge]; [exact Hlt|].
    assert (Hpv : p v = true) by (apply Hp; [exact Hvin | split; lra]).
    congruence.
  - apply increasing_cons in Hspost as [Hxpost _]. constructor; [tauto|].
    eapply List.Forall_impl; [|exact Hxpost]. cbn. intros v Hv. lra.
Qed.

Lemma roll_then_take (A : Type) (k : nat) (row : list A) :
  (k < length row)%nat ->
  firstn (length row - k) (np_roll (- Z.of_nat k) row) = skipn k row.
Proof.
  intros Hk. rewrite np_roll_neg by exact Hk.
  rewrite firstn_app, length_skipn, Nat.sub_diag. cbn [firstn].
  rewrite app_nil_r. apply firstn_all2. rewrite length_skipn. lia.
Qed.

(** X3. The longitude step of a subset in the 0:360 convention, on a
    grid whose longitudes increase within [0, 360): [fix_lons] followed
    by the cutoff. With [west] the longitudes below [lon_origin] and
    [e0] the first one at or above it: when [e0] is within 5 degrees of
    the origin nothing is cut and the wrapped longitudes stay behind the
    eastern ones; when it is further away and some longitude lies below
    the origin, exactly the wrapped longitudes and their columns are
    dropped and the result increases strictly; when it is further away
    and no longitude lies below the origin, there is nothing to find
    and the step raises [IndexError]. *)
Theorem cutoff_after_fix_lons (ds : dataset) (sp : subset_params) :
  well_shaped ds ->
  strictly_increasing (ds_lon ds) -> within 0 360 (ds_lon ds) ->
  lon_range sp = 360%Z -> 0 < lon_origin sp ->
  Exists (fun v => lon_origin sp <= v /\ v < 2 * lon_origin sp) (ds_lon ds) ->
  exists west e0 east,
    ds_lon ds = west ++ e0 :: east /\
    Forall (fun v => v < lon_origin sp) west /\
    Forall (fun v => lon_origin sp <= v) (e0 :: east) /\
    (e0 - lon_origin sp <= 5 ->
     exists r, fix_lons ds sp = Ok r /\ fix_lons_and_cutoff ds sp = Ok r /\
               ds_lon r = (e0 :: east) ++ west) /\
    (5 < e0 - lon_origin sp -> west <> [] ->
     exists r, fix_lons_and_cutoff ds sp = Ok r /\
               ds_lon r = e0 :: east /\
               strictly_increasing (ds_lon r) /\
               ds_var r = List.map (List.map (skipn (length west))) (ds_var ds) /\
               ds_lat r = ds_lat ds /\ ds_time r = ds_time ds /\
               well_shaped r) /\
    (5 < e0 - lon_origin sp -> west = [] ->
     fix_lons_and_cutoff ds sp = Raise IndexError).
Proof.
  intros Hw Hs Hin Hr Ho Hex.
  destruct (fix_lons_360_split ds sp Hs Hin Hr Ho Hex)
    as (west & e0 & east & El & Efix & Hwest & Heast & Hseast).
  exists west, e0, east. split; [exact El|].
  split; [eapply List.Forall_impl; [|exact Hwest]; cbn; tauto|].
  split; [exact Heast|].
  set (k := length west) in *.
  set (r := ds_roll_lon (- Z.of_nat k) (assign_lon to_360 ds)) in *.
  assert (Hk : (k < length (ds_lon ds))%nat).
  { rewrite El, length_app. cbn. subst k. lia. }
  assert (Hlon : ds_lon r = (e0 :: east) ++ west).
  { subst r. cbn [ds_lon ds_roll_lon assign_lon with_lon].
    rewrite (map_to_360_id _ Hin), El, np_roll_neg by (rewrite length_app; cbn; subst k; lia).
    subst k. rewrite skipn_app, firstn_app, Nat.sub_diag, skipn_all, firstn_all.
    cbn. now rewrite app_nil_r. }
  assert (He0 : lon_origin sp <= e0) by (inversion Heast; assumption).
  assert (Hgt : Py.gtb (Qabs (e0 - lon_origin sp)) 5 = true <-> 5 < e0 - lon_origin sp).
  { rewrite gtb_iff, Qabs_pos by lra. reflexivity. }
  assert (Hcut : fix_lons_and_cutoff ds sp
                 = (if Py.gtb (Qabs (e0 - lon_origin sp)) 5 then
                      k' ← first_nonzero
                             (List.map (fun x => Py.floordiv_is x (lon_origin sp) 0)
                                       ((e0 :: east) ++ west));
                      isel_lon (seq 0 k') r
                    else Ok r)).
  { unfold fix_lons_and_cutoff. rewrite Efix. cbn [mbind result_bind].
    unfold cutoff. fold r. rewrite Hlon. reflexivity. }
  assert (Hfalse : Forall (fun x => Py.floordiv_is x (lon_origin sp) 0 = false) (e0 :: east)).
  { eapply List.Forall_impl; [|exact Heast]. cbn. intros v Hv.
    destruct (Py.floordiv_is v (lon_origin sp) 0) eqn:E; [|reflexivity].
    apply floordiv_is_zero_iff in E; lra. }
  split; [|split].
  - intros Hnear. exists r. split; [exact Efix|]. split; [|exact Hlon].
    rewrite Hcut. destruct (Py.gtb (Qabs (e0 - lon_origin sp)) 5); [|reflexivity].
    pose proof (proj1 Hgt eq_refl). lra.
  - intros Hfar Hne. apply Hgt in Hfar. rewrite Hcut, Hfar.
    destruct west as [|w0 west'] eqn:Ew; [contradiction|].
    rewrite first_nonzero_app; cycle 1.
    { exact Hfalse. }
    { inversion Hwest as [|? ? [Hw0 Hw1] _]; subst. now apply floordiv_is_zero_iff. }
    cbn [mbind result_bind].
    assert (Hwr : well_shaped r).
    { subst r. now apply well_shaped_roll, well_shaped_assign_lon. }
    rewrite isel_lon_seq by (exact Hwr || (rewrite Hlon, length_app; lia)).
    eexists. split; [reflexivity|]. cbn [ds_lon ds_var ds_lat ds_time].
    rewrite Hlon, firstn_app, Nat.sub_diag, firstn_all. cbn [firstn]. rewrite app_nil_r.
    split; [reflexivity|]. split; [exact Hseast|].
    assert (Hn : length (e0 :: east) = (length (ds_lon ds) - k)%nat).
    { rewrite El, length_app. subst k. cbn. lia. }
    assert (Hvar : List.map (List.map (firstn (length (e0 :: east)))) (ds_var r)
                   = List.map (List.map (skipn k)) (ds_var ds)).
    { subst r. cbn [ds_var ds_roll_lon assign_lon with_lon].
      rewrite List.map_map. apply List.map_ext_in. intros slab Hslab.
      rewrite List.map_map. apply List.map_ext_in. intros row Hrow.
      destruct Hw as [_ Hslabs]. rewrite List.Forall_forall in Hslabs.
      destruct (Hslabs slab Hslab) as [_ Hrows]. rewrite List.Forall_forall in Hrows.
      specialize (Hrows row Hrow). rewrite Hn, <- Hrows.
      apply roll_then_take. rewrite Hrows. exact Hk. }
    split; [exact Hvar|]. split; [reflexivity|]. split; [reflexivity|].
    (* the shape *)
    destruct Hwr as [Hlen Hslabs]. split; cbn; [now rewrite length_map|].
    rewrite List.Forall_map. eapply List.Forall_impl; [|exact Hslabs].
    intros slab [Hl Hrows]. split; [now rewrite length_map|].
    rewrite List.Forall_map. eapply List.Forall_impl; [|exact Hrows].
    intros row Hrow. cbn. rewrite length_firstn, Hrow, Hlon, length_app. cbn. lia.
  - intros Hfar ->. apply Hgt in Hfar. rewrite Hcut, Hfar, app_nil_r.
    now rewrite first_nonzero_none.
Qed.

Lemma demo_grid_well_shaped : well_shaped demo_grid.
Proof. split; [reflexivity|]. repeat constructor. Qed.

Lemma cutoff_after_fix_lons_witness :
  exists r, fix_lons_and_cutoff demo_grid pacific = Ok r /\
            ds_lon r = [180; 270] /\
            strictly_increasing (ds_lon r) /\
            ds_var r = [[[Val 3; Val 4]; [Val 3; Val 4]]; [[Val 3; Val 4]; [Val 3; Val 4]]].
Proof.
  destruct (cutoff_after_fix_lons demo_grid pacific)
    as (west & e0 & east & El & Hwest & Heast & _ & Hfar & _).
  - exact demo_grid_well_shaped.
  - apply increasing_4; reflexivity.
  - repeat constructor; cbn; lra.
  - reflexivity.
  - reflexivity.
  - apply Exists_cons_tl, Exists_cons_tl, Exists_cons_hd. cbn. split; lra.
  - assert (He0 : 100 <= e0) by (inversion Heast; assumption).
    assert (Hsplit : west = [0; 90] /\ e0 = 180 /\ east = [270]).
    { cbn in El.
      destruct west as [|a [|b [|c [|d w]]]]; cbn in El; injection El as <-; subst;
        try (exfalso; lra);
        repeat match goal with
               | H : Forall _ (_ :: _) |- _ => inversion H; clear H; subst
               end; cbn in *; try (exfalso; lra).
      now repeat split. }
    destruct Hsplit as (-> & -> & ->).
    destruct Hfar as (r & E1 & E2 & E3 & E4 & _); [reflexivity | discriminate |].
    exists r. repeat split; assumption.
Defined.

(** ** The time axis: the sortedness test and [sortby] *)

Ltac time_cases :=
  unfold time_leb, time_eqb in *; cbn in *;
  repeat match goal with
         | |- context [Z.ltb ?a ?b] => destruct (Z.ltb_spec a b)
         | H : context [Z.ltb ?a ?b] |- _ => destruct (Z.ltb_spec a b)
         | |- context [Z.leb ?a ?b] => destruct (Z.leb_spec a b)
         | H : context [Z.leb ?a ?b] |- _ => destruct (Z.leb_spec a b)
         | |- context [Z.eqb ?a ?b] => destruct (Z.eqb_spec a b)
         | H : context [Z.eqb ?a ?b] |- _ => destruct (Z.eqb_spec a b)
         end; cbn in *; try discriminate; try lia; try reflexivity.

Lemma time_eqb_eq (a b : timestamp) : time_eqb a b = true <-> a = b.
Proof.
  destruct a as [ya ma da], b as [yb mb db]. split.
  - intros H. time_cases. congruence.
  - intros [= -> -> ->]. unfold time_eqb. cbn. now rewrite !Z.eqb_refl.
Qed.

Lemma time_leb_refl (a : timestamp) : time_leb a a = true.
Proof. destruct a. time_cases. Qed.

Lemma time_leb_total (a b : timestamp) : time_leb a b = true \/ time_leb b a = true.
Proof.
  destruct a as [ya ma da], b as [yb mb db].
  destruct (time_leb (mkTime ya ma da) (mkTime yb mb db)) eqn:E; [now left|right].
  time_cases.
Qed.

Lemma time_leb_trans (a b c : timestamp) :
  time_leb a b = true -> time_leb b c = true -> time_leb a c = true.
Proof.
  destruct a as [ya ma da], b as [yb mb db], c as [yc mc dc]. intros H1 H2. time_cases.
Qed.

Lemma time_leb_antisym (a b : timestamp) :
  time_leb a b = true -> time_leb b a = true -> a = b.
Proof.
  destruct a as [ya ma da], b as [yb mb db]. intros H1 H2. time_cases.
  f_equal; lia.
Qed.

(** The test of [insert_by_time]: strictly earlier. *)
Lemma strictly_earlier_iff (a b : timestamp) :
  time_leb a b && negb (time_eqb a b) = true <-> time_leb b a = false.
Proof.
  destruct a as [ya ma da], b as [yb mb db]. split; intros H.
  - apply andb_true_iff in H as [H1 H2]. time_cases.
  - apply andb_true_iff. time_cases; split; reflexivity || lia.
Qed.

Section SortByTime.
Context {A : Type}.
Implicit Types (x y : timestamp * A) (l acc : list (timestamp * A)).

Local Instance le_by_time_trans : Transitive (@le_by_time A).
Proof. intros x y z. apply time_leb_trans. Qed.

Lemma chronological_map_fst l : chronological (List.map fst l) <-> Sorted le_by_time l.
Proof.
induction l as [|x l IH]; [split; constructor|]. cbn. split; intros H.
- inversion H as [|? ? Hs Hh]; subst. constructor; [now apply IH|].
destruct l; [constructor|]. inversion Hh; subst. now constructor.
- inversion H as [|? ? Hs Hh]; subst. constructor; [now apply IH|].
destruct l; [constructor|]. inversion Hh; subst. now constructor.
Qed.

Lemma insert_by_time_sorted x l :
Sorted le_by_time l -> Sorted le_by_time (insert_by_time x l).
Proof.
induction l as [|y l IH]; intros Hs; cbn.
- repeat constructor.
- destruct (time_leb (fst x) (fst y) && negb (time_eqb (fst x) (fst y))) eqn:E.
+ apply andb_true_iff in E as [E _]. constructor; [exact Hs|]. now constructor.
+ inversion Hs as [|? ? Hs' Hh]; subst. constructor; [now apply IH|].
  assert (Hyx : le_by_time y x).
  { unfold le_by_time. destruct (time_leb (fst y) (fst x)) eqn:E'; [reflexivity|].
    apply strictly_earlier_iff in E'. congruence. }
  destruct l as [|z l]; cbn; [now constructor|].
  destruct (time_leb (fst x) (fst z) && negb (time_eqb (fst x) (fst z)));
    constructor; [exact Hyx|]. now inversion Hh.
Qed.

Lemma insert_by_time_perm x l : Permutation (insert_by_time x l) (x :: l).
Proof.
induction l as [|y l IH]; cbn; [reflexivity|].
destruct (time_leb (fst x) (fst y) && negb (time_eqb (fst x) (fst y))); [reflexivity|].
rewrite IH. apply perm_swap.
Qed.

Lemma insert_by_time_last x l :
Forall (fun y => le_by_time y x) l -> insert_by_time x l = l ++ [x].
Proof.
induction 1 as [|y l Hy _ IH]; cbn; [reflexivity|].
destruct (time_leb (fst x) (fst y) && negb (time_eqb (fst x) (fst y))) eqn:E.
- apply strictly_earlier_iff in E. unfold le_by_time in Hy. congruence.
- now rewrite IH.
Qed.

Lemma sort_fold_sorted l : forall acc,
Sorted le_by_time acc ->
Sorted le_by_time (fold_left (fun acc x => insert_by_time x acc) l acc).
Proof.
induction l as [|x l IH]; intros acc Hacc; cbn; [exact Hacc|].
apply IH, insert_by_time_sorted, Hacc.
Qed.

Lemma sort_fold_perm l : forall acc,
Permutation (fold_left (fun acc x => insert_by_time x acc) l acc) (acc ++ l).
Proof.
induction l as [|x l IH]; intros acc; cbn; [now rewrite app_nil_r|].
rewrite IH, insert_by_time_perm. cbn. apply Permutation_middle.
Qed.

Lemma sort_fold_id l : forall acc,
Sorted le_by_time (acc ++ l) ->
fold_left (fun acc x => insert_by_time x acc) l acc = acc ++ l.
Proof.
induction l as [|x l IH]; intros acc Hs; cbn; [now rewrite app_nil_r|].
assert (Hacc : Forall (fun y => le_by_time y x) acc).
{ apply Sorted_StronglySorted in Hs; [|exact le_by_time_trans].
clear IH. induction acc as [|y acc IHacc]; [constructor|].
cbn in Hs. inversion Hs as [|? ? Hs' Hall]; subst. constructor; [|now apply IHacc].
rewrite List.Forall_forall in Hall. apply Hall, in_elt. }
rewrite insert_by_time_last by exact Hacc.
rewrite IH; rewrite <- app_assoc; [reflexivity | exact Hs].
Qed.

Lemma sort_by_time_sorted l : Sorted le_by_time (sort_by_time l).
Proof. apply sort_fold_sorted. constructor. Qed.

Lemma sort_by_time_perm l : Permutation (sort_by_time l) l.
Proof. unfold sort_by_time. now rewrite sort_fold_perm. Qed.

Lemma sort_by_time_id l : Sorted le_by_time l -> sort_by_time l = l.
Proof. intros Hs. unfold sort_by_time. now rewrite sort_fold_id. Qed.

End SortByTime.

Lemma np_sort_times_eq (times : list timestamp) :
  chronological (np_sort_times times) /\
  Permutation (np_sort_times times) times /\
  (chronological times -> np_sort_times times = times).
Proof.
  unfold np_sort_times.
  assert (Hfst : List.map fst (List.map (fun t : timestamp => (t, tt)) times) = times).
  { rewrite List.map_map. cbn. apply List.map_id. }
  split; [|split].
  - apply chronological_map_fst, sort_by_time_sorted.
  - rewrite sort_by_time_perm. now rewrite Hfst.
  - intros Hc. rewrite sort_by_time_id; [exact Hfst|].
    apply chronological_map_fst. now rewrite Hfst.
Qed.

Lemma elementwise_equal (l l' : list timestamp) :
  length l = length l' ->
  existsb (fun p => negb (time_eqb (fst p) (snd p))) (combine l l') = false <-> l = l'.
Proof.
  revert l'. induction l as [|a l IH]; intros [|b l'] Hlen; cbn in *; try discriminate.
  - tauto.
  - rewrite orb_false_iff, negb_false_iff, time_eqb_eq, IH by lia.
    split; [intros [-> ->]; reflexivity | intros [= -> ->]; auto].
Qed.

Lemma time_unsorted_spec (ds : dataset) :
  time_unsorted ds = false <-> chronological (ds_time ds).
Proof.
  destruct (np_sort_times_eq (ds_time ds)) as (Hs & Hp & Hid).
  unfold time_unsorted.
  rewrite elementwise_equal by (symmetry; apply Permutation_length, Hp).
  split.
  - intros ->. exact Hs.
  - intros Hc. symmetry. now apply Hid.
Qed.

(** X4. The test before the sort,
    [(ds.time.values != np.sort(ds.time)).any()], is exact: it is false
    precisely when the time axis is in chronological order (equal time
    steps allowed), so the "unsorted time dimension" warning is issued
    for the unordered axes and for no others; and the sorted copy it
    compares with is the time axis itself, rearranged into chronological
    order. *)
Theorem time_unsorted_iff (ds : dataset) :
  (time_unsorted ds = false <-> chronological (ds_time ds)) /\
  chronological (np_sort_times (ds_time ds)) /\
  Permutation (np_sort_times (ds_time ds)) (ds_time ds).
Proof.
  split; [apply time_unsorted_spec|].
  destruct (np_sort_times_eq (ds_time ds)) as (Hs & Hp & _). now split.
Qed.

Lemma combine_fst_snd {A B} (l : list (A * B)) :
  combine (List.map fst l) (List.map snd l) = l.
Proof. induction l as [|[a b] l IH]; cbn; [reflexivity|now rewrite IH]. Qed.

Lemma map_fst_combine {A B} (l : list A) (l' : list B) :
  length l = length l' -> List.map fst (combine l l') = l.
Proof.
  revert l'. induction l as [|a l IH]; intros [|b l'] H; cbn in *; try discriminate;
    [reflexivity|]. now rewrite IH by lia.
Qed.

Lemma map_snd_combine {A B} (l : list A) (l' : list B) :
  length l = length l' -> List.map snd (combine l l') = l'.
Proof.
  revert l'. induction l as [|a l IH]; intros [|b l'] H; cbn in *; try discriminate;
    [reflexivity|]. now rewrite IH by lia.
Qed.

Lemma sortby_time_spec (ds : dataset) :
  well_shaped ds ->
  chronological (ds_time (sortby_time ds)) /\
  Permutation (combine (ds_time (sortby_time ds)) (ds_var (sortby_time ds)))
              (combine (ds_time ds) (ds_var ds)) /\
  ds_lat (sortby_time ds) = ds_lat ds /\
  ds_lon (sortby_time ds) = ds_lon ds /\
  well_shaped (sortby_time ds) /\
  (chronological (ds_time ds) -> sortby_time ds = ds).
Proof.
  intros [Hlen Hslabs].
  set (sorted := sort_by_time (combine (ds_time ds) (ds_var ds))).
  assert (Hchron : chronological (ds_time (sortby_time ds))).
  { cbn. apply chronological_map_fst, sort_by_time_sorted. }
  split; [exact Hchron|]. split; [|split; [reflexivity|split; [reflexivity|split]]].
  - cbn. rewrite combine_fst_snd. apply sort_by_time_perm.
  - split; cbn.
    + now rewrite !length_map.
    + rewrite List.Forall_forall. intros slab Hslab.
      apply List.in_map_iff in Hslab as ([t s] & <- & Hin).
      apply (Permutation_in _ (sort_by_time_perm _)) in Hin.
      apply in_combine_r in Hin. rewrite List.Forall_forall in Hslabs.
      exact (Hslabs s Hin).
  - intros Hc. unfold sortby_time.
    rewrite sort_by_time_id.
    + rewrite map_fst_combine, map_snd_combine by (symmetry; exact Hlen).
      now destruct ds.
    + apply chronological_map_fst. now rewrite map_fst_combine by (symmetry; exact Hlen).
Qed.


(** X5. [ds.sortby('time')] as the cell uses it, on a grid whose
    variable has one slab per time step: the time axis of the result is
    in chronological order; the time steps with their slabs are those of
    the input, rearranged, so every slab keeps its time step; latitudes
    and longitudes are untouched and the shape is kept; a grid already in
    order is returned as it is; and after the sort the test of the cell
    no longer fires. *)
Theorem sortby_time_sorts (ds : dataset) :
  well_shaped ds ->
  chronological (ds_time (sortby_time ds)) /\
  Permutation (combine (ds_time (sortby_time ds)) (ds_var (sortby_time ds)))
              (combine (ds_time ds) (ds_var ds)) /\
  ds_lat (sortby_time ds) = ds_lat ds /\
  ds_lon (sortby_time ds) = ds_lon ds /\
  well_shaped (sortby_time ds) /\
  time_unsorted (sortby_time ds) = false /\
  (chronological (ds_time ds) -> sortby_time ds = ds).
Proof.
  intros Hw. destruct (sortby_time_spec ds Hw) as (S1 & S2 & S3 & S4 & S5 & S6).
  do 5 (split; [assumption|]). split; [now apply time_unsorted_spec | exact S6].
Qed.

Lemma sortby_time_sorts_witness :
  ds_time (sortby_time shuffled_grid) = [mkTime 2000 1 1; mkTime 2000 1 2] /\
  ds_var (sortby_time shuffled_grid) = [[demo_row; demo_row]; [nan_row; nan_row]] /\
  chronological (ds_time (sortby_time shuffled_grid)) /\
  time_unsorted shuffled_grid = true.
Proof.
  destruct (sortby_time_sorts shuffled_grid) as (H1 & _).
  - split; [reflexivity|]. repeat constructor.
  - split; [reflexivity|]. split; [reflexivity|]. split; [exact H1 | reflexivity].
Defined.

(** ** The compensation for doubled coordinates: edges and invariants *)

Lemma take_out_of_range {A} (l : list A) (mask : list bool) :
  forall (n : nat) (ys : list A),
    (length l <= n)%nat ->
    mapM (getitem l) (nonzero_from n mask) = Ok ys -> ys = [] /\ keep mask ([] : list A) = [].
Proof.
  induction mask as [|b mask IH]; intros n ys Hn E; cbn in *.
  - injection E as <-. auto.
  - destruct b.
    + cbn in E. unfold getitem in E.
      rewrite (proj2 (nth_error_None l n) Hn) in E. discriminate.
    + destruct (IH (S n) ys) as [-> _]; [lia | exact E |]. auto.
Qed.

Lemma np_take_nonzero_inv {A} (mask : list bool) :
  forall (pre l ys : list A),
    mapM (getitem (pre ++ l)) (nonzero_from (length pre) mask) = Ok ys ->
    ys = keep mask l.
Proof.
  induction mask as [|b mask IH]; intros pre l ys E.
  - cbn in E. injection E as <-. reflexivity.
  - destruct l as [|x l].
    + rewrite app_nil_r in E.
      destruct (take_out_of_range pre (b :: mask) (length pre) ys) as [-> _];
        [lia | exact E |]. now destruct b.
    + assert (Hshift : forall zs,
                 mapM (getitem (pre ++ x :: l)) (nonzero_from (S (length pre)) mask) = Ok zs ->
                 zs = keep mask l).
      { intros zs Ez. apply (IH (pre ++ [x]) l zs).
        rewrite <- app_assoc, length_app. cbn [app length].
        now rewrite Nat.add_1_r. }
      cbn [nonzero_from] in E. destruct b; cbn [keep].
      * cbn [mapM] in E. rewrite getitem_app_length in E. cbn [mbind result_bind] in E.
        destruct (mapM _ (nonzero_from _ mask)) as [zs|] eqn:Ez; [|discriminate].
        cbn in E. injection E as <-. f_equal. now apply Hshift.
      * now apply Hshift.
Qed.

Lemma np_take_inv {A} (mask : list bool) (l ys : list A) :
  np_take (nonzero mask) l = Ok ys -> ys = keep mask l.
Proof. exact (np_take_nonzero_inv mask [] l ys). Qed.

Lemma mapM_inv_map {A B} (f : A -> result B) (g : A -> B) (l : list A) (ys : list B) :
  (forall x y, In x l -> f x = Ok y -> y = g x) ->
  mapM f l = Ok ys -> ys = List.map g l.
Proof.
  revert ys. induction l as [|x l IH]; intros ys Hf E; cbn in E.
  - now injection E as <-.
  - destruct (f x) as [y|] eqn:Ex; [|discriminate]. cbn in E.
    destruct (mapM f l) as [zs|] eqn:El; [|discriminate]. cbn in E. injection E as <-.
    cbn. f_equal; [apply Hf; [now left | exact Ex]|].
    apply IH; [|reflexivity]. intros x' y' Hin. apply Hf. now right.
Qed.

Lemma isel_lat_inv (ds r : dataset) (mask : list bool) :
  isel_lat (nonzero mask) ds = Ok r -> r = keep_lat mask ds.
Proof.
  unfold isel_lat. intros E.
  destruct (np_take _ (ds_lat ds)) as [lats|] eqn:El; [|discriminate]. cbn in E.
  destruct (mapM _ (ds_var ds)) as [var|] eqn:Ev; [|discriminate]. cbn in E.
  injection E as <-. unfold keep_lat. f_equal.
  - now apply np_take_inv.
  - apply (mapM_inv_map _ (keep mask)) in Ev; [exact Ev|].
    intros slab ys _. apply np_take_inv.
Qed.

Lemma isel_lon_inv (ds r : dataset) (mask : list bool) :
  isel_lon (nonzero mask) ds = Ok r -> r = keep_lon mask ds.
Proof.
  unfold isel_lon. intros E.
  destruct (np_take _ (ds_lon ds)) as [lons|] eqn:El; [|discriminate]. cbn in E.
  destruct (mapM _ (ds_var ds)) as [var|] eqn:Ev; [|discriminate]. cbn in E.
  injection E as <-. unfold keep_lon. f_equal.
  - now apply np_take_inv.
  - apply (mapM_inv_map _ (List.map (keep mask))) in Ev; [exact Ev|].
    intros slab ys _. apply mapM_inv_map. intros row zs _. apply np_take_inv.
Qed.

Lemma keep_length {A B} (mask : list bool) (l : list A) (l' : list B) :
  length l = length l' -> length (keep mask l) = length (keep mask l').
Proof.
  revert l l'. induction mask as [|b mask IH]; intros [|x l] [|y l'] H; cbn in *;
    try discriminate; try reflexivity.
  destruct b; cbn; [f_equal|]; apply IH; lia.
Qed.

Lemma keep_sublist {A} (mask : list bool) (l : list A) : sublist (keep mask l) l.
Proof.
  revert l. induction mask as [|b mask IH]; intros [|x l]; cbn; try apply sublist_nil_l.
  destruct b; [apply sublist_skip | apply sublist_cons]; apply IH.
Qed.

Lemma well_shaped_keep_lat (mask : list bool) (ds : dataset) :
  well_shaped ds -> well_shaped (keep_lat mask ds).
Proof.
  intros [Hlen Hslabs]. split; cbn; [now rewrite length_map|].
  rewrite List.Forall_map. eapply List.Forall_impl; [|exact Hslabs].
  intros slab [Hl Hrows]. split; [now apply keep_length|].
  rewrite List.Forall_forall in Hrows |- *. intros row Hrow. apply Hrows.
  apply list_elem_of_In. eapply elem_of_sublist; [|apply (keep_sublist mask)].
  apply list_elem_of_In, Hrow.
Qed.

Lemma well_shaped_keep_lon (mask : list bool) (ds : dataset) :
  well_shaped ds -> well_shaped (keep_lon mask ds).
Proof.
  intros [Hlen Hslabs]. split; cbn; [now rewrite length_map|].
  rewrite List.Forall_map. eapply List.Forall_impl; [|exact Hslabs].
  intros slab [Hl Hrows]. split; [now rewrite length_map|].
  rewrite List.Forall_map. eapply List.Forall_impl; [|exact Hrows].
  intros row Hrow. cbn. now apply keep_length.
Qed.

Lemma keep_repeat_true {A} (l : list A) : keep (repeat true (length l)) l = l.
Proof. induction l as [|x l IH]; cbn; [reflexivity|now rewrite IH]. Qed.

Lemma keep_lat_all (ds : dataset) :
  well_shaped ds -> keep_lat (repeat true (length (ds_lat ds))) ds = ds.
Proof.
  intros [_ Hslabs]. unfold keep_lat. rewrite keep_repeat_true.
  replace (List.map (keep (repeat true (length (ds_lat ds)))) (ds_var ds)) with (ds_var ds);
    [now destruct ds|].
  symmetry. rewrite <- (List.map_id (ds_var ds)) at 2. apply List.map_ext_in.
  intros slab Hslab. rewrite List.Forall_forall in Hslabs.
  destruct (Hslabs slab Hslab) as [<- _]. apply keep_repeat_true.
Qed.

Lemma keep_lon_all (ds : dataset) :
  well_shaped ds -> keep_lon (repeat true (length (ds_lon ds))) ds = ds.
Proof.
  intros [_ Hslabs]. unfold keep_lon. rewrite keep_repeat_true.
  replace (List.map (List.map (keep (repeat true (length (ds_lon ds))))) (ds_var ds))
    with (ds_var ds); [now destruct ds|].
  symmetry. rewrite <- (List.map_id (ds_var ds)) at 2. apply List.map_ext_in.
  intros slab Hslab. rewrite List.Forall_forall in Hslabs.
  destruct (Hslabs slab Hslab) as [_ Hrows].
  rewrite <- (List.map_id slab) at 2. apply List.map_ext_in.
  intros row Hrow. rewrite List.Forall_forall in Hrows.
  rewrite <- (Hrows row Hrow). apply keep_repeat_true.
Qed.

Lemma compensate_lat_inv (ds r : dataset) (ws : list string) :
  well_shaped ds -> compensate_lat ds = Ok (r, ws) ->
  exists mask, r = keep_lat mask ds /\
               (ws = [] /\ r = ds \/ ws = [duplicate_warning ds "lat"]).
Proof.
  intros Hw E. unfold compensate_lat in E.
  destruct (has_duplicates (ds_lat ds)).
  - destruct (reference_along_lat ds) as [ref|]; [|discriminate]. cbn in E.
    destruct (isel_lat _ ds) as [d|] eqn:Ei; [|discriminate]. cbn in E.
    injection E as <- <-. apply isel_lat_inv in Ei as ->.
    exists (not_nan ref). split; [reflexivity|]. now right.
  - injection E as <- <-. exists (repeat true (length (ds_lat ds))).
    split; [now rewrite keep_lat_all|]. now left.
Qed.

Lemma compensate_lon_inv (ds r : dataset) (ws : list string) :
  well_shaped ds -> compensate_lon ds = Ok (r, ws) ->
  exists mask, r = keep_lon mask ds /\
               (ws = [] /\ r = ds \/ ws = [duplicate_warning ds "lon"]).
Proof.
  intros Hw E. unfold compensate_lon in E.
  destruct (has_duplicates (ds_lon ds)).
  - destruct (reference_along_lon ds) as [ref|]; [|discriminate]. cbn in E.
    destruct (isel_lon _ ds) as [d|] eqn:Ei; [|discriminate]. cbn in E.
    injection E as <- <-. apply isel_lon_inv in Ei as ->.
    exists (not_nan ref). split; [reflexivity|]. now right.
  - injection E as <- <-. exists (repeat true (length (ds_lon ds))).
    split; [now rewrite keep_lon_all|]. now left.
Qed.

Lemma fix_coordinate_doubling_inv (ds r : dataset) (ws : list string) :
  well_shaped ds ->
  fix_coordinate_doubling ds = Ok (r, ws) ->
  exists mlat mlon,
    r = keep_lon mlon (keep_lat mlat ds) /\
    sublist ws [duplicate_warning ds "lat"; duplicate_warning ds "lon"] /\
    (ws = [] -> r = ds).
Proof.
  intros Hw E. unfold fix_coordinate_doubling in E.
  destruct (ds_lat_dim ds).
  - destruct (compensate_lat ds) as [[d1 w1]|] eqn:E1; [|discriminate]. cbn in E.
    destruct (compensate_lon d1) as [[d2 w2]|] eqn:E2; [|discriminate]. cbn in E.
    injection E as <- <-.
    destruct (compensate_lat_inv _ _ _ Hw E1) as (mlat & -> & H1).
    destruct (compensate_lon_inv _ _ _ (well_shaped_keep_lat mlat ds Hw) E2)
      as (mlon & -> & H2).
    exists mlat, mlon. split; [reflexivity|].
    change (duplicate_warning (keep_lat mlat ds) "lon") with (duplicate_warning ds "lon") in H2.
    split.
    + destruct H1 as [[-> _]| ->], H2 as [[-> _]| ->]; cbn [app].
      * apply sublist_nil_l.
      * apply sublist_cons, sublist_skip, sublist_nil_l.
      * apply sublist_skip, sublist_nil_l.
      * reflexivity.
    + intros Hnil. apply app_eq_nil in Hnil as [-> ->].
      destruct H1 as [[_ H1]|?]; [|discriminate].
      destruct H2 as [[_ H2]|?]; [|discriminate]. now rewrite H2.
  - injection E as <- <-.
    exists (repeat true (length (ds_lat ds))), (repeat true (length (ds_lon ds))).
    rewrite keep_lat_all by exact Hw.
    split; [now rewrite keep_lon_all|]. split; [apply sublist_nil_l | reflexivity].
Qed.




Lemma nth_error_lt {A} (l : list A) (i : nat) (x : A) :
  nth_error l i = Some x -> (i < length l)%nat.
Proof. intros E. apply nth_error_Some. congruence. Qed.

Lemma has_duplicates_nonempty (l : list Q) : has_duplicates l = true -> l <> [].
Proof. intros H ->. discriminate. Qed.

Lemma reference_along_lat_missing (ds : dataset) :
  well_shaped ds -> ds_lat ds <> [] ->
  (length (ds_time ds) < 2)%nat \/ (length (ds_lon ds) < 2)%nat ->
  reference_along_lat ds = Raise IndexError.
Proof.
  intros [Hlen Hslabs] Hlat Hshort. unfold reference_along_lat, getitem.
  destruct (nth_error (ds_var ds) 1) as [slab|] eqn:E; [|reflexivity].
  cbn [mbind result_bind].
  assert (Hin : In slab (ds_var ds)) by (eapply nth_error_In, E).
  rewrite List.Forall_forall in Hslabs. destruct (Hslabs slab Hin) as [Hl Hrows].
  destruct Hshort as [Ht|Hlon].
  { apply nth_error_lt in E. lia. }
  destruct slab as [|row slab]; [destruct (ds_lat ds); [contradiction | discriminate]|].
  cbn [mapM]. inversion Hrows as [|? ? Hrow _]; subst.
  rewrite (proj2 (nth_error_None row 1)) by lia. reflexivity.
Qed.

Lemma reference_along_lon_missing (ds : dataset) :
  well_shaped ds ->
  (length (ds_time ds) < 2)%nat \/ (length (ds_lat ds) < 2)%nat ->
  reference_along_lon ds = Raise IndexError.
Proof.
  intros [Hlen Hslabs] Hshort. unfold reference_along_lon, getitem.
  destruct (nth_error (ds_var ds) 1) as [slab|] eqn:E; [|reflexivity].
  cbn [mbind result_bind].
  assert (Hin : In slab (ds_var ds)) by (eapply nth_error_In, E).
  rewrite List.Forall_forall in Hslabs. destruct (Hslabs slab Hin) as [Hl _].
  destruct Hshort as [Ht|Hlat].
  { apply nth_error_lt in E. lia. }
  rewrite (proj2 (nth_error_None slab 1)) by lia. reflexivity.
Qed.

(** X7. The compensation reads the variable at the second time step
    and the second position of the other axis ([isel(lon=1, time=1)],
    [isel(lat=1, time=1)]): on a grid with duplicated latitudes that has
    a single time step or a single longitude, and on one with
    duplicated longitudes that has a single time step or a single
    latitude, that slice does not exist and the step raises
    [IndexError] instead of compensating. *)
Theorem compensation_needs_reference_slice (ds : dataset) :
  well_shaped ds -> ds_lat_dim ds = true ->
  (has_duplicates (ds_lat ds) = true ->
   (length (ds_time ds) < 2)%nat \/ (length (ds_lon ds) < 2)%nat ->
   fix_coordinate_doubling ds = Raise IndexError)
  /\
  (has_duplicates (ds_lat ds) = false -> has_duplicates (ds_lon ds) = true ->
   (length (ds_time ds) < 2)%nat \/ (length (ds_lat ds) < 2)%nat ->
   fix_coordinate_doubling ds = Raise IndexError).
Proof.
  intros Hw Hdim. unfold fix_coordinate_doubling. rewrite Hdim. split.
  - intros Hdup Hshort. unfold compensate_lat. rewrite Hdup.
    rewrite reference_along_lat_missing; auto using has_duplicates_nonempty.
  - intros Hlat Hlon Hshort. unfold compensate_lat. rewrite Hlat. cbn [mbind result_bind].
    unfold compensate_lon. rewrite Hlon.
    now rewrite reference_along_lon_missing.
Qed.

Lemma compensation_needs_reference_slice_witness :
  fix_coordinate_doubling doubled_grid_one_step = Raise IndexError.
Proof.
  destruct (compensation_needs_reference_slice doubled_grid_one_step) as [H _].
  - split; [reflexivity|]. repeat constructor.
  - reflexivity.
  - apply H; [reflexivity|]. left. cbn. lia.
Defined.

Lemma mapM_In_inv {A B} (f : A -> result B) (l : list A) (ys : list B) (y : B) :
  mapM f l = Ok ys -> In y ys -> exists x, In x l /\ f x = Ok y.
Proof.
  revert ys. induction l as [|x l IH]; intros ys E Hy; cbn in E.
  - injection E as <-. contradiction.
  - destruct (f x) as [y0|] eqn:Ex; [|discriminate]. cbn in E.
    destruct (mapM f l) as [zs|] eqn:El; [|discriminate]. cbn in E. injection E as <-.
    destruct Hy as [<-|Hy].
    + exists x. split; [now left | exact Ex].
    + destruct (IH zs eq_refl Hy) as (x' & Hin & Hx'). exists x'. split; [now right | exact Hx'].
Qed.






(** ** The duplicate test *)






(** ** Loading a grid *)

Lemma for_each_warn (ws : list string) (w : world) :
  for_each ws (fun msg => emit (Warn msg)) w
  = (mkWorld (files w) (log w ++ List.map Warn ws) (bound w) (fn1 w), Ok tt).
Proof.
  revert w. induction ws as [|msg ws IH]; intros w; cbn [for_each List.map].
  - rewrite app_nil_r. now destruct w.
  - unfold mbind, M_bind, emit. rewrite IH. cbn. now rewrite <- app_assoc.
Qed.

Lemma load_run (ops : XarrayOps) (cfg : config) (url : string)
      (ds0 ds1 : dataset) (ws : list string) (w : world) :
  open_zarr url = Ok ds0 ->
  fix_coordinate_doubling ds0 = Ok (ds1, ws) ->
  regrid_360 cfg = false ->
  load cfg url w
  = (mkWorld (files w)
             (log w ++ OpenZarr url :: List.map Warn ws ++
              (if time_unsorted ds1
               then [Warn ("Model " +:+ ds_source_id ds1 +:+
                           " has an unsorted time dimension.")]
               else []))
             (bound w) (fn1 w),
     Ok (if time_unsorted ds1 then sortby_time ds1 else ds1)).
Proof.
  intros Eopen Efix Hregrid.
  unfold load. unfold mbind at 1, M_bind at 1, emit. cbn [files log bound fn1].
  unfold mbind at 1, M_bind at 1, lift. rewrite Eopen.
  unfold mbind at 1, M_bind at 1. rewrite Efix.
  unfold mbind at 1, M_bind at 1. rewrite for_each_warn. cbn [files log bound fn1].
  rewrite Hregrid.
  destruct (time_unsorted ds1); unfold mbind, M_bind, emit, mret, M_ret;
    cbn [files log bound fn1]; rewrite <- !app_assoc; cbn [app]; rewrite ?app_nil_r;
    reflexivity.
Qed.

(** X10. Loading a grid with regridding off, when the store opens and
    the coordinate compensation succeeds: the load touches no file and
    binds no name, its events are the remote load, then the
    compensation warnings, then the "unsorted time dimension" warning
    exactly when the time axis was out of order; the grid handed to the
    subsets has its time axis in chronological order, holds the
    compensated time steps with their slabs, rearranged, keeps the shape
    of its coordinates, and is the compensated grid itself when that was
    already in order. *)
Theorem load_prepares (ops : XarrayOps) (cfg : config) (url : string)
        (ds0 ds1 : dataset) (ws : list string) (w : world) :
  open_zarr url = Ok ds0 ->
  well_shaped ds0 ->
  fix_coordinate_doubling ds0 = Ok (ds1, ws) ->
  regrid_360 cfg = false ->
  exists w' ds,
    load cfg url w = (w', Ok ds) /\
    files w' = files w /\ bound w' = bound w /\ fn1 w' = fn1 w /\
    log w' = log w ++ OpenZarr url :: List.map Warn ws ++
             (if time_unsorted ds1
              then [Warn ("Model " +:+ ds_source_id ds1 +:+ " has an unsorted time dimension.")]
              else []) /\
    (time_unsorted ds1 = false <-> chronological (ds_time ds1)) /\
    chronological (ds_time ds) /\
    Permutation (combine (ds_time ds) (ds_var ds)) (combine (ds_time ds1) (ds_var ds1)) /\
    ds_lat ds = ds_lat ds1 /\ ds_lon ds = ds_lon ds1 /\
    well_shaped ds /\
    (chronological (ds_time ds1) -> ds = ds1).
Proof.
  intros Eopen Hw0 Efix Hregrid.
  assert (Hw1 : well_shaped ds1).
  { destruct (fix_coordinate_doubling_inv ds0 ds1 ws Hw0 Efix) as (mlat & mlon & -> & _).
    now apply well_shaped_keep_lon, well_shaped_keep_lat. }
  set (ds := if time_unsorted ds1 then sortby_time ds1 else ds1).
  eexists _, ds. split; [exact (load_run ops cfg url ds0 ds1 ws w Eopen Efix Hregrid)|].
  cbn [files log bound fn1]. do 4 (split; [reflexivity|]).
  split; [apply time_unsorted_spec|].
  destruct (sortby_time_spec ds1 Hw1) as (S1 & S2 & S3 & S4 & S5 & S6).
  subst ds. destruct (time_unsorted ds1) eqn:Eu.
  - do 5 (split; [assumption|]). exact S6.
  - apply time_unsorted_spec in Eu.
    split; [exact Eu|]. split; [reflexivity|]. split; [reflexivity|].
    split; [reflexivity|]. split; [exact Hw1 | reflexivity].
Qed.

Lemma load_prepares_witness :
  exists w' ds,
    @load (store_of shuffled_grid) (notebook_config true) cesm2_url (fresh_kernel ∅)
    = (w', Ok ds) /\
    log w' = [OpenZarr cesm2_url; Warn "Model CanESM5 has an unsorted time dimension."] /\
    chronological (ds_time ds).
Proof.
  destruct (load_prepares (store_of shuffled_grid) (notebook_config true) cesm2_url
              shuffled_grid shuffled_grid [] (fresh_kernel ∅))
    as (w' & ds & E & _ & _ & _ & Hlog & _ & Hc & _).
  - reflexivity.
  - split; [reflexivity|]. repeat constructor.
  - vm_compute. reflexivity.
  - reflexivity.
  - exists w', ds. split; [exact E|]. split; [exact Hlog | exact Hc].
Defined.

(** ** The parameter resolver *)

(** X11. The resolver on a batch in which every specification has the
    keys of the first and at least two keys have one value across the
    batch: the query is, in the key order of the first specification,
    the AND of one equality for each key of common value, followed by
    one parenthesised OR group for each key whose value varies, the
    group listing the value of every specification in batch order
    (repeated values repeated); with no varying key the query is the
    AND of the equalities alone. *)
Theorem subset_query_and_or (first : pydict string) (rest : list (pydict string)) :
  Forall (fun d => forall k, In k (dict_keys first) -> In k (dict_keys d)) rest ->
  (2 <= length (common_keys (first :: rest)))%nat ->
  subset_query (first :: rest) = Ok (described_query (first :: rest)) /\
  (varying_keys (first :: rest) = [] ->
   subset_query (first :: rest)
   = Ok (join " and " (List.map (fun k => equality k (value_of first k))
                                (common_keys (first :: rest))))).
Proof.
  intros Hkeys Hcommon.
  pose proof (subset_query_described first rest Hkeys Hcommon) as E.
  split; [exact E|]. intros Hv. rewrite E. unfold described_query.
  now rewrite Hv, app_nil_r.
Qed.

Lemma subset_query_and_or_witness :
  subset_query notebook_batch
  = Ok "table_id == 'day' and member_id == 'r1i1p1f1' and (experiment_id == 'historical' or experiment_id == 'ssp370' or experiment_id == 'ssp585' or experiment_id == 'historical' or experiment_id == 'ssp370' or experiment_id == 'ssp585') and (variable_id == 'pr' or variable_id == 'pr' or variable_id == 'pr' or variable_id == 'tas' or variable_id == 'pr' or variable_id == 'tas')".
Proof.
  destruct (subset_query_and_or (query_params "historical" "day" "pr" "r1i1p1f1")
              (List.tl notebook_batch)) as [E _].
  - cbn [List.tl notebook_batch].
    repeat (apply List.Forall_cons; [intros k Hk; exact Hk|]). apply List.Forall_nil.
  - vm_compute. lia.
  - exact E.
Defined.

Lemma dict_get_missing {V} (d : pydict V) (k : string) :
  ~ In k (dict_keys d) -> dict_get d k = Raise KeyError.
Proof.
  induction d as [|[k' v] d IH]; intros Hk; cbn; [reflexivity|].
  destruct (String.eqb_spec k k') as [->|Hne].
  - exfalso. apply Hk. now left.
  - apply IH. intros Hin. apply Hk. now right.
Qed.

Lemma dict_get_raises {V} (d : pydict V) (k : string) (e : exn) :
  dict_get d k = Raise e -> e = KeyError.
Proof.
  induction d as [|[k' v] d IH]; cbn; [now intros [= <-]|].
  destruct (String.eqb k k'); [discriminate | exact IH].
Qed.

Lemma mapM_raise_inv {A B} (f : A -> result B) (l : list A) (e : exn) :
  mapM f l = Raise e -> exists x, In x l /\ f x = Raise e.
Proof.
  induction l as [|x l IH]; cbn; [discriminate|]. intros E.
  destruct (f x) as [y|e'] eqn:Ex.
  - cbn in E. destruct (mapM f l) as [ys|e'']; [discriminate|]. cbn in E.
    destruct IH as (x' & Hin & Hx'); [exact E|]. exists x'. split; [now right | exact Hx'].
  - cbn in E. injection E as <-. exists x. split; [now left | exact Ex].
Qed.

Lemma mapM_raises {A B} (f : A -> result B) (l : list A) (e0 : exn) (x : A) :
  (forall y e, In y l -> f y = Raise e -> e = e0) ->
  In x l -> is_ok (f x) = false -> mapM f l = Raise e0.
Proof.
  intros Honly Hin Hx. destruct (mapM f l) as [ys|e] eqn:E.
  - destruct (mapM_In f l ys x E Hin) as (y & Ey & _). rewrite Ey in Hx. discriminate.
  - apply mapM_raise_inv in E as (y & Hy & Ey). now rewrite (Honly y e Hy Ey).
Qed.

(** The first comprehension of the cell: one flag per key. *)
Lemma source_calls_raises (all : list (pydict string)) (key : string) (e : exn) :
  (vals ← mapM (fun x => dict_get x key) all; Ok (Nat.eqb (n_unique vals) 1)) = Raise e ->
  e = KeyError.
Proof.
  destruct (mapM _ all) as [vals|e'] eqn:E; cbn; [discriminate|]. intros [= <-].
  apply mapM_raise_inv in E as (d & _ & Ed). now apply dict_get_raises in Ed.
Qed.

Lemma mapM_Forall2 {A B} (f g : A -> result B) (l l' : list A) :
  Forall2 (fun x x' => f x = g x') l l' -> mapM f l = mapM g l'.
Proof. induction 1 as [|x x' l l' Hx _ IH]; cbn; [reflexivity|]. now rewrite Hx, IH. Qed.

Lemma mapM_ext_in {A B} (f g : A -> result B) (l : list A) :
  (forall x, In x l -> f x = g x) -> mapM f l = mapM g l.
Proof.
  intros H. induction l as [|x l IH]; cbn; [reflexivity|].
  rewrite H by now left. rewrite IH; [reflexivity|]. intros y Hy. apply H. now right.
Qed.

Lemma itemgetter_keys (idxs : list nat) (keys : list string) (g : got) :
  itemgetter idxs keys = Ok g ->
  match g with
  | Item k => In k keys
  | Tuple ks => Forall (fun k => In k keys) ks
  end.
Proof.
  unfold itemgetter. destruct idxs as [|i [|j idxs]]; [discriminate| |].
  - destruct (getitem keys i) as [k|] eqn:E; [|discriminate]. cbn. intros [= <-].
    now apply getitem_In in E.
  - destruct (mapM _ _) as [ks|] eqn:E; [|discriminate]. cbn. intros [= <-].
    apply List.Forall_forall. intros k Hk.
    destruct (mapM_In_inv _ _ _ _ E Hk) as (i' & _ & Ei). now apply getitem_In in Ei.
Qed.

(** X12. The resolver consults the batch only through the keys of its
    first specification: if a later specification lacks one of those
    keys the cell raises [KeyError]; and two batches with the same first
    specification whose later specifications agree on those keys give
    the same query (or the same exception), whatever other keys the
    later specifications carry. *)
Theorem subset_query_first_keys (first : pydict string) (rest : list (pydict string)) :
  (forall k d, In k (dict_keys first) -> In d rest -> ~ In k (dict_keys d) ->
               subset_query (first :: rest) = Raise KeyError)
  /\
  (forall rest',
     Forall2 (fun d d' => forall k, In k (dict_keys first) -> dict_get d k = dict_get d' k)
             rest rest' ->
     subset_query (first :: rest) = subset_query (first :: rest')).
Proof.
  split.
  - intros k d Hk Hd Hmiss. unfold subset_query.
    change (getitem (first :: rest) 0) with (Ok first). cbn [mbind result_bind].
    rewrite (mapM_raises _ (dict_keys first) KeyError k); [reflexivity | | exact Hk |].
    + intros key e _. apply source_calls_raises.
    + rewrite (mapM_raises _ (first :: rest) KeyError d); [reflexivity | | now right |].
      * intros d' e _. apply dict_get_raises.
      * now rewrite dict_get_missing.
  - intros rest' Hagree.
    assert (Hall : forall k, In k (dict_keys first) ->
              Forall2 (fun d d' => dict_get d k = dict_get d' k) (first :: rest) (first :: rest')).
    { intros k Hk. constructor; [reflexivity|].
      eapply Forall2_impl; [exact Hagree|]. cbn. intros d d' H. now apply H. }
    assert (Hgroup : forall k, In k (dict_keys first) ->
              or_group (first :: rest) k = or_group (first :: rest') k).
    { intros k Hk. unfold or_group.
      rewrite (mapM_Forall2 _ (fun data_params => v ← dict_get data_params k; Ok (equality k v))
                 (first :: rest) (first :: rest')); [reflexivity|].
      eapply Forall2_impl; [exact (Hall k Hk)|]. cbn. intros d d' ->. reflexivity. }
    unfold subset_query.
    change (getitem (first :: rest) 0) with (Ok first).
    change (getitem (first :: rest') 0) with (Ok first). cbn [mbind result_bind].
    rewrite (mapM_ext_in _ (fun key =>
               vals ← mapM (fun x => dict_get x key) (first :: rest');
               Ok (Nat.eqb (n_unique vals) 1)) (dict_keys first)).
    2:{ intros key Hkey. now rewrite (mapM_Forall2 _ (fun x => dict_get x key) _ _ (Hall key Hkey)). }
    destruct (mapM _ (dict_keys first)) as [source_calls|]; [|reflexivity].
    cbn [mbind result_bind].
    destruct (itemgetter (nonzero source_calls) (dict_keys first)) as [same|]; [|reflexivity].
    cbn [mbind result_bind].
    destruct (mapM _ (iter same)) as [terms|]; [|reflexivity]. cbn [mbind result_bind].
    destruct (nonzero (List.map negb source_calls)) as [|i [|j idxs]] eqn:En.
    + reflexivity.
    + cbn [length Nat.eqb]. unfold itemgetter.
      destruct (getitem (dict_keys first) i) as [k|] eqn:Ek; [|reflexivity].
      cbn [mbind result_bind iter_singleton mapM]. apply getitem_In in Ek.
      now rewrite (Hgroup k Ek).
    + cbn [length Nat.eqb Nat.ltb Nat.leb].
      destruct (itemgetter (i :: j :: idxs) (dict_keys first)) as [g|] eqn:Eg; [|reflexivity].
      pose proof (itemgetter_keys _ _ _ Eg) as Hg. unfold itemgetter in Eg.
      destruct (mapM _ (i :: j :: idxs)) as [ks|]; [|discriminate]. cbn in Eg.
      injection Eg as <-. cbn [mbind result_bind iter].
      rewrite (mapM_ext_in _ (or_group (first :: rest')) ks); [reflexivity|].
      intros k Hk. rewrite List.Forall_forall in Hg. now apply Hgroup, Hg.
Qed.

Lemma subset_query_first_keys_witness :
  subset_query [query_params "historical" "day" "pr" "r1i1p1f1";
                [("experiment_id", "ssp370"); ("table_id", "day"); ("variable_id", "pr")]]
  = Raise KeyError
  /\
  subset_query [query_params "historical" "day" "pr" "r1i1p1f1";
                query_params "ssp370" "day" "pr" "r1i1p1f1"]
  = subset_query [query_params "historical" "day" "pr" "r1i1p1f1";
                  ("grid_label", "gn") :: query_params "ssp370" "day" "pr" "r1i1p1f1"].
Proof.
  destruct (subset_query_first_keys
              (query_params "historical" "day" "pr" "r1i1p1f1")
              [[("experiment_id", "ssp370"); ("table_id", "day"); ("variable_id", "pr")]])
    as [Hmissing _].
  destruct (subset_query_first_keys
              (query_params "historical" "day" "pr" "r1i1p1f1")
              [query_params "ssp370" "day" "pr" "r1i1p1f1"])
    as [_ Hforeign].
  split.
  - apply (Hmissing "member_id" [("experiment_id", "ssp370"); ("table_id", "day");
                                 ("variable_id", "pr")]).
    + cbn. tauto.
    + now left.
    + cbn. intros [H|[H|[H|[]]]]; discriminate H.
  - apply Hforeign. constructor; [|constructor].
    intros k Hk. cbn in Hk.
    destruct Hk as [<-|[<-|[<-|[<-|[]]]]]; reflexivity.
Defined.

(** The resolver up to the keys of common value, on a batch in which
    every specification has the keys of the first. *)
Lemma subset_query_common (first : pydict string) (rest : list (pydict string)) :
  Forall (fun d => forall k, In k (dict_keys first) -> In k (dict_keys d)) rest ->
  exists source_calls,
    mapM (fun key => vals ← mapM (fun x => dict_get x key) (first :: rest);
                     Ok (Nat.eqb (n_unique vals) 1)) (dict_keys first)
    = Ok source_calls /\
    mapM (getitem (dict_keys first)) (nonzero source_calls)
    = Ok (common_keys (first :: rest)).
Proof.
  intros Hkeys. set (all := first :: rest). set (keys := dict_keys first).
  assert (Hall : forall d k, In d all -> In k keys -> dict_get d k = Ok (value_of d k)).
  { intros d k [<-|Hd] Hk; apply dict_get_value_of; [exact Hk|].
    rewrite List.Forall_forall in Hkeys. now apply Hkeys. }
  set (c := fun k => Nat.eqb (n_unique (List.map (fun d => value_of d k) all)) 1).
  assert (Hvals : forall k, In k keys ->
             mapM (fun x => dict_get x k) all = Ok (List.map (fun d => value_of d k) all)).
  { intros k Hk. apply mapM_ok_map. intros d Hd. now apply Hall. }
  exists (List.map c keys). split.
  - apply mapM_ok_map. intros k Hk. now rewrite (Hvals k Hk).
  - rewrite take_nonzero_filter. f_equal. unfold common_keys, all. fold all keys.
    apply filter_ext_in. intros k Hk. now rewrite (Hvals k Hk).
Qed.

(** X13. Where the resolver fails on a batch in which every
    specification has the keys of the first. With no key of common value
    [itemgetter] is called without an index and the cell raises
    [TypeError]. With exactly one key of common value [itemgetter]
    returns that key itself, the comprehension runs over its characters,
    and the cell raises [KeyError] as soon as one of these characters is
    not itself a key. *)
Theorem subset_query_few_common_keys (first : pydict string) (rest : list (pydict string)) :
  Forall (fun d => forall k, In k (dict_keys first) -> In k (dict_keys d)) rest ->
  (common_keys (first :: rest) = [] -> subset_query (first :: rest) = Raise TypeError) /\
  (forall k, common_keys (first :: rest) = [k] ->
             Exists (fun c => ~ In c (dict_keys first)) (chars k) ->
             subset_query (first :: rest) = Raise KeyError).
Proof.
  intros Hkeys.
  destruct (subset_query_common first rest Hkeys) as (source_calls & Ecalls & Esame).
  unfold subset_query. change (getitem (first :: rest) 0) with (Ok first).
  cbn [mbind result_bind]. rewrite Ecalls. cbn [mbind result_bind].
  pose proof (mapM_length _ _ _ Esame) as Hlen.
  split.
  - intros Hnone. rewrite Hnone in Hlen.
    destruct (nonzero source_calls); [reflexivity | discriminate].
  - intros k Hone Hchar. rewrite Hone in Hlen, Esame.
    destruct (nonzero source_calls) as [|i [|j idxs]]; try discriminate.
    unfold itemgetter. cbn [mapM mbind result_bind] in Esame.
    destruct (getitem (dict_keys first) i) as [k'|]; [|discriminate].
    cbn in Esame. injection Esame as ->. cbn [mbind result_bind iter].
    apply List.Exists_exists in Hchar as (c & Hc & Hmiss).
    rewrite (mapM_raises _ (chars k) KeyError c); [reflexivity | | exact Hc |].
    + intros c' e _ E. destruct (dict_get first c') eqn:Ed; [discriminate|].
      cbn in E. injection E as <-. now apply dict_get_raises in Ed.
    + now rewrite dict_get_missing.
Qed.

Lemma subset_query_few_common_keys_witness :
  subset_query [query_params "historical" "day" "pr" "r1i1p1f1";
                query_params "ssp370" "Amon" "tas" "r2i1p1f1"]
  = Raise TypeError
  /\
  subset_query [query_params "historical" "day" "pr" "r1i1p1f1";
                query_params "ssp370" "Amon" "tas" "r1i1p1f1"]
  = Raise KeyError.
Proof.
  split.
  - apply (subset_query_few_common_keys (query_params "historical" "day" "pr" "r1i1p1f1")
             [query_params "ssp370" "Amon" "tas" "r2i1p1f1"]).
    + constructor; [|constructor]. intros k Hk. exact Hk.
    + reflexivity.
  - apply (subset_query_few_common_keys (query_params "historical" "day" "pr" "r1i1p1f1")
             [query_params "ssp370" "Amon" "tas" "r1i1p1f1"]) with (k := "member_id").
    + constructor; [|constructor]. intros k Hk. exact Hk.
    + reflexivity.
    + apply Exists_cons_hd. cbn. intros [H|[H|[H|[H|[]]]]]; discriminate H.
Defined.

(** ** Output file names of the CMIP6 notebook *)

Lemma re_sub_dash_hit (s : string) : re_sub "-" "" (String "-" s) = re_sub "-" "" s.
Proof. destruct s; reflexivity. Qed.

Lemma re_sub_dash_date (Y Mo D : string) :
  all_digits Y = true -> all_digits Mo = true -> all_digits D = true ->
  re_sub "-" "" (iso_date Y Mo D) = Y +:+ Mo +:+ D.
Proof.
  intros HY HM HD. unfold iso_date.
  change (Y +:+ "-" +:+ Mo +:+ "-" +:+ D) with (Y +:+ String "-" (Mo +:+ String "-" D)).
  rewrite re_sub_app by reflexivity.
  rewrite re_sub_absent by now apply digits_no_dash.
  rewrite re_sub_dash_hit, re_sub_app by reflexivity.
  rewrite re_sub_absent by now apply digits_no_dash.
  rewrite re_sub_dash_hit, re_sub_absent by now apply digits_no_dash.
  reflexivity.
Qed.

Lemma split_on_nonempty (sep : ascii) (s : string) : split_on sep s <> [].
Proof.
  destruct s as [|c s]; cbn; [discriminate|].
  destruct (split_on sep s); [discriminate|]. destruct (Ascii.eqb c sep); discriminate.
Qed.

Lemma split_on_absent (sep : ascii) (p : string) :
  occurs sep p = false -> split_on sep p = [p].
Proof.
  induction p as [|c p IH]; [reflexivity|]. cbn. intros H.
  apply orb_false_iff in H as [Hc Hp]. rewrite (IH Hp), Hc. reflexivity.
Qed.

Lemma split_on_app (sep : ascii) (p rest : string) :
  occurs sep p = false ->
  split_on sep (p +:+ String sep rest) = p :: split_on sep rest.
Proof.
  induction p as [|c p IH]; intros H.
  - change ("" +:+ String sep rest) with (String sep rest). cbn.
    destruct (split_on sep rest) eqn:E; [now apply split_on_nonempty in E|].
    now rewrite Ascii.eqb_refl.
  - cbn in H. apply orb_false_iff in H as [Hc Hp].
    rewrite append_cons. cbn [split_on]. rewrite (IH Hp), Hc. reflexivity.
Qed.

(** [sep.join(parts).split(sep)] gives the parts back. *)
Lemma split_on_join (sep : ascii) (parts : list string) :
  parts <> [] -> Forall (fun p => occurs sep p = false) parts ->
  split_on sep (join (String sep "") parts) = parts.
Proof.
  induction parts as [|p parts IH]; [contradiction|]. intros _ Hall.
  inversion Hall as [|? ? Hp Hrest]; subst.
  destruct parts as [|q parts]; [now apply split_on_absent|].
  rewrite join_cons2. change (p +:+ String sep "" +:+ join (String sep "") (q :: parts))
    with (p +:+ String sep (join (String sep "") (q :: parts))).
  rewrite split_on_app by exact Hp. f_equal. apply IH; [discriminate | exact Hrest].
Qed.

(** X14. The name under which a subset is saved, for a store url whose
    sixth component (counting from one) is the model, time bounds
    written ["YYYY-MM-DD"] and no pressure-level subset: the directory
    named after the model under [raw_data_dir], then variable, table,
    model, experiment and member joined by underscores, then the two
    dates with their dashes removed, joined by a dash, then the suffix
    of the subset and [".nc"]. *)
Theorem output_fn_name (cfg : config) (dp : data_params) (sp : subset_params)
        (parts : list string) (model Y0 M0 D0 Y1 M1 D1 : string) :
  Forall (fun p => occurs "/" p = false) parts ->
  getitem parts 5 = Ok model ->
  dict_get (sp_time sp) (experiment_id dp) = Ok (iso_date Y0 M0 D0, iso_date Y1 M1 D1) ->
  Forall (fun s => all_digits s = true) [Y0; M0; D0; Y1; M1; D1] ->
  other dp = None ->
  output_fn cfg dp sp (join "/" parts)
  = Ok (raw_data_dir cfg +:+ model +:+ "/" +:+
        variable_id dp +:+ "_" +:+ table_id dp +:+ "_" +:+ model +:+ "_" +:+
        experiment_id dp +:+ "_" +:+ member_id dp +:+ "_" +:+
        (Y0 +:+ M0 +:+ D0) +:+ "-" +:+ (Y1 +:+ M1 +:+ D1) +:+
        fn_suffix sp +:+ ".nc").
Proof.
  intros Hparts Hmodel Htime Hdigits Hother.
  assert (Hne : parts <> []) by (intros ->; discriminate).
  repeat match goal with
         | H : Forall _ (_ :: _) |- _ => inversion H; clear H; subst
         end.
  unfold output_fn. rewrite (split_on_join "/" parts Hne Hparts), Hmodel.
  cbn [mbind result_bind]. rewrite Htime. cbn [mbind result_bind]. rewrite Hother.
  rewrite !re_sub_dash_date by assumption.
  unfold join. cbn [String.concat]. rewrite !append_assoc. reflexivity.
Qed.

Lemma output_fn_name_witness :
  output_fn (notebook_config true) pr_historical africa cesm2_url = Ok africa_nc.
Proof.
  apply (output_fn_name (notebook_config true) pr_historical africa
           ["gs:"; ""; "cmip6"; "CMIP"; "NCAR"; "CESM2"; "historical"; "r1i1p1f1"; "day";
            "pr"; "gn"; ""]
           "CESM2" "1979" "01" "01" "2014" "12" "31").
  - repeat constructor.
  - reflexivity.
  - reflexivity.
  - repeat constructor.
  - reflexivity.
Defined.

(** ** The main cell: what happens before and around the load *)

Lemma dict_get_raise_missing {V} (d : pydict V) (k : string) (e : exn) :
  dict_get d k = Raise e -> ~ In k (dict_keys d).
Proof.
  induction d as [|[k' v] d IH]; cbn; [tauto|].
  destruct (String.eqb_spec k k') as [->|Hne]; [discriminate|].
  intros E [H|H]; [congruence | now apply IH].
Qed.

Lemma output_fn_raises (cfg : config) (dp : data_params) (sp : subset_params)
      (url : string) (e : exn) :
  output_fn cfg dp sp url = Raise e ->
  e = IndexError /\ (length (split_on "/" url) <= 5)%nat \/
  e = KeyError /\ ~ In (experiment_id dp) (dict_keys (sp_time sp)).
Proof.
  unfold output_fn, getitem. intros E.
  destruct (nth_error (split_on "/" url) 5) as [model|] eqn:Em; cbn in E.
  - right. destruct (dict_get (sp_time sp) (experiment_id dp)) as [[t0 t1]|e'] eqn:Et; cbn in E.
    + destruct (other dp) as [[[ps|]]|]; discriminate.
    + injection E as <-. split; [now apply dict_get_raises in Et|].
      now apply dict_get_raise_missing in Et.
  - left. injection E as <-. split; [reflexivity|]. now apply nth_error_None.
Qed.

Lemma set_output_filenames_raise (cfg : config) (dp : data_params)
      (all : list subset_params) (url : string) (e : exn) (todo : list subset_params) :
  forall (fns : list (option string)) (exs : list (option bool)) (w : world),
    mapM (fun sp => output_fn cfg dp sp url) todo = Raise e ->
    exists w',
      set_output_filenames cfg dp all todo url fns exs w = (w', Raise e) /\
      files w' = files w /\ log w' = log w /\ fn1 w' = fn1 w.
Proof.
  induction todo as [|sp todo IH]; intros fns exs w E; [discriminate|].
  cbn [mapM] in E. cbn [set_output_filenames].
  unfold mbind at 1, M_bind at 1, assign.
  unfold mbind at 1, M_bind at 1, lift.
  destruct (output_fn cfg dp sp url) as [fn|e'] eqn:Efn.
  - cbn [mbind result_bind] in E.
    destruct (mapM _ todo) as [ys|e''] eqn:Erest; [discriminate|]. cbn in E.
    injection E as ->.
    unfold mbind at 1, M_bind at 1, os_path_exists. cbn [files log bound fn1].
    match goal with
    | |- context [set_output_filenames cfg dp all todo url ?f ?x ?w0] =>
        destruct (IH f x w0 eq_refl) as (w' & -> & H1 & H2 & H3)
    end.
    exists w'. auto.
  - cbn in E. injection E as ->. eexists. split; [reflexivity|]. auto.
Qed.

(** X15. A subset specification that cannot be named stops the url
    before anything happens: if the name of any specification of the
    list cannot be built, [process_url] raises that exception with no
    file removed or written, nothing loaded and no message issued. The
    exception is [IndexError] when the url has fewer than six
    components, and otherwise [KeyError], from a specification without
    a time range for the experiment. *)
Theorem bad_specification_aborts_early (ops : XarrayOps) (cfg : config) (dp : data_params)
        (specs : list subset_params) (url : string) (e : exn) (w : world) :
  mapM (fun sp => output_fn cfg dp sp url) specs = Raise e ->
  (exists w',
     process_url cfg dp specs url w = (w', Raise e) /\
     files w' = files w /\ log w' = log w /\ fn1 w' = fn1 w) /\
  (e = IndexError /\ (length (split_on "/" url) <= 5)%nat \/
   e = KeyError /\
   exists sp, In sp specs /\ ~ In (experiment_id dp) (dict_keys (sp_time sp))).
Proof.
  intros E. split.
  - destruct (set_output_filenames_raise cfg dp specs url e specs
                (replicate (length specs) None) (replicate (length specs) None) w E)
      as (w' & Eset & H1 & H2 & H3).
    exists w'. split; [|auto].
    unfold process_url. unfold mbind at 1, M_bind at 1. now rewrite Eset.
  - apply mapM_raise_inv in E as (sp & Hin & Esp).
    destruct (output_fn_raises _ _ _ _ _ Esp) as [[-> H]|[-> H]]; [now left|right].
    split; [reflexivity|]. now exists sp.
Qed.

Lemma bad_specification_aborts_early_witness :
  exists w',
    @process_url (store_of demo_grid) (notebook_config true) pr_historical
                 [africa; future_only] cesm2_url (fresh_kernel {[africa_nc]})
    = (w', Raise KeyError) /\
    files w' = {[africa_nc]} /\ log w' = [].
Proof.
  destruct (bad_specification_aborts_early (store_of demo_grid) (notebook_config true)
              pr_historical [africa; future_only] cesm2_url KeyError
              (fresh_kernel {[africa_nc]})) as [(w' & E & H1 & H2 & _) _].
  - reflexivity.
  - exists w'. auto.
Defined.

Lemma load_frame (ops : XarrayOps) (cfg : config) (url : string) (w w1 : world)
      (r : result dataset) :
  load cfg url w = (w1, r) ->
  files w1 = files w /\ bound w1 = bound w /\ fn1 w1 = fn1 w /\
  exists evs, log w1 = log w ++ OpenZarr url :: evs /\ saved evs = [] /\
              Forall (fun ev => exists msg, ev = Warn msg) evs.
Proof.
  assert (Hfin : forall (evs : list event) (w1 : world),
             files w1 = files w -> bound w1 = bound w -> fn1 w1 = fn1 w ->
             log w1 = (log w ++ [OpenZarr url]) ++ evs ->
             saved evs = [] -> Forall (fun ev => exists msg, ev = Warn msg) evs ->
             files w1 = files w /\ bound w1 = bound w /\ fn1 w1 = fn1 w /\
             exists evs, log w1 = log w ++ OpenZarr url :: evs /\ saved evs = [] /\
                         Forall (fun ev => exists msg, ev = Warn msg) evs).
  { intros evs w2 H1 H2 H3 H4 H5 H6. do 3 (split; [assumption|]).
    exists evs. rewrite H4, <- app_assoc. auto. }
  unfold load. unfold mbind at 1, M_bind at 1, emit. cbn [files log bound fn1].
  unfold mbind at 1, M_bind at 1, lift.
  destruct (open_zarr url) as [ds0|e].
  2:{ intros [= <- <-]. apply (Hfin []); cbn; auto using app_nil_r. }
  unfold mbind at 1, M_bind at 1.
  destruct (fix_coordinate_doubling ds0) as [[ds1 ws]|e].
  2:{ intros [= <- <-]. apply (Hfin []); cbn; auto using app_nil_r. }
  unfold mbind at 1, M_bind at 1. rewrite for_each_warn. cbn [files log bound fn1].
  assert (Hws : saved (List.map Warn ws) = [] /\
                Forall (fun ev => exists msg, ev = Warn msg) (List.map Warn ws)).
  { split; [induction ws; cbn; auto|]. rewrite List.Forall_map.
    apply List.Forall_forall. intros msg _. now exists msg. }
  destruct Hws as [Hs Hf].
  destruct (time_unsorted ds1).
  - unfold mbind at 1, M_bind at 1. unfold mbind at 1, M_bind at 1, emit.
    cbn [files log bound fn1]. unfold mret, M_ret.
    destruct (regrid_360 cfg); [unfold lift|]; intros [= <- <-];
      (apply (Hfin (List.map Warn ws ++
                     [Warn ("Model " +:+ ds_source_id ds1 +:+
                            " has an unsorted time dimension.")]));
       cbn [files log bound fn1];
       [reflexivity | reflexivity | reflexivity | now rewrite <- !app_assoc | |]).
    all: try (unfold saved; rewrite flat_map_app; fold (saved (List.map Warn ws));
              now rewrite Hs).
    all: apply Forall_app; split; [exact Hf | repeat constructor; eauto].
  - unfold mbind at 1, M_bind at 1, mret, M_ret.
    destruct (regrid_360 cfg); [unfold lift|]; intros [= <- <-];
      apply (Hfin (List.map Warn ws)); cbn [files log bound fn1]; auto.
Qed.

(** X16. The main cell with an empty list of subset specifications.
    With overwrite off every url is skipped with the "All files already
    created" warning, nothing being loaded: [all] of an empty list is
    true. With overwrite on the grid is loaded, no subset is processed,
    and the closing [del ds, ds_tmp, subset_params] raises [NameError]
    unless [ds_tmp] is still bound from an earlier run. *)
Theorem process_url_no_specification (ops : XarrayOps) (cfg : config) (dp : data_params)
        (url : string) (w : world) :
  (overwrite cfg = false ->
   forall model, getitem (split_on "/" url) 5 = Ok model ->
     process_url cfg dp [] url w
     = (mkWorld (files w)
                (log w ++ [Warn ("All files already created for " +:+ label dp model +:+
                                 ", skipped.")])
                (bound w) (fn1 w), Ok tt))
  /\
  (overwrite cfg = true -> "ds_tmp" ∉ bound w ->
   forall w1 ds, load cfg url w = (w1, Ok ds) ->
     process_url cfg dp [] url w = (w1, Raise NameError) /\
     files w1 = files w /\ saved (skipn (length (log w)) (log w1)) = []).
Proof.
  split.
  - intros Hov model Hmodel. unfold process_url. cbn [length replicate set_output_filenames].
    unfold mbind at 1, M_bind at 1, mret, M_ret. rewrite Hov. cbn [negb andb forallb].
    unfold mbind, M_bind, lift. rewrite Hmodel. reflexivity.
  - intros Hov Hunbound w1 ds Eload.
    destruct (load_frame _ _ _ _ _ _ Eload) as (Hf & Hb & _ & evs & Hlog & Hsaved & _).
    split; [|split; [exact Hf|]].
    + unfold process_url. cbn [length replicate set_output_filenames].
      unfold mbind at 1, M_bind at 1, mret, M_ret. rewrite Hov. cbn [negb andb existsb].
      unfold mbind at 1, M_bind at 1. unfold regenerate.
      unfold mbind at 1, M_bind at 1. rewrite Eload. cbn [for_each].
      unfold mbind at 1, M_bind at 1, mret, M_ret.
      unfold mbind at 1, M_bind at 1, del.
      rewrite bool_decide_eq_false_2; [reflexivity|]. now rewrite Hb.
    + rewrite Hlog, skipn_app, Nat.sub_diag, skipn_all. exact Hsaved.
Qed.

Lemma process_url_no_specification_witness :
  @process_url (store_of demo_grid) (notebook_config false) pr_historical [] cesm2_url
               (fresh_kernel ∅)
  = (mkWorld ∅ [Warn "All files already created for pr day CESM2 historical r1i1p1f1, skipped."]
             ∅ None, Ok tt)
  /\
  (@process_url (store_of demo_grid) (notebook_config true) pr_historical [] cesm2_url
                (fresh_kernel ∅)).2
  = Raise NameError.
Proof.
  split.
  - exact (proj1 (process_url_no_specification (store_of demo_grid) (notebook_config false)
                    pr_historical cesm2_url (fresh_kernel ∅)) eq_refl "CESM2" eq_refl).
  - destruct (process_url_no_specification (store_of demo_grid) (notebook_config true)
                pr_historical cesm2_url (fresh_kernel ∅)) as [_ H].
    destruct (@load (store_of demo_grid) (notebook_config true) cesm2_url (fresh_kernel ∅))
      as [w1 r] eqn:El.
    assert (Hr : r = Ok demo_grid) by (vm_compute in El; now injection El as _ <-).
    subst r. destruct (H eq_refl (not_elem_of_empty _) w1 demo_grid eq_refl) as [-> _].
    reflexivity.
Defined.
















(** * The ERA5 notebook *)

(** ** Breaking the years into chunks *)

Lemma chunks_of_spec (size : nat) :
  (0 < size)%nat ->
  forall (fuel : nat) (years : list Z),
    (length years <= fuel)%nat ->
    concat (Era5.chunks_of fuel size years) = years /\
    Forall (fun c => c <> [] /\ (length c <= size)%nat) (Era5.chunks_of fuel size years) /\
    (length years <= length (Era5.chunks_of fuel size years) * size)%nat /\
    (length (Era5.chunks_of fuel size years) * size < length years + size)%nat /\
    (forall front last,
       Era5.chunks_of fuel size years = front ++ [last] ->
       Forall (fun c => length c = size) front).
Proof.
  intros Hsize. induction fuel as [|fuel IH]; intros years Hfuel.
  - destruct years; [|cbn in Hfuel; lia]. cbn.
    repeat split; try constructor; try lia.
    intros front last H. destruct front; discriminate.
  - destruct years as [|y years]; cbn [Era5.chunks_of].
    { cbn. repeat split; try constructor; try lia.
      intros front last H. destruct front; discriminate. }
    set (l := y :: years) in *.
    assert (Hl : (1 <= length l)%nat) by (cbn; lia).
    destruct (IH (skipn size l)) as (Hcat & Hall & Hlo & Hhi & Hfront).
    { rewrite length_skipn. lia. }
    split; [cbn [concat]; rewrite Hcat; apply firstn_skipn|].
    split.
    { constructor; [|exact Hall]. split.
      - intros E. apply (f_equal (@length Z)) in E. rewrite length_firstn in E.
        cbn [length] in E. lia.
      - rewrite length_firstn. lia. }
    rewrite length_skipn in Hlo, Hhi. cbn [length].
    split; [lia|]. split.
    { destruct (Nat.le_gt_cases (length l) size) as [Hle|Hgt]; [|lia].
      replace (length l - size)%nat with 0%nat in * by lia.
      assert (Hz : length (Era5.chunks_of fuel size (skipn size l)) = 0%nat) by nia.
      rewrite Hz. lia. }
    intros front last E.
    destruct front as [|c front]; [constructor|].
    cbn [app] in E. injection E as <- E.
    constructor; [|now apply (Hfront front last)].
    rewrite length_firstn.
    destruct (Nat.le_gt_cases size (length l)) as [Hle|Hgt]; [lia|].
    exfalso. rewrite skipn_all2 in E by lia.
    destruct fuel; cbn in E; destruct front; discriminate.
Qed.

(** X19. The chunks cell
    [[all_years[i:i + chunk_size] for i in range(0, len(all_years), chunk_size)]].
    For a positive chunk size the chunks, put end to end, are the years:
    none is lost, repeated or moved; no chunk is empty, every chunk but
    the last has exactly [chunk_size] years and the last at most that
    many, so there are [ceil(len(all_years) / chunk_size)] chunks. A
    chunk size of zero raises [ValueError]; a negative one gives no
    chunk at all. *)
Theorem chunks_partition (s : Era5.settings) :
  ((0 < Era5.chunk_size s)%Z ->
   exists cs,
     Era5.chunks s = Ok cs /\
     concat cs = Era5.all_years s /\
     Forall (fun c => c <> [] /\ (Z.of_nat (length c) <= Era5.chunk_size s)%Z) cs /\
     (forall front last, cs = front ++ [last] ->
        Forall (fun c => Z.of_nat (length c) = Era5.chunk_size s) front) /\
     (Z.of_nat (length (Era5.all_years s)) <= Z.of_nat (length cs) * Era5.chunk_size s
      < Z.of_nat (length (Era5.all_years s)) + Era5.chunk_size s)%Z)
  /\
  (Era5.chunk_size s = 0%Z -> Era5.chunks s = Raise ValueError)
  /\
  ((Era5.chunk_size s < 0)%Z -> Era5.chunks s = Ok []).
Proof.
  split; [|split].
  - intros Hpos. unfold Era5.chunks.
    destruct (Z.eqb_spec (Era5.chunk_size s) 0) as [E|_]; [lia|].
    destruct (Z.ltb_spec (Era5.chunk_size s) 0) as [E|_]; [lia|].
    eexists. split; [reflexivity|].
    assert (Hsize : (0 < Z.to_nat (Era5.chunk_size s))%nat) by lia.
    destruct (chunks_of_spec (Z.to_nat (Era5.chunk_size s)) Hsize
                (length (Era5.all_years s)) (Era5.all_years s) (le_n _))
      as (Hcat & Hall & Hlo & Hhi & Hfront).
    split; [exact Hcat|]. split; [|split].
    + eapply List.Forall_impl; [|exact Hall]. cbn. intros c [H1 H2]. split; [exact H1 | lia].
    + intros front last E. eapply List.Forall_impl; [|exact (Hfront front last E)].
      cbn. intros c Hc. lia.
    + nia.
  - intros E. unfold Era5.chunks. now rewrite E.
  - intros Hneg. unfold Era5.chunks.
    destruct (Z.eqb_spec (Era5.chunk_size s) 0) as [E|_]; [lia|].
    destruct (Z.ltb_spec (Era5.chunk_size s) 0) as [_|E]; [reflexivity | lia].
Qed.

Lemma chunks_partition_witness :
  exists cs,
    Era5.chunks (era5_settings (years_from 1979 7)) = Ok cs /\
    concat cs = [1979; 1980; 1981; 1982; 1983; 1984; 1985]%Z /\
    Forall (fun c => c <> [] /\ (Z.of_nat (length c) <= 5)%Z) cs.
Proof.
  destruct (chunks_partition (era5_settings (years_from 1979 7))) as [H _].
  destruct H as (cs & E & Hcat & Hall & _); [reflexivity|].
  exists cs. split; [exact E|]. split; [exact Hcat | exact Hall].
Defined.
(** ** File names of the ERA5 notebook *)

Lemma pretty_N_char_digit (x : N) : is_digit (pretty_N_char x) = true.
Proof.
  destruct x as [|p]; [reflexivity|].
  do 4 (destruct p as [p|p|]; try reflexivity).
Qed.

Lemma all_digits_pretty_N_go (x : N) :
  forall s, all_digits s = true -> all_digits (pretty_N_go x s) = true.
Proof.
  induction (N.lt_wf_0 x) as [x _ IH]. intros s Hs.
  destruct (N.eq_dec x 0%N) as [->|Hx]; [exact Hs|].
  rewrite pretty_N_go_step by lia.
  apply IH; [apply N.div_lt; lia|]. cbn [all_digits].
  now rewrite pretty_N_char_digit, Hs.
Qed.

Lemma all_digits_pretty_N (x : N) : all_digits (pretty x) = true.
Proof.
  unfold pretty, pretty_N. destruct (decide (x = 0%N)); [reflexivity|].
  now apply all_digits_pretty_N_go.
Qed.

(** [str(n)] is a run of digits, after a minus sign when [n] is
    negative. *)
Lemma all_digits_str (n : Z) : (0 <= n)%Z -> all_digits (str n) = true.
Proof.
  intros Hn. unfold str, pretty, pretty_Z. destruct n as [|p|p]; [reflexivity| |lia].
  apply all_digits_pretty_N.
Qed.

Lemma all_digits_occurs (c : ascii) (s : string) :
  is_digit c = false -> all_digits s = true -> occurs c s = false.
Proof.
  intros Hc. induction s as [|a s IH]; [reflexivity|]. cbn [all_digits occurs].
  intros H. apply andb_true_iff in H as [Ha Hs]. rewrite (IH Hs), orb_false_r.
  destruct (Ascii.eqb_spec a c) as [->|]; [congruence | reflexivity].
Qed.

Lemma occurs_str (c : ascii) (n : Z) :
  is_digit c = false -> c <> "-"%char -> occurs c (str n) = false.
Proof.
  intros Hc Hdash. unfold str, pretty, pretty_Z. destruct n as [|p|p].
  - now apply all_digits_occurs.
  - apply all_digits_occurs; [exact Hc | apply all_digits_pretty_N].
  - change ("-" +:+ pretty p) with (String "-" (pretty p)). cbn [occurs].
    rewrite all_digits_occurs by (exact Hc || apply all_digits_pretty_N).
    destruct (Ascii.eqb_spec "-"%char c) as [E|]; [congruence | reflexivity].
Qed.

(** *** [re.sub('hr', rep, s)] *)

Lemma prefix_hr (c : ascii) (s : string) :
  String.prefix "hr" (String c s)
  = Ascii.eqb c "h" && match s with
                       | String c' _ => Ascii.eqb c' "r"
                       | EmptyString => false
                       end.
Proof.
  destruct s as [|c' s]; cbn [String.prefix].
  - destruct (ascii_dec "h" c); now rewrite andb_false_r.
  - destruct (ascii_dec "h" c) as [<-|Hne].
    + rewrite Ascii.eqb_refl. cbn [andb].
      destruct (ascii_dec "r" c') as [<-|Hne'].
      * rewrite Ascii.eqb_refl. now destruct s.
      * destruct (Ascii.eqb_spec c' "r"); [congruence | reflexivity].
    + destruct (Ascii.eqb_spec c "h"); [congruence | reflexivity].
Qed.

Lemma re_sub_hr_unfold (rep : string) (c : ascii) (s : string) :
  re_sub "hr" rep (String c s)
  = if String.prefix "hr" (String c s)
    then rep +:+ re_sub_scan "hr" rep 1 s
    else String c (re_sub "hr" rep s).
Proof. reflexivity. Qed.

(** A segment that holds no ["hr"] and does not end in ["h"] passes
    through unchanged, whatever follows it. *)
Lemma re_sub_hr_segment (rep d : string) :
  contains "hr" (d +:+ "r") = false ->
  forall rest, re_sub "hr" rep (d +:+ rest) = d +:+ re_sub "hr" rep rest.
Proof.
  induction d as [|c d IH]; intros H rest; [reflexivity|].
  rewrite !append_cons in *. cbn [contains] in H.
  apply orb_false_iff in H as [Hp Hd].
  rewrite re_sub_hr_unfold, IH by exact Hd.
  rewrite prefix_hr in Hp |- *.
  destruct (Ascii.eqb c "h"); [|reflexivity]. cbn [andb] in *.
  destruct d as [|c' d]; [discriminate|].
  rewrite append_cons in *. now rewrite Hp.
Qed.

Lemma re_sub_hr_hit (rep rest : string) :
  re_sub "hr" rep ("hr" +:+ rest) = rep +:+ re_sub "hr" rep rest.
Proof. destruct rest; reflexivity. Qed.

Lemma contains_hr_no_h (d : string) :
  occurs "h" d = false -> contains "hr" (d +:+ "r") = false.
Proof.
  induction d as [|c d IH]; [reflexivity|]. cbn [occurs]. intros H.
  apply orb_false_iff in H as [Hc Hd].
  rewrite append_cons. cbn [contains]. rewrite prefix_hr, Hc, (IH Hd). reflexivity.
Qed.

Lemma re_sub_hr_id (rep d : string) :
  contains "hr" d = false -> re_sub "hr" rep d = d.
Proof.
  induction d as [|c d IH]; intros H; [reflexivity|].
  cbn [contains] in H. apply orb_false_iff in H as [Hp Hd].
  now rewrite re_sub_hr_unfold, Hp, IH.
Qed.

(** A user string without ["hr"], followed by a character other than
    ["r"]. *)
Lemma re_sub_hr_user (rep d : string) (c : ascii) (rest : string) :
  contains "hr" d = false -> c <> "r"%char ->
  re_sub "hr" rep (d +:+ String c rest) = d +:+ re_sub "hr" rep (String c rest).
Proof.
  intros Hd Hc. rewrite re_sub_app.
  - now rewrite re_sub_hr_id.
  - cbn [occurs]. destruct (Ascii.eqb_spec "r"%char c); [congruence | reflexivity].
Qed.

Lemma re_sub_hr_str (rep : string) (n : Z) (rest : string) :
  re_sub "hr" rep (str n +:+ rest) = str n +:+ re_sub "hr" rep rest.
Proof.
  apply re_sub_hr_segment, contains_hr_no_h, occurs_str; [reflexivity | discriminate].
Qed.

Lemma re_sub_hr_filename (s : Era5.settings) (v : Era5.download_var) (rep : string)
      (first last : Z) :
  contains "hr" (Era5.raw_data_dir s) = false ->
  contains "hr" (Era5.short_name v) = false ->
  contains "hr" (Era5.fn_suffix (Era5.geographic s)) = false ->
  re_sub "hr" rep (Era5.filename s v "hr" first last) = Era5.filename s v rep first last.
Proof.
  intros Hdir Hshort Hsuffix. unfold Era5.filename.
  change ("ERA5/" +:+ ?x) with (String "E" ("RA5/" +:+ x)).
  rewrite re_sub_hr_user by (exact Hdir || discriminate). f_equal.
  change (String "E" ("RA5/" +:+ ?x)) with ("ERA5/" +:+ x).
  rewrite re_sub_hr_segment by reflexivity. f_equal.
  change ("_" +:+ ?x) with (String "_" x).
  rewrite re_sub_hr_user by (exact Hshort || discriminate). f_equal.
  change (String "_" ?x) with ("_" +:+ x).
  rewrite re_sub_hr_segment by reflexivity. f_equal.
  rewrite re_sub_hr_hit. f_equal.
  rewrite re_sub_hr_segment by reflexivity. f_equal.
  rewrite re_sub_hr_str. f_equal.
  rewrite re_sub_hr_segment by reflexivity. f_equal.
  rewrite re_sub_hr_str. f_equal.
  rewrite re_sub_hr_segment by reflexivity. f_equal.
  change (".nc") with (String "." "nc").
  rewrite re_sub_hr_user by (exact Hsuffix || discriminate). reflexivity.
Qed.
(** X20. The names derived from the name of the hourly download by
    [re.sub('hr', ...)]: when neither [raw_data_dir], the short name of
    the variable nor the file suffix holds the letters ["hr"], the
    substitution changes the frequency tag and nothing else, so the path
    tested before a chunk is fetched is the chunk's name with ["day"]
    and the path written after resampling is its name with
    [output_freq_name]. (The years are digits and the fixed parts of the
    name hold no ["hr"]; the substitution is applied to the whole path,
    so the condition on the three settings is needed.) *)
Theorem filename_re_sub (s : Era5.settings) (v : Era5.download_var) (rep : string)
        (first last : Z) :
  contains "hr" (Era5.raw_data_dir s) = false ->
  contains "hr" (Era5.short_name v) = false ->
  contains "hr" (Era5.fn_suffix (Era5.geographic s)) = false ->
  re_sub "hr" rep (Era5.filename s v "hr" first last) = Era5.filename s v rep first last.
Proof. apply re_sub_hr_filename. Qed.

Lemma filename_re_sub_witness :
  re_sub "hr" "day" hr_1979_1983 = day_1979_1983.
Proof.
  apply (filename_re_sub (era5_settings (years_from 1979 7)) vwt "day" 1979 1983);
    reflexivity.
Defined.

(** ** One chunk *)

Lemma filename_freq_hr_day (s : Era5.settings) (v : Era5.download_var) (first last : Z) :
  Era5.filename s v "hr" first last <> Era5.filename s v "day" first last.
Proof.
  unfold Era5.filename. intros E.
  do 4 apply String.app_inj in E. discriminate E.
Qed.

Lemma chunk_bounds (chunk : list Z) :
  chunk <> [] ->
  getitem chunk 0 = Ok (chunk_first chunk) /\ Era5.last_item chunk = Ok (chunk_last chunk).
Proof.
  intros Hne. split.
  - destruct chunk; [contradiction | reflexivity].
  - unfold Era5.last_item, chunk_last.
    destruct (exists_last Hne) as (front & x & ->).
    rewrite List.rev_app_distr, List.last_last. reflexivity.
Qed.

(** The chunk is fetched: the run of [download_chunk] when the path
    tested is not on disk and the request is served. *)
Lemma download_chunk_fetches (client : Era5.CdsClient) (s : Era5.settings)
      (v : Era5.download_var) (chunk : list Z) (w : world) :
  no_hr s v -> chunk <> [] ->
  Era5.retrieve chunk = Ok tt ->
  chunk_name s v "day" chunk ∉ files w ->
  Era5.download_chunk s v chunk w
  = (mkWorld (if Era5.resamp (Era5.resampling s)
              then (files w ∪ {[chunk_name s v "hr" chunk]} ∪ {[processed_name s v chunk]})
                   ∖ {[chunk_name s v "hr" chunk]}
              else (files w ∪ {[chunk_name s v "hr" chunk]}) ∖ {[chunk_name s v "hr" chunk]}
                   ∪ {[processed_name s v chunk]})
             (log w ++ fetch_events s v chunk)
             (bound w) (Some (processed_name s v chunk)), Ok tt).
Proof.
  intros (Hdir & Hshort & Hsuffix) Hne Hserved Hnew.
  destruct (chunk_bounds chunk Hne) as [Hfirst Hlast].
  unfold fetch_events, processed_name, chunk_name in *.
  set (first := chunk_first chunk) in *. set (last := chunk_last chunk) in *.
  set (fn0 := Era5.filename s v "hr" first last).
  unfold Era5.download_chunk.
  rewrite (bind_ok _ _ w w first) by now apply lift_ok.
  rewrite (bind_ok _ _ w w last) by now apply lift_ok.
  cbv zeta. rewrite !re_sub_hr_filename by assumption. fold fn0.
  rewrite (bind_ok _ _ w w false).
  2:{ unfold os_path_exists. rewrite bool_decide_eq_false_2 by exact Hnew. reflexivity. }
  cbn [negb].
  rewrite (bind_ok _ _ w w tt) by now apply lift_ok.
  set (w1 := mkWorld (files w ∪ {[fn0]}) (log w ++ [Retrieve chunk fn0]) (bound w) (fn1 w)).
  rewrite (bind_ok _ _ w w1 tt) by reflexivity.
  set (w2 := mkWorld (files w1) (log w1 ++ [OpenDataset fn0]) (bound w1) (fn1 w1)).
  rewrite (bind_ok _ _ w1 w2 tt).
  2:{ unfold Era5.open_dataset. rewrite (bind_ok _ _ w1 w1 true); [reflexivity|].
      unfold os_path_exists. rewrite bool_decide_eq_true_2; [reflexivity|].
      cbn. apply elem_of_union_r, elem_of_singleton. reflexivity. }
  destruct (Era5.resamp (Era5.resampling s)).
  - unfold mbind, M_bind, Era5.assign_fn1, to_netcdf, os_remove, Era5.read_fn1, emit.
    cbn [files log bound fn1].
    rewrite bool_decide_eq_true_2.
    2:{ cbn. apply elem_of_union_l, elem_of_union_r, elem_of_singleton. reflexivity. }
    cbn [files log bound fn1]. subst w2 w1. cbn [files log bound fn1].
    rewrite <- !app_assoc. reflexivity.
  - unfold mbind, M_bind, Era5.assign_fn1, to_netcdf, os_remove, Era5.read_fn1, emit.
    cbn [files log bound fn1].
    rewrite bool_decide_eq_true_2.
    2:{ cbn. apply elem_of_union_r, elem_of_singleton. reflexivity. }
    cbn [files log bound fn1]. subst w2 w1. cbn [files log bound fn1].
    rewrite <- !app_assoc. reflexivity.
Qed.

(** The chunk is skipped: the run when the path tested is on disk and
    [fn1] is bound. *)
Lemma download_chunk_skips (client : Era5.CdsClient) (s : Era5.settings)
      (v : Era5.download_var) (chunk : list Z) (w : world) (f : string) :
  no_hr s v -> chunk <> [] ->
  chunk_name s v "day" chunk ∈ files w -> fn1 w = Some f ->
  Era5.download_chunk s v chunk w
  = (mkWorld (files w) (log w ++ [Print (f +:+ " already exists; skipped.")])
             (bound w) (fn1 w), Ok tt).
Proof.
  intros (Hdir & Hshort & Hsuffix) Hne Hthere Hbound.
  destruct (chunk_bounds chunk Hne) as [Hfirst Hlast].
  unfold chunk_name in *. unfold Era5.download_chunk.
  rewrite (bind_ok _ _ w w _ (lift_ok _ _ w Hfirst)).
  rewrite (bind_ok _ _ w w _ (lift_ok _ _ w Hlast)).
  cbv zeta. rewrite !re_sub_hr_filename by assumption.
  rewrite (bind_ok _ _ w w true).
  2:{ unfold os_path_exists. rewrite bool_decide_eq_true_2 by exact Hthere. reflexivity. }
  cbn [negb]. destruct w as [fs lg bd f1]. cbn [fn1] in Hbound. subst f1. reflexivity.
Qed.
(** ** String lengths *)

Lemma length_append (a b : string) :
  String.length (a +:+ b) = (String.length a + String.length b)%nat.
Proof. induction a as [|c a IH]; [reflexivity|]. simpl. f_equal. exact IH. Qed.

Lemma append_inv_tail (a b r : string) : a +:+ r = b +:+ r -> a = b.
Proof.
  revert b. induction a as [|c a IH]; intros [|d b] E.
  - reflexivity.
  - apply (f_equal String.length) in E. rewrite !length_append in E. simpl in E. lia.
  - apply (f_equal String.length) in E. rewrite !length_append in E. simpl in E. lia.
  - simpl in E. injection E as -> E. f_equal. now apply IH.
Qed.

(** The frequency tag can be read back from a file name. *)
Lemma filename_freq_inj (s : Era5.settings) (v : Era5.download_var) (a b : string)
      (first last : Z) :
  Era5.filename s v a first last = Era5.filename s v b first last -> a = b.
Proof.
  unfold Era5.filename. intros E. do 4 apply String.app_inj in E.
  now apply append_inv_tail in E.
Qed.

(** X21. A chunk in the notebook's own configuration (resampling on,
    [output_freq_name] ["day"], no ["hr"] in the settings that enter the
    names), not yet on disk, with the request served: the hourly file is
    fetched and opened, the resampled file is written under the name
    with ["day"], the hourly file is removed, and "processed!" is
    printed; a second run of the same chunk then finds the file, fetches
    nothing and only prints that it was skipped. *)
Theorem download_chunk_rerun_skips (client : Era5.CdsClient) (s : Era5.settings)
        (v : Era5.download_var) (chunk : list Z) (w : world) :
  no_hr s v -> chunk <> [] ->
  Era5.resamp (Era5.resampling s) = true ->
  Era5.output_freq_name (Era5.resampling s) = "day" ->
  Era5.retrieve chunk = Ok tt ->
  chunk_name s v "day" chunk ∉ files w ->
  exists w1,
    Era5.download_chunk s v chunk w = (w1, Ok tt) /\
    log w1 = log w ++ [Retrieve chunk (chunk_name s v "hr" chunk);
                       OpenDataset (chunk_name s v "hr" chunk);
                       ToNetcdf (chunk_name s v "day" chunk);
                       Remove (chunk_name s v "hr" chunk);
                       Print (chunk_name s v "day" chunk +:+ " processed!")] /\
    (forall p, p ∈ files w1 <->
               (p ∈ files w /\ p <> chunk_name s v "hr" chunk) \/
               p = chunk_name s v "day" chunk) /\
    fn1 w1 = Some (chunk_name s v "day" chunk) /\
    Era5.download_chunk s v chunk w1
    = (mkWorld (files w1)
               (log w1 ++ [Print (chunk_name s v "day" chunk +:+ " already exists; skipped.")])
               (bound w1) (fn1 w1), Ok tt).
Proof.
  intros Hhr Hne Hresamp Hfreq Hserved Hnew.
  pose proof (download_chunk_fetches client s v chunk w Hhr Hne Hserved Hnew) as E.
  assert (Hproc : processed_name s v chunk = chunk_name s v "day" chunk).
  { unfold processed_name. now rewrite Hresamp, Hfreq. }
  assert (Hdiff : chunk_name s v "hr" chunk <> chunk_name s v "day" chunk)
    by apply filename_freq_hr_day.
  unfold fetch_events in E. rewrite Hresamp, Hproc in E. cbn [app] in E.
  match type of E with _ = (?x, _) => set (w1 := x) in * end.
  exists w1. split; [exact E|].
  split; [reflexivity|]. split; [|split; [reflexivity|]].
  - intros p. subst w1. cbn [files].
    rewrite elem_of_difference, !elem_of_union, !elem_of_singleton.
    split; [|intros [[H1 H2]| ->]; auto].
    intros [[[H|H]|H] Hn]; auto. contradiction.
  - apply (download_chunk_skips client s v chunk w1 (chunk_name s v "day" chunk) Hhr Hne);
      [|reflexivity].
    subst w1. cbn [files].
    rewrite elem_of_difference, !elem_of_union, !elem_of_singleton.
    split; [auto|]. intros E'. now apply Hdiff.
Qed.

Lemma era5_settings_no_hr (years : list Z) : no_hr (era5_settings years) vwt.
Proof. repeat split. Qed.

Lemma download_chunk_rerun_skips_witness :
  exists w1,
    Era5.download_chunk (era5_settings (years_from 1979 7)) vwt (years_from 1979 5)
                        (fresh_kernel ∅) = (w1, Ok tt) /\
    log w1 = [Retrieve (years_from 1979 5) hr_1979_1983; OpenDataset hr_1979_1983;
              ToNetcdf day_1979_1983; Remove hr_1979_1983;
              Print (day_1979_1983 +:+ " processed!")] /\
    (Era5.download_chunk (era5_settings (years_from 1979 7)) vwt (years_from 1979 5) w1).2
    = Ok tt /\
    log (Era5.download_chunk (era5_settings (years_from 1979 7)) vwt (years_from 1979 5) w1).1
    = log w1 ++ [Print (day_1979_1983 +:+ " already exists; skipped.")].
Proof.
  destruct (download_chunk_rerun_skips cds_always (era5_settings (years_from 1979 7)) vwt
              (years_from 1979 5) (fresh_kernel ∅))
    as (w1 & E & Hlog & _ & _ & E2).
  - apply era5_settings_no_hr.
  - discriminate.
  - reflexivity.
  - reflexivity.
  - reflexivity.
  - apply not_elem_of_empty.
  - exists w1. split; [exact E|]. split; [exact Hlog|]. rewrite E2. split; reflexivity.
Defined.

(** X22. A chunk whose processed file does not carry the tag ["day"]
    is never recognised as done: the existence test looks for the name
    with ["day"] whatever the settings. When resampling is off (the file
    keeps the tag ["hr"]), or when it is on with an [output_freq_name]
    other than ["day"] and ["hr"], a chunk that was fetched and
    processed is on disk under its processed name, and the next run
    fetches and processes it again. *)
Theorem download_chunk_rerun_fetches_again (client : Era5.CdsClient) (s : Era5.settings)
        (v : Era5.download_var) (chunk : list Z) (w : world) :
  no_hr s v -> chunk <> [] ->
  Era5.resamp (Era5.resampling s) = false \/
  (Era5.output_freq_name (Era5.resampling s) <> "day" /\
   Era5.output_freq_name (Era5.resampling s) <> "hr") ->
  Era5.retrieve chunk = Ok tt ->
  chunk_name s v "day" chunk ∉ files w ->
  exists w1 w2,
    Era5.download_chunk s v chunk w = (w1, Ok tt) /\
    log w1 = log w ++ fetch_events s v chunk /\
    processed_name s v chunk ∈ files w1 /\
    Era5.download_chunk s v chunk w1 = (w2, Ok tt) /\
    log w2 = log w1 ++ fetch_events s v chunk.
Proof.
  intros Hhr Hne Hcase Hserved Hnew.
  assert (Hdiff : chunk_name s v "hr" chunk <> chunk_name s v "day" chunk)
    by apply filename_freq_hr_day.
  assert (Hneq : processed_name s v chunk <> chunk_name s v "day" chunk).
  { unfold processed_name. destruct Hcase as [->|[Hday _]]; [exact Hdiff|].
    destruct (Era5.resamp (Era5.resampling s)); [|exact Hdiff].
    intros E. now apply filename_freq_inj in E. }
  assert (Hkept : Era5.resamp (Era5.resampling s) = true ->
                  processed_name s v chunk <> chunk_name s v "hr" chunk).
  { intros Hon. unfold processed_name. rewrite Hon.
    destruct Hcase as [Hoff|[_ Hhour]]; [congruence|].
    intros E. now apply filename_freq_inj in E. }
  pose proof (download_chunk_fetches client s v chunk w Hhr Hne Hserved Hnew) as E.
  match type of E with _ = (?x, _) => set (w1 := x) in * end.
  assert (Hnew1 : chunk_name s v "day" chunk ∉ files w1).
  { subst w1. cbn [files]. destruct (Era5.resamp (Era5.resampling s));
      rewrite ?elem_of_union, ?elem_of_difference, ?elem_of_union, ?elem_of_singleton;
      intuition congruence. }
  pose proof (download_chunk_fetches client s v chunk w1 Hhr Hne Hserved Hnew1) as E1.
  match type of E1 with _ = (?x, _) => set (w2 := x) in * end.
  exists w1, w2. split; [exact E|]. split; [reflexivity|].
  split; [|split; [exact E1|reflexivity]].
  subst w1. cbn [files]. destruct (Era5.resamp (Era5.resampling s)) eqn:R.
  - rewrite elem_of_difference, !elem_of_union, !elem_of_singleton.
    split; [auto|]. now apply Hkept.
  - rewrite elem_of_union, elem_of_singleton. auto.
Qed.

Lemma era5_settings_hourly_no_hr (years : list Z) : no_hr (era5_settings_hourly years) vwt.
Proof. repeat split. Qed.

Lemma download_chunk_rerun_fetches_again_witness :
  exists w1 w2,
    Era5.download_chunk (era5_settings_hourly (years_from 1979 7)) vwt (years_from 1979 5)
                        (fresh_kernel ∅) = (w1, Ok tt) /\
    hr_1979_1983 ∈ files w1 /\
    Era5.download_chunk (era5_settings_hourly (years_from 1979 7)) vwt (years_from 1979 5) w1
    = (w2, Ok tt) /\
    log w2 = [Retrieve (years_from 1979 5) hr_1979_1983; OpenDataset hr_1979_1983;
              Remove hr_1979_1983; ToNetcdf hr_1979_1983;
              Print (hr_1979_1983 +:+ " processed!");
              Retrieve (years_from 1979 5) hr_1979_1983; OpenDataset hr_1979_1983;
              Remove hr_1979_1983; ToNetcdf hr_1979_1983;
              Print (hr_1979_1983 +:+ " processed!")].
Proof.
  destruct (download_chunk_rerun_fetches_again cds_always
              (era5_settings_hourly (years_from 1979 7)) vwt
              (years_from 1979 5) (fresh_kernel ∅))
    as (w1 & w2 & E & Hlog & Hin & E2 & Hlog2).
  - apply era5_settings_hourly_no_hr.
  - discriminate.
  - left. reflexivity.
  - reflexivity.
  - apply not_elem_of_empty.
  - exists w1, w2. split; [exact E|]. split; [exact Hin|]. split; [exact E2|].
    rewrite Hlog2, Hlog. reflexivity.
Defined.
(** ** The whole download of one variable *)

Lemma filename_hr_not_day (s : Era5.settings) (v : Era5.download_var) (f l f' l' : Z) :
  Era5.filename s v "hr" f l <> Era5.filename s v "day" f' l'.
Proof.
  unfold Era5.filename. intros E.
  do 4 apply String.app_inj in E. discriminate E.
Qed.

Lemma prefix_append (a b : string) : String.prefix a (a +:+ b) = true.
Proof.
  induction a as [|c a IH]; [now destruct b|]. simpl.
  destruct (ascii_dec c c); [exact IH | contradiction].
Qed.

Lemma drop_chars_append (a b : string) : Era5.drop_chars (String.length a) (a +:+ b) = b.
Proof. induction a as [|c a IH]; [now destruct b | exact IH]. Qed.

Lemma ends_with_append (a b : string) : Era5.ends_with b (a +:+ b) = true.
Proof.
  unfold Era5.ends_with. rewrite length_append.
  replace (String.length a + String.length b - String.length b)%nat
    with (String.length a) by lia.
  rewrite drop_chars_append, String.eqb_refl, andb_true_r.
  apply Nat.leb_le. lia.
Qed.

Lemma has_slash_append (a b : string) :
  occurs "/" a = false -> Era5.has_slash (String.length a) (a +:+ b) = false.
Proof.
  induction a as [|c a IH]; [reflexivity|]. cbn [occurs]. intros H.
  apply orb_false_iff in H as [Hc Ha]. simpl. now rewrite Hc, IH.
Qed.

Lemma occurs_append (c : ascii) (a b : string) :
  occurs c (a +:+ b) = occurs c a || occurs c b.
Proof.
  induction a as [|x a IH]; [reflexivity|]. simpl. now rewrite IH, orb_assoc.
Qed.

(** The wildcard of [open_mfdataset] matches the name of every chunk
    that carries the tag [output_freq_name]. *)
Lemma glob_match_filename (s : Era5.settings) (v : Era5.download_var) (freq : string)
      (first last : Z) :
  Era5.glob_match
    (Era5.raw_data_dir s +:+ "ERA5/" +:+ Era5.short_name v +:+ "_" +:+ freq +:+
     "_ERA5_historical_reanalysis_")
    (Era5.fn_suffix (Era5.geographic s) +:+ ".nc")
    (Era5.filename s v freq first last) = true.
Proof.
  set (before := Era5.raw_data_dir s +:+ "ERA5/" +:+ Era5.short_name v +:+ "_" +:+ freq +:+
                 "_ERA5_historical_reanalysis_").
  set (after := Era5.fn_suffix (Era5.geographic s) +:+ ".nc").
  set (star := str first +:+ "0101-" +:+ str last +:+ "1231").
  assert (E : Era5.filename s v freq first last = before +:+ (star +:+ after)).
  { unfold Era5.filename, before, star, after. now rewrite !append_assoc. }
  rewrite E. unfold Era5.glob_match. rewrite prefix_append, drop_chars_append.
  cbv zeta. rewrite ends_with_append, length_append.
  replace (String.length star + String.length after - String.length after)%nat
    with (String.length star) by lia.
  rewrite has_slash_append; [reflexivity|].
  unfold star. rewrite !occurs_append, !occurs_str by (reflexivity || discriminate).
  reflexivity.
Qed.

Section WholeDownload.
Context (client : Era5.CdsClient) (s : Era5.settings) (v : Era5.download_var).
Hypothesis Hhr : no_hr s v.
Hypothesis Hresamp : Era5.resamp (Era5.resampling s) = true.
Hypothesis Hfreq : Era5.output_freq_name (Era5.resampling s) = "day".

Lemma processed_name_day (c : list Z) : processed_name s v c = chunk_name s v "day" c.
Proof. unfold processed_name. now rewrite Hresamp, Hfreq. Qed.

Lemma hr_not_among_days (c : list Z) (cs : list (list Z)) :
~ In (chunk_name s v "hr" c) (List.map (chunk_name s v "day") cs).
Proof.
intros Hin. apply in_map_iff in Hin as (c' & E & _).
symmetry in E. now apply filename_hr_not_day in E.
Qed.

Lemma day_not_among_hrs (c : list Z) (cs : list (list Z)) :
~ In (chunk_name s v "day" c) (List.map (chunk_name s v "hr") cs).
Proof.
intros Hin. apply in_map_iff in Hin as (c' & E & _).
now apply filename_hr_not_day in E.
Qed.

(** The loop over the chunks when none of them is on disk. *)
Lemma chunk_loop_run (cs : list (list Z)) :
forall w,
  Forall (fun c => c <> []) cs ->
  Forall (fun c => Era5.retrieve c = Ok tt) cs ->
  NoDup (List.map (chunk_name s v "day") cs) ->
  Forall (fun c => chunk_name s v "day" c ∉ files w) cs ->
  exists w',
    for_each cs (Era5.download_chunk s v) w = (w', Ok tt) /\
    log w' = log w ++ flat_map (fetch_events s v) cs /\
    bound w' = bound w /\
    (forall p, p ∈ files w' <->
               (p ∈ files w /\ ~ In p (List.map (chunk_name s v "hr") cs)) \/
               In p (List.map (chunk_name s v "day") cs)).
Proof.
induction cs as [|c cs IH]; intros w Hne Hserved Hdup Hnew.
- exists w. split; [reflexivity|]. cbn. rewrite app_nil_r.
  split; [reflexivity|]. split; [reflexivity|]. intros p. tauto.
- apply Forall_cons_1 in Hne as [Hc Hne]. apply Forall_cons_1 in Hserved as [Hsc Hserved].
  apply Forall_cons_1 in Hnew as [Hnc Hnew]. cbn [List.map] in Hdup.
  apply NoDup_cons in Hdup as [Hfresh Hdup]. rewrite list_elem_of_In in Hfresh.
  pose proof (download_chunk_fetches client s v c w Hhr Hc Hsc Hnc) as E.
  rewrite Hresamp, processed_name_day in E.
  match type of E with _ = (?x, _) => set (w1 := x) in * end.
  destruct (IH w1 Hne Hserved Hdup) as (w' & E' & Hlog & Hbound & Hfiles).
  { apply List.Forall_forall. intros c' Hc'. subst w1. cbn [files].
    rewrite elem_of_difference, !elem_of_union, !elem_of_singleton.
    intros [[[H|H]|H] Hn].
    - rewrite List.Forall_forall in Hnew. now apply (Hnew c').
    - contradiction.
    - apply Hfresh. rewrite <- H. apply in_map, Hc'. }
  exists w'. cbn [for_each]. rewrite (bind_ok _ _ w w1 tt) by exact E.
  split; [exact E'|]. split.
  { rewrite Hlog. subst w1. cbn [log flat_map]. now rewrite <- app_assoc. }
  split; [rewrite Hbound; reflexivity|].
  intros p. rewrite Hfiles. subst w1. cbn [files List.map In].
  rewrite elem_of_difference, !elem_of_union, !elem_of_singleton.
  pose proof (day_not_among_hrs c cs) as Hd.
  split.
  + intros [[[[[H|H]|H] Hn] Hrest]|H].
    * left. split; [exact H|]. intros [<-|Hin]; [now apply Hn | contradiction].
    * contradiction.
    * right. left. now symmetry.
    * right. right. exact H.
  + intros [[H Hn]|[<-|H]].
    * left. split; [split; [auto|]|]; intros Hx; apply Hn; auto.
    * left. split; [split; [auto|]|exact Hd].
      intros Hx. symmetry in Hx. now apply filename_hr_not_day in Hx.
    * right. exact H.
Qed.

(** The removal loop when every component file is on disk. *)
Lemma removal_loop_run (cs : list (list Z)) :
forall w,
  Forall (fun c => c <> []) cs ->
  NoDup (List.map (chunk_name s v "day") cs) ->
  Forall (fun c => chunk_name s v "day" c ∈ files w) cs ->
  exists w',
    for_each cs (fun chunk =>
      first ← lift (getitem chunk 0);
      last ← lift (Era5.last_item chunk);
      os_remove (Era5.filename s v (Era5.output_freq_name (Era5.resampling s)) first last)) w
    = (w', Ok tt) /\
    log w' = log w ++ List.map (fun c => Remove (chunk_name s v "day" c)) cs /\
    bound w' = bound w /\
    (forall p, p ∈ files w' <->
               p ∈ files w /\ ~ In p (List.map (chunk_name s v "day") cs)).
Proof.
induction cs as [|c cs IH]; intros w Hne Hdup Hthere.
- exists w. split; [reflexivity|]. cbn. rewrite app_nil_r.
  split; [reflexivity|]. split; [reflexivity|]. intros p. tauto.
- apply Forall_cons_1 in Hne as [Hc Hne]. apply Forall_cons_1 in Hthere as [Htc Hthere].
  cbn [List.map] in Hdup. apply NoDup_cons in Hdup as [Hfresh Hdup]. rewrite list_elem_of_In in Hfresh.
  destruct (chunk_bounds c Hc) as [Hfirst Hlast].
  set (f := chunk_name s v "day" c) in *.
  set (w1 := mkWorld (files w ∖ {[f]}) (log w ++ [Remove f]) (bound w) (fn1 w)).
  destruct (IH w1 Hne Hdup) as (w' & E' & Hlog & Hbound & Hfiles).
  { apply List.Forall_forall. intros c' Hc'. subst w1. cbn [files].
    rewrite elem_of_difference, elem_of_singleton. split.
    - rewrite List.Forall_forall in Hthere. now apply Hthere.
    - intros H. apply Hfresh. subst f. rewrite <- H. apply in_map, Hc'. }
  exists w'. cbn [for_each]. rewrite (bind_ok _ _ w w1 tt).
  2:{ rewrite (bind_ok _ _ w w (chunk_first c)) by now apply lift_ok.
      rewrite (bind_ok _ _ w w (chunk_last c)) by now apply lift_ok.
      rewrite Hfreq. unfold os_remove. fold (chunk_name s v "day" c). fold f.
      rewrite bool_decide_eq_true_2 by exact Htc. reflexivity. }
  split; [exact E'|]. split.
  { rewrite Hlog. subst w1. cbn [log List.map]. now rewrite <- app_assoc. }
  split; [rewrite Hbound; reflexivity|].
  intros p. rewrite Hfiles. subst w1 f. cbn [files List.map In].
  rewrite elem_of_difference, elem_of_singleton.
  split; [intros [[H Hn] Hrest]|intros [H Hn]].
  + split; [exact H|]. intros [Hx|Hx]; [now apply Hn | now apply Hrest].
  + split; [split; [exact H|]|]; intros Hx; apply Hn; auto.
Qed.

End WholeDownload.
(** X23. One variable, from nothing on disk to the final file, in the
    notebook's own configuration (resampling on, [output_freq_name]
    ["day"], a positive chunk size, at least one year, no ["hr"] in the
    settings that enter the names). When every request is served,
    neither the final file nor a chunk's resampled file is on disk
    beforehand, and the final name and the chunks' names are pairwise
    different, the cell ends without an exception: every chunk is
    fetched, resampled and its hourly file removed, in order; the
    wildcard then opens at least the resampled file of every chunk, the
    final file is written, and the resampled file of every chunk is
    removed. Afterwards the final file is on disk, no chunk file is, and
    every other file is as it was. *)
Theorem download_builds_final_file (client : Era5.CdsClient) (s : Era5.settings)
        (v : Era5.download_var) (cs : list (list Z)) (w : world) :
  no_hr s v ->
  Era5.resamp (Era5.resampling s) = true ->
  Era5.output_freq_name (Era5.resampling s) = "day" ->
  (0 < Era5.chunk_size s)%Z ->
  Era5.all_years s <> [] ->
  Era5.chunks s = Ok cs ->
  Forall (fun c => Era5.retrieve c = Ok tt) cs ->
  NoDup (chunk_name s v "day" (Era5.all_years s) :: List.map (chunk_name s v "day") cs) ->
  chunk_name s v "day" (Era5.all_years s) ∉ files w ->
  Forall (fun c => chunk_name s v "day" c ∉ files w) cs ->
  exists w' matched,
    Era5.download s v w = (w', Ok tt) /\
    log w' = log w ++ flat_map (fetch_events s v) cs ++
             [OpenMfdataset matched; ToNetcdf (chunk_name s v "day" (Era5.all_years s))] ++
             List.map (fun c => Remove (chunk_name s v "day" c)) cs /\
    (forall c, In c cs -> In (chunk_name s v "day" c) matched) /\
    (forall p, p ∈ files w' <->
               (p ∈ files w /\ ~ In p (List.map (chunk_name s v "hr") cs)) \/
               p = chunk_name s v "day" (Era5.all_years s)).
Proof.
  intros Hhr Hresamp Hfreq Hsize Hyears Hcs Hserved Hdup Hfinal Hnew.
  set (fn_final := chunk_name s v "day" (Era5.all_years s)) in *.
  apply NoDup_cons in Hdup as [Hfresh Hdup]. rewrite list_elem_of_In in Hfresh.
  assert (Hne : Forall (fun c => c <> []) cs /\ cs <> []).
  { unfold Era5.chunks in Hcs.
    destruct (Z.eqb_spec (Era5.chunk_size s) 0) as [|_]; [lia|].
    destruct (Z.ltb_spec (Era5.chunk_size s) 0) as [|_]; [lia|].
    injection Hcs as <-.
    destruct (chunks_of_spec (Z.to_nat (Era5.chunk_size s)) ltac:(lia)
                (length (Era5.all_years s)) (Era5.all_years s) (le_n _))
      as (Hcat & Hall & _).
    split.
    - eapply List.Forall_impl; [|exact Hall]. now intros c [H _].
    - intros E. rewrite E in Hcat. cbn in Hcat. now apply Hyears. }
  destruct Hne as [Hne Hsome].
  destruct (chunk_bounds (Era5.all_years s) Hyears) as [Hfirst Hlast].
  destruct (chunk_loop_run client s v Hhr Hresamp Hfreq cs w Hne Hserved Hdup Hnew)
    as (w1 & E1 & Hlog1 & _ & Hfiles1).
  set (before := Era5.raw_data_dir s +:+ "ERA5/" +:+ Era5.short_name v +:+ "_" +:+
                 Era5.output_freq_name (Era5.resampling s) +:+ "_ERA5_historical_reanalysis_").
  set (after := Era5.fn_suffix (Era5.geographic s) +:+ ".nc").
  set (matched := List.filter (Era5.glob_match before after) (elements (files w1))).
  assert (Hmatched : forall c, In c cs -> In (chunk_name s v "day" c) matched).
  { intros c Hc. apply filter_In. split.
    - apply list_elem_of_In, elem_of_elements, Hfiles1. right. now apply in_map.
    - unfold before, after, chunk_name. rewrite <- Hfreq. apply glob_match_filename. }
  set (w2 := mkWorld (files w1) (log w1 ++ [OpenMfdataset matched]) (bound w1) (fn1 w1)).
  set (w3 := mkWorld (files w2 ∪ {[fn_final]}) (log w2 ++ [ToNetcdf fn_final])
                     (bound w2) (fn1 w2)).
  destruct (removal_loop_run s v Hfreq cs w3 Hne Hdup) as (w' & E' & Hlog' & _ & Hfiles').
  { apply List.Forall_forall. intros c Hc. subst w3 w2. cbn [files].
    apply elem_of_union_l, Hfiles1. right. now apply in_map. }
  exists w', matched. split.
  { unfold Era5.download.
    rewrite (bind_ok _ _ w w cs) by now apply lift_ok.
    rewrite (bind_ok _ _ w w (chunk_first (Era5.all_years s))) by now apply lift_ok.
    rewrite (bind_ok _ _ w w (chunk_last (Era5.all_years s))) by now apply lift_ok.
    cbv zeta. rewrite Hresamp, Hfreq. fold (chunk_name s v "day" (Era5.all_years s)).
    fold fn_final.
    rewrite (bind_ok _ _ w w false).
    2:{ unfold os_path_exists. rewrite bool_decide_eq_false_2 by exact Hfinal. reflexivity. }
    cbn [negb]. rewrite (bind_ok _ _ w w1 tt) by exact E1.
    unfold Era5.concatenate. fold before after.
    rewrite (bind_ok _ _ w1 w2 tt).
    2:{ unfold Era5.open_mfdataset. fold matched.
        destruct matched as [|m ms] eqn:Em; [|reflexivity].
        destruct cs as [|c cs']; [contradiction|]. destruct (Hmatched c (or_introl eq_refl)). }
    rewrite (bind_ok _ _ w2 w3 tt) by reflexivity.
    exact E'. }
  split.
  { rewrite Hlog'. subst w3 w2. cbn [log]. rewrite Hlog1.
    rewrite <- !app_assoc. reflexivity. }
  split; [exact Hmatched|].
  intros p. rewrite Hfiles'. subst w3 w2. cbn [files].
  rewrite elem_of_union, elem_of_singleton, Hfiles1.
  split.
  - intros [[[H|H]|H] Hn]; [left; exact H|contradiction|right; exact H].
  - intros [[H Hn]| ->].
    + split; [left; left; auto|]. intros Hin.
      apply in_map_iff in Hin as (c & <- & Hc).
      rewrite List.Forall_forall in Hnew. now apply (Hnew c).
    + split; [right; reflexivity | exact Hfresh].
Qed.

Lemma download_builds_final_file_witness :
  exists w' matched,
    Era5.download (era5_settings (years_from 1979 7)) vwt (fresh_kernel ∅) = (w', Ok tt) /\
    log w' = [Retrieve (years_from 1979 5) hr_1979_1983; OpenDataset hr_1979_1983;
              ToNetcdf day_1979_1983; Remove hr_1979_1983;
              Print (day_1979_1983 +:+ " processed!");
              Retrieve (years_from 1984 2) hr_1984_1985; OpenDataset hr_1984_1985;
              ToNetcdf day_1984_1985; Remove hr_1984_1985;
              Print (day_1984_1985 +:+ " processed!");
              OpenMfdataset matched; ToNetcdf day_1979_1985;
              Remove day_1979_1983; Remove day_1984_1985] /\
    (forall p, p ∈ files w' <-> p = day_1979_1985).
Proof.
  destruct (download_builds_final_file cds_always (era5_settings (years_from 1979 7)) vwt
              [years_from 1979 5; years_from 1984 2] (fresh_kernel ∅))
    as (w' & matched & E & Hlog & _ & Hfiles).
  - apply era5_settings_no_hr.
  - reflexivity.
  - reflexivity.
  - reflexivity.
  - discriminate.
  - reflexivity.
  - repeat constructor.
  - repeat (apply NoDup_cons; split; [rewrite list_elem_of_In; cbn; intuition discriminate|]).
    apply NoDup_nil_2.
  - apply not_elem_of_empty.
  - repeat constructor; apply not_elem_of_empty.
  - exists w', matched. split; [exact E|]. split; [exact Hlog|].
    intros p. rewrite Hfiles. split; [intros [[H _]| ->]|intros ->].
    + now apply not_elem_of_empty in H.
    + reflexivity.
    + right. reflexivity.
Defined.
